(** * mfaCTpy: registration and coordinate mapping, checked against the code

    A shallow embedding of the parts of [midline_alignment.py],
    [landmark_registration.py] and [fiber_tracker.py] that decide the
    properties stated about them, followed by the theorems.

    Conventions of the embedding.
    - Python [int] is [Z]; Python [float] and numpy [float64] are the
      kernel's binary64 [float], so comparisons, negation, subtraction and
      division are the IEEE operations the interpreter performs.
    - A call that may raise returns an [outcome]; [Raise] carries the
      exception and the rest of the function body is skipped, as in Python.
    - numpy, scipy and SimpleITK routines (SVD, arccos, rotations,
      resampling, transform fitting) and the C library's [pow] are not code
      of this repository: each module takes them as a record of functions,
      so every theorem holds for whatever these libraries compute.
    - [print] calls are dropped: they change no value that is returned or
      stored. *)

From Stdlib Require Import ZArith List Ascii String Bool Lia Floats.
From stdpp Require Import gmap strings list pretty.

Set Warnings "-inexact-float,-register-all".
Local Open Scope Z_scope.

(** ** Python values shared by the three source files *)

Module Py.

Inductive exception : Type :=
| ValueError (msg : string)
| KeyError (key : string)
| IndexError (msg : string)
| TypeError (msg : string)
| OverflowError (msg : string)
| ZeroDivisionError (msg : string)
| FileNotFoundError (path : string)
| LinAlgError (msg : string)      (* numpy.linalg *)
| RuntimeError (msg : string).    (* SimpleITK *)

Inductive outcome (A : Type) : Type :=
| Return (a : A)
| Raise (e : exception).
Arguments Return {A} a.
Arguments Raise {A} e.

Definition bind {A B} (m : outcome A) (k : A → outcome B) : outcome B :=
  match m with
  | Return a => k a
  | Raise e => Raise e
  end.

#[global] Instance outcome_ret : MRet outcome := @Return.
#[global] Instance outcome_bind : MBind outcome := λ A B k m, bind m k.

(** [try: body except Exception: handler]. *)
Definition try_except {A} (body : outcome A) (handler : exception → A) : A :=
  match body with
  | Return a => a
  | Raise e => handler e
  end.

Definition raised {A} (m : outcome A) : bool :=
  match m with
  | Return _ => false
  | Raise _ => true
  end.

(** Every exception [m] can raise satisfies [P]. *)
Definition raises_only {A} (P : exception → Prop) (m : outcome A) : Prop :=
  ∀ e, m = Raise e → P e.

(** A SimpleITK call: its failure is a message, seen by the caller as a
    [RuntimeError]. *)
Definition sitk_call {A} (r : string + A) : outcome A :=
  match r with
  | inl msg => Raise (RuntimeError msg)
  | inr a => Return a
  end.

(** *** Conversions between [int] and [float] *)

(** [float(z)], as the interpreter does it before [z * f]: the nearest
    binary64, [OverflowError] when that is infinite. *)
Definition float_of_int (z : Z) : outcome float :=
  let f := SF2Prim (binary_normalize prec emax z 0 false) in
  match Prim2SF f with
  | S754_infinity _ => Raise (OverflowError "int too large to convert to float")
  | _ => Return f
  end.

Definition int_times_float (z : Z) (f : float) : outcome float :=
  x ← float_of_int z; Return (x * f)%float.

(** [f / g] on Python floats. *)
Definition float_div (f g : float) : outcome float :=
  if (g =? 0)%float then Raise (ZeroDivisionError "float division by zero")
  else Return (f / g)%float.

(** Magnitude [m * 2^e] cut towards zero. *)
Definition trunc_mag (m : positive) (e : Z) : Z :=
  if 0 <=? e then Z.pos m * 2 ^ e else Z.pos m / 2 ^ (- e).

(** Magnitude [m * 2^e] to the nearest integer, ties to even. *)
Definition round_mag (m : positive) (e : Z) : Z :=
  if 0 <=? e then Z.pos m * 2 ^ e
  else
    let d := 2 ^ (- e) in
    let q := Z.pos m / d in
    let r := Z.pos m mod d in
    if 2 * r <? d then q
    else if d <? 2 * r then q + 1
    else if Z.even q then q else q + 1.

Definition float_to_int (mag : positive → Z → Z) (f : float) : outcome Z :=
  match Prim2SF f with
  | S754_zero _ => Return 0
  | S754_finite s m e => Return (if s then - mag m e else mag m e)
  | S754_infinity _ =>
      Raise (OverflowError "cannot convert float infinity to integer")
  | S754_nan => Raise (ValueError "cannot convert float NaN to integer")
  end.

(** [int(f)] and [int(round(f))]. *)
Definition int_of_float : float → outcome Z := float_to_int trunc_mag.
Definition int_round : float → outcome Z := float_to_int round_mag.

(** A 3-vector of floats: a numpy array of shape (3,) or a 3-tuple. *)
Definition vec3 : Type := float * float * float.

Definition vneg (v : vec3) : vec3 :=
  let '(a, b, c) := v in (- a, - b, - c)%float.
Definition vdiv (v : vec3) (s : float) : vec3 :=
  let '(a, b, c) := v in (a / s, b / s, c / s)%float.
Definition vscale (s : float) (v : vec3) : vec3 :=
  let '(a, b, c) := v in (s * a, s * b, s * c)%float.

End Py.


(** ** midline_alignment.py: [MidlineAligner] *)

Module Midline.
Import Py.

(** The numerical routines [fit_midline_plane] calls. *)
Record NumLib : Type := {
  (* points_3d.mean(axis=0) *)
  np_mean0 : list (Z * Z * Z) → vec3;
  (* points_3d - centroid *)
  np_center : list (Z * Z * Z) → vec3 → list vec3;
  (* np.linalg.svd(points_centered)[2], the rows of vh *)
  np_svd_vh : list vec3 → outcome (vec3 * vec3 * vec3);
  np_cross : vec3 → vec3 → vec3;
  np_norm : vec3 → float;
  np_dot : vec3 → vec3 → float;
  (* np.clip(x, lo, hi) *)
  np_clip : float → float → float → float;
  np_arccos : float → float;
  np_degrees : float → float;
  (* Rotation.from_rotvec(rotvec).apply(v) *)
  rotvec_apply : vec3 → vec3 → vec3
}.

(** [self.midline_points]: a dict from (view, slice index) to the (row, col)
    clicks on that slice, in insertion order. *)
Definition midline_points : Type := list ((string * Z) * list (Z * Z)).

(** The body of the two nested loops that build [points_3d], as (x, y, z). *)
Definition point_3d (view : string) (slice_idx : Z) (p : Z * Z) : list (Z * Z * Z) :=
  let '(row, col) := p in
  if String.eqb view "axial" then [(col, slice_idx, row)]
  else if String.eqb view "coronal" then [(col, row, slice_idx)]
  else if String.eqb view "sagittal" then [(slice_idx, col, row)]
  else [].

Definition collect_points_3d (mp : midline_points) : list (Z * Z * Z) :=
  flat_map (λ '((view, slice_idx), points_2d),
              flat_map (point_3d view slice_idx) points_2d) mp.

(** The dict [fit_midline_plane] returns. *)
Record plane_fit : Type := {
  normal : vec3;
  centroid : vec3;
  rotation_axis : vec3;
  rotation_angle : float;
  rotation_angle_deg : float;
  points_3d : list (Z * Z * Z)
}.

Definition target_normal : vec3 := (1, 0, 0)%float.

(** [if normal[0] < 0: normal = -normal]. *)
Definition orient_normal (n : vec3) : vec3 :=
  if (fst (fst n) <? 0)%float then vneg n else n.

(** The axis and angle before the verification step:
    [rotation_axis / rotation_axis_norm] and
    [arccos(clip(dot(normal, target_normal), -1, 1))]. *)
Definition candidate_rotation (lib : NumLib) (n : vec3) : vec3 * float :=
  let rotation_axis := lib.(np_cross) n target_normal in
  let rotation_axis_norm := lib.(np_norm) rotation_axis in
  let rotation_axis := vdiv rotation_axis rotation_axis_norm in
  let cos_angle := lib.(np_clip) (lib.(np_dot) n target_normal) (-1) 1 in
  (rotation_axis, lib.(np_arccos) cos_angle).

Definition dot_before (lib : NumLib) (n : vec3) : float :=
  lib.(np_dot) n target_normal.

Definition dot_after (lib : NumLib) (n : vec3) : float :=
  let '(rotation_axis, rotation_angle) := candidate_rotation lib n in
  let rotated_normal := lib.(rotvec_apply) (vscale rotation_angle rotation_axis) n in
  lib.(np_dot) rotated_normal target_normal.

(** The test of the verification step, [dot_after < dot_before - 1e-8]. *)
Definition inverts_direction (lib : NumLib) (n : vec3) : bool :=
  (dot_after lib n <? dot_before lib n - 1e-8)%float.

(** The verification step as the specification words it: keep the candidate
    when the rotated normal is strictly closer to the canonical axis, negate
    axis and angle when it is not. *)
Definition spec_verified_rotation (lib : NumLib) (n : vec3) : vec3 * float :=
  let '(rotation_axis, rotation_angle) := candidate_rotation lib n in
  if (dot_before lib n <? dot_after lib n)%float then (rotation_axis, rotation_angle)
  else (vneg rotation_axis, - rotation_angle)%float.

(** Lines 654-689: axis, angle and angle in degrees for the oriented normal. *)
Definition rotation_of_normal (lib : NumLib) (n : vec3) : vec3 * float * float :=
  let rotation_axis_norm := lib.(np_norm) (lib.(np_cross) n target_normal) in
  if (1e-6 <? rotation_axis_norm)%float then
    let '(rotation_axis, rotation_angle) := candidate_rotation lib n in
    let rotation_angle_deg := lib.(np_degrees) rotation_angle in
    if inverts_direction lib n then
      (vneg rotation_axis, - rotation_angle, lib.(np_degrees) (- rotation_angle))%float
    else (rotation_axis, rotation_angle, rotation_angle_deg)
  else ((0, 0, 1), 0, 0)%float.

(** Lines 630-645: centroid, SVD of the centred points, last row of vh,
    oriented towards +X. *)
Definition fitted_normal (lib : NumLib) (pts : list (Z * Z * Z)) : outcome vec3 :=
  let c := lib.(np_mean0) pts in
  let points_centered := lib.(np_center) pts c in
  '(_, _, vh_last) ← lib.(np_svd_vh) points_centered;
  Return (orient_normal vh_last).

Definition fit_midline_plane (lib : NumLib) (mp : midline_points) : outcome plane_fit :=
  if (length mp <? 2)%nat then
    Raise (ValueError "Need at least 2 slices with midline points")
  else
    let pts := collect_points_3d mp in
    n ← fitted_normal lib pts;
    let '(axis, angle, angle_deg) := rotation_of_normal lib n in
    Return {| normal := n; centroid := lib.(np_mean0) pts; rotation_axis := axis;
              rotation_angle := angle; rotation_angle_deg := angle_deg;
              points_3d := pts |}.

(** *** [apply_alignment] *)

Inductive dtype : Type :=
| uint8
| uint16
| other_dtype (name : string).

(** What [apply_alignment] asks of SimpleITK and numpy, in call order. *)
Inductive lib_call : Type :=
| Resample (rotvec center : vec3)
| Clip (lo hi : float)
| Astype (d : dtype).

Section Volume.

(** A numpy volume; [self.image]. *)
Variable ndarray : Type.

Record ImageLib : Type := {
  nd_dtype : ndarray → dtype;
  (* astype(float32), GetImageFromArray with spacing 1, an AffineTransform
     whose matrix is Rotation.from_rotvec(rotvec).as_matrix() about center,
     ResampleImageFilter (linear, default 0), GetArrayFromImage *)
  sitk_rotate : ndarray → vec3 → vec3 → ndarray;
  nd_clip : ndarray → float → float → ndarray;
  nd_astype : ndarray → dtype → ndarray
}.

(** The angle given to the rotation: the handedness negation, then the
    optional reversal. *)
Definition effective_angle (plane_params : plane_fit) (reverse : bool) : float :=
  let rotation_angle := (- plane_params.(rotation_angle))%float in
  if reverse then (- rotation_angle)%float else rotation_angle.

(** Returns the volume and the library calls made to produce it. *)
Definition apply_alignment (il : ImageLib) (image : ndarray)
    (plane_params : plane_fit) (reverse : bool) : ndarray * list lib_call :=
  let rotation_angle := effective_angle plane_params reverse in
  let rotation_axis := plane_params.(rotation_axis) in
  if (abs rotation_angle <? 0.001)%float then (image, [])
  else
    let original_dtype := il.(nd_dtype) image in
    let rotvec := vscale rotation_angle rotation_axis in
    let center := plane_params.(centroid) in
    let aligned := il.(sitk_rotate) image rotvec center in
    match original_dtype with
    | uint16 =>
        (il.(nd_astype) (il.(nd_clip) aligned 0 65535) uint16,
         [Resample rotvec center; Clip 0 65535; Astype uint16])
    | uint8 =>
        (il.(nd_astype) (il.(nd_clip) aligned 0 255) uint8,
         [Resample rotvec center; Clip 0 255; Astype uint8])
    | d =>
        (il.(nd_astype) aligned d, [Resample rotvec center; Astype d])
    end.

End Volume.

Section Examples.
Local Open Scope float_scope.

(** *** A library instance for the examples

    Cross and dot product, norm, clip and degrees are the textbook IEEE
    formulas. [arccos] and the rotation are tables that hold the exact
    answers at the arguments the examples reach ([arccos 1 = 0], the rotation
    by the zero vector is the identity) and NaN elsewhere. The SVD answers
    with the rows it is given. *)

Definition ieee_cross (a b : vec3) : vec3 :=
  let '(a0, a1, a2) := a in
  let '(b0, b1, b2) := b in
  (a1 * b2 - a2 * b1, a2 * b0 - a0 * b2, a0 * b1 - a1 * b0).

Definition ieee_dot (a b : vec3) : float :=
  let '(a0, a1, a2) := a in
  let '(b0, b1, b2) := b in
  a0 * b0 + a1 * b1 + a2 * b2.

Definition ieee_norm (a : vec3) : float := sqrt (ieee_dot a a).

Definition ieee_clip (x lo hi : float) : float :=
  if x <? lo then lo else if hi <? x then hi else x.

Definition z_to_float (z : Z) : float :=
  SF2Prim (binary_normalize prec emax z 0 false).

Definition point_to_vec (p : Z * Z * Z) : vec3 :=
  let '(x, y, z) := p in (z_to_float x, z_to_float y, z_to_float z).

Definition vsub (a b : vec3) : vec3 :=
  let '(a0, a1, a2) := a in
  let '(b0, b1, b2) := b in
  (a0 - b0, a1 - b1, a2 - b2).

Definition ieee_mean0 (pts : list (Z * Z * Z)) : vec3 :=
  let '(s0, s1, s2) :=
    fold_left (λ acc p, let '(a0, a1, a2) := acc in
                        let '(p0, p1, p2) := point_to_vec p in
                        (a0 + p0, a1 + p1, a2 + p2)) pts (0, 0, 0) in
  vdiv (s0, s1, s2) (z_to_float (Z.of_nat (length pts))).

Definition arccos_table (x : float) : float :=
  if x =? 1 then 0 else nan.

Definition rotate_table (rotvec v : vec3) : vec3 :=
  let '(r0, r1, r2) := rotvec in
  if (r0 =? 0) && (r1 =? 0) && (r2 =? 0) then v else (nan, nan, nan).

Definition example_lib (vh : vec3 * vec3 * vec3) : NumLib :=
  {| np_mean0 := ieee_mean0;
     np_center := λ pts c, map (λ p, vsub (point_to_vec p) c) pts;
     np_svd_vh := λ _, Return vh;
     np_cross := ieee_cross;
     np_norm := ieee_norm;
     np_dot := ieee_dot;
     np_clip := ieee_clip;
     np_arccos := arccos_table;
     np_degrees := λ x, x * (180 / 0x1.921fb54442d18p+1);
     rotvec_apply := rotate_table |}.

(** The SVD answer for points on the plane x = 10. *)
Definition rows_x10 : vec3 * vec3 * vec3 := ((0, 1, 0), (0, 0, 1), (1, 0, 0)).

(** An SVD answer whose last row has x-component 1 and is off the X axis
    by 1e-5 in y. *)
Definition rows_tilted : vec3 * vec3 * vec3 :=
  ((0, 1, 0), (0, 0, 1), (1, 1e-5, 0)).

(** Four clicks on the plane x = 10, on two coronal slices. *)
Definition clicks_on_x10 : midline_points :=
  [(("coronal", 3), [(1, 10); (2, 10)]);
   (("coronal", 4), [(1, 10); (2, 10)])]%Z.

(** A volume as a flat list of samples, with a library whose rotation is
    never reached by the examples. *)
Definition flat_image_lib : ImageLib (list Z) :=
  {| nd_dtype := λ _, uint16;
     sitk_rotate := λ img _ _, img;
     nd_clip := λ img _ _, img;
     nd_astype := λ img _, img |}.

(** What [fit_midline_plane] returns for [clicks_on_x10] when the SVD
    answers [rows_tilted]. *)
Definition tilted_fit : plane_fit :=
  {| normal := (1, 1e-5, 0); centroid := (10, 1.5, 3.5);
     rotation_axis := (0, 0, -1); rotation_angle := 0;
     rotation_angle_deg := 0;
     points_3d := [(10, 1, 3); (10, 2, 3); (10, 1, 4); (10, 2, 4)]%Z |}.

(** *** A tilted midline

    Clicks on the plane 3x + 4y = 12, whose unit normal is (0.6, 0.8, 0).
    The library answers with that normal, [arccos 0.6] to the nearest
    binary64, and the rotation about -z by that angle, which takes the
    normal onto the X axis. *)





End Examples.

End Midline.

(** ** landmark_registration.py: [LandmarkSelector], [LandmarkRegistration] *)

Module Landmarks.
Import Py.

(** A landmark, (z, y, x). *)
Definition landmark : Type := Z * Z * Z.

(** The [{'marker': ..., 'text': ...}] dict kept for each drawn landmark. *)
Record plot : Type := { marker_x : Z; marker_y : Z; text : string }.

Inductive axes : Type :=
| ax_moving
| ax_fixed
| ax_other.

Record mouse_event : Type := {
  inaxes : option axes;
  button : Z;
  xdata : float;
  ydata : float
}.

(** The fields of a [LandmarkSelector] that its callbacks read or write. *)
Record selector : Type := {
  moving_landmarks : list landmark;
  fixed_landmarks : list landmark;
  landmark_names : list string;
  moving_plots : list plot;
  fixed_plots : list plot;
  moving_slice : Z;
  fixed_slice : Z;
  view : string;
  moving_name : string;
  fixed_name : string
}.

Definition set_moving (s : selector) (lms : list landmark) (plots : list plot) : selector :=
  {| moving_landmarks := lms; fixed_landmarks := s.(fixed_landmarks);
     landmark_names := s.(landmark_names);
     moving_plots := plots; fixed_plots := s.(fixed_plots);
     moving_slice := s.(moving_slice); fixed_slice := s.(fixed_slice);
     view := s.(view); moving_name := s.(moving_name); fixed_name := s.(fixed_name) |}.

Definition set_fixed (s : selector) (lms : list landmark) (names : list string)
    (plots : list plot) : selector :=
  {| moving_landmarks := s.(moving_landmarks); fixed_landmarks := lms;
     landmark_names := names;
     moving_plots := s.(moving_plots); fixed_plots := plots;
     moving_slice := s.(moving_slice); fixed_slice := s.(fixed_slice);
     view := s.(view); moving_name := s.(moving_name); fixed_name := s.(fixed_name) |}.

(** A callback leaves a state behind even when it raises part-way. *)
Definition callback : Type := selector → selector * outcome unit.

(** The 2D click as a 3D coordinate for the current view. *)
Definition click_landmark (view : string) (slice y x : Z) : landmark :=
  if String.eqb view "Z" then (slice, y, x)
  else if String.eqb view "Y" then (y, slice, x)
  else (y, x, slice).

Definition onclick (event : mouse_event) : callback := λ s,
  match event.(inaxes) with
  | None => (s, Return ())
  | Some ax =>
    if negb (event.(button) =? 1) then (s, Return ())
    else
      match int_of_float event.(xdata) with
      | Raise e => (s, Raise e)
      | Return x =>
        match int_of_float event.(ydata) with
        | Raise e => (s, Raise e)
        | Return y =>
          match ax with
          | ax_moving =>
              let lm := click_landmark s.(view) s.(moving_slice) y x in
              let lms := s.(moving_landmarks) ++ [lm] in
              let landmark_id := Z.of_nat (length lms) in
              let p := {| marker_x := x; marker_y := y; text := pretty landmark_id |} in
              (set_moving s lms (s.(moving_plots) ++ [p]), Return ())
          | ax_fixed =>
              if (length s.(moving_landmarks) <=? length s.(fixed_landmarks))%nat
              then (s, Return ())
              else
                let lm := click_landmark s.(view) s.(fixed_slice) y x in
                let lms := s.(fixed_landmarks) ++ [lm] in
                let landmark_id := Z.of_nat (length lms) in
                let default_name := "Point_" +:+ pretty landmark_id in
                let p := {| marker_x := x; marker_y := y; text := pretty landmark_id |} in
                (set_fixed s lms (s.(landmark_names) ++ [default_name])
                   (s.(fixed_plots) ++ [p]), Return ())
          | ax_other => (s, Return ())
          end
        end
      end
  end.

(** [l.pop()] for its effect on [l]; the caller checks that [l] is not empty. *)
Definition pop {A} (l : list A) : list A := removelast l.

Definition is_empty {A} (l : list A) : bool :=
  match l with
  | [] => true
  | _ => false
  end.

(** [update_display] changes no landmark, name or plot list. Modelled are
    its two loops, which index [moving_plots[idx]] and [fixed_plots[idx]]
    for every landmark. The drawing of the two slices that precedes them
    reads the images, which are not part of this state: what it can raise
    (a view outside Z/Y/X, a slice index outside the image) is not among
    the outcomes here. *)
Definition update_display (s : selector) : outcome unit :=
  if (length s.(moving_plots) <? length s.(moving_landmarks))%nat
  then Raise (IndexError "list index out of range")
  else if (length s.(fixed_plots) <? length s.(fixed_landmarks))%nat
  then Raise (IndexError "list index out of range")
  else Return ().

Definition on_undo : callback := λ s,
  if negb (is_empty s.(moving_landmarks)) && negb (is_empty s.(fixed_landmarks)) then
    let s1 := set_moving s (pop s.(moving_landmarks)) s.(moving_plots) in
    let s2 := set_fixed s1 (pop s1.(fixed_landmarks))
                (if is_empty s1.(landmark_names) then s1.(landmark_names)
                 else pop s1.(landmark_names))
                s1.(fixed_plots) in
    if is_empty s2.(moving_plots) then (s2, Raise (IndexError "pop from empty list"))
    else
      let s3 := set_moving s2 s2.(moving_landmarks) (pop s2.(moving_plots)) in
      if is_empty s3.(fixed_plots) then (s3, Raise (IndexError "pop from empty list"))
      else
        let s4 := set_fixed s3 s3.(fixed_landmarks) s3.(landmark_names)
                    (pop s3.(fixed_plots)) in
        (s4, update_display s4)
  else if negb (is_empty s.(moving_landmarks)) then
    let s1 := set_moving s (pop s.(moving_landmarks)) s.(moving_plots) in
    if is_empty s1.(moving_plots) then (s1, Raise (IndexError "pop from empty list"))
    else
      let s2 := set_moving s1 s1.(moving_landmarks) (pop s1.(moving_plots)) in
      (s2, update_display s2)
  else (s, update_display s).

(** The counting invariant of the two landmark lists. *)
Definition paired_prefix (s : selector) : Prop :=
  (length s.(fixed_landmarks) ≤ length s.(moving_landmarks))%nat.

(** Names and drawn markers in step with the landmark lists. *)
Definition in_sync (s : selector) : Prop :=
  length s.(landmark_names) = length s.(fixed_landmarks)
  ∧ length s.(moving_plots) = length s.(moving_landmarks)
  ∧ length s.(fixed_plots) = length s.(fixed_landmarks).

(** *** Saving and loading *)

(** A JSON document, as [json.dump] writes and [json.load] returns it. *)
Inductive json : Type :=
| JNull
| JInt (z : Z)
| JStr (s : string)
| JList (l : list json)
| JDict (items : list (string * json)).

(** [d[key]] and [d.get(key)] on a parsed JSON object. *)
Fixpoint dict_get (key : string) (items : list (string * json)) : option json :=
  match items with
  | [] => None
  | (k, v) :: rest => if String.eqb k key then Some v else dict_get key rest
  end.

(** The files on disk: path to parsed content. *)
Abbreviation files := (gmap string json).

(** [list(lm)]. *)
Definition landmark_to_json (lm : landmark) : json :=
  let '(z, y, x) := lm in JList [JInt z; JInt y; JInt x].

Definition save_data (s : selector) : json :=
  JDict [("moving_landmarks", JList (map landmark_to_json s.(moving_landmarks)));
         ("fixed_landmarks", JList (map landmark_to_json s.(fixed_landmarks)));
         ("landmark_names", JList (map JStr s.(landmark_names)));
         ("moving_name", JStr s.(moving_name));
         ("fixed_name", JStr s.(fixed_name));
         ("num_pairs", JInt (Z.of_nat (length s.(fixed_landmarks))));
         ("coordinate_convention", JStr "Z, Y, X")].

Definition save_landmarks (filepath : string) (s : selector) (fs : files) : files :=
  <[filepath := save_data s]> fs.

(** [tuple(lm)]; the typed selector holds (z, y, x) integer triples only. *)
Definition json_to_landmark (j : json) : outcome landmark :=
  match j with
  | JList [JInt z; JInt y; JInt x] => Return (z, y, x)
  | _ => Raise (TypeError "not a (z, y, x) triple")
  end.

Definition json_to_landmarks (j : json) : outcome (list landmark) :=
  match j with
  | JList l => mapM json_to_landmark l
  | _ => Raise (TypeError "not a list of landmarks")
  end.

Definition json_to_name (j : json) : outcome string :=
  match j with
  | JStr n => Return n
  | _ => Raise (TypeError "not a landmark name")
  end.

Definition json_to_names (j : json) : outcome (list string) :=
  match j with
  | JList l => mapM json_to_name l
  | _ => Raise (TypeError "not a list of names")
  end.

Definition set_landmarks (s : selector) (moving fixed : list landmark)
    (names : list string) : selector :=
  {| moving_landmarks := moving; fixed_landmarks := fixed; landmark_names := names;
     moving_plots := s.(moving_plots); fixed_plots := s.(fixed_plots);
     moving_slice := s.(moving_slice); fixed_slice := s.(fixed_slice);
     view := s.(view); moving_name := s.(moving_name); fixed_name := s.(fixed_name) |}.

(** Returns the selector after the call and what the call returns. The three
    attributes are assigned one after the other, so a failure on a later key
    leaves the earlier assignments in place. *)
Definition load_landmarks (filepath : string) (s : selector) (fs : files)
    : selector * outcome (list landmark * list landmark) :=
  match fs !! filepath with
  | None => (s, Raise (FileNotFoundError filepath))
  | Some (JDict data) =>
    match dict_get "moving_landmarks" data with
    | None => (s, Raise (KeyError "moving_landmarks"))
    | Some jm =>
      match json_to_landmarks jm with
      | Raise e => (s, Raise e)
      | Return moving =>
        let s1 := set_landmarks s moving s.(fixed_landmarks) s.(landmark_names) in
        match dict_get "fixed_landmarks" data with
        | None => (s1, Raise (KeyError "fixed_landmarks"))
        | Some jf =>
          match json_to_landmarks jf with
          | Raise e => (s1, Raise e)
          | Return fixed =>
            let s2 := set_landmarks s1 moving fixed s1.(landmark_names) in
            match json_to_names (default (JList []) (dict_get "landmark_names" data)) with
            | Raise e => (s2, Raise e)
            | Return names =>
              let s3 := set_landmarks s2 moving fixed names in
              (s3, Return (moving, fixed))
            end
          end
        end
      end
    end
  | Some _ => (s, Raise (TypeError "indices must be integers or slices, not str"))
  end.

(** *** [LandmarkRegistration.landmark_registration] *)

Inductive sitk_kind : Type :=
| AffineTransform3
| Similarity3DTransform
| Euler3DTransform.

Record metrics : Type := {
  errors : list float;
  mean_error : float;
  std_error : float;
  max_error : float;
  min_error : float
}.

(** [min_landmarks = {'rigid': 3, 'similarity': 3, 'affine': 4}]. *)
Definition min_landmarks : gmap string nat :=
  {[ "rigid" := 3%nat; "similarity" := 3%nat; "affine" := 4%nat ]}.

(** The message of the error raised for too few landmarks. Its f-string
    indexes [min_landmarks] again, so an unknown kind raises [KeyError]. *)
Definition too_few_error (transform_type : string) : exception :=
  match min_landmarks !! transform_type with
  | Some n =>
      ValueError ("Need at least " +:+ pretty n +:+ " landmark pairs for "
                  +:+ transform_type +:+ " registration")
  | None => KeyError transform_type
  end.

(** The minimum the specification gives: 3 for rigid and similarity, 4 for
    affine. *)
Definition spec_minimum (transform_type : string) : nat :=
  if String.eqb transform_type "affine" then 4%nat else 3%nat.

(** [len(moving_landmarks) < min_landmarks.get(transform_type, 4)]. *)
Definition too_few_landmarks (moving_landmarks : list landmark)
    (transform_type : string) : bool :=
  (length moving_landmarks <? default 4%nat (min_landmarks !! transform_type))%nat.

(** Exceptions other than the two that the landmark-count check raises. *)
Definition past_count_check (e : exception) : Prop :=
  match e with
  | ValueError (String "N"%char _) => False
  | KeyError _ => False
  | _ => True
  end.

(** (z, y, x) voxel indices to physical (x, y, z). *)
Definition to_physical (lm : landmark) (spacing : vec3) : outcome vec3 :=
  let '(z, y, x) := lm in
  let '(s0, s1, s2) := spacing in
  px ← int_times_float x s0;
  py ← int_times_float y s1;
  pz ← int_times_float z s2;
  Return (px, py, pz).

(** One turn of the loop that converts the landmark pairs. *)
Definition physical_pair (moving_spacing fixed_spacing : vec3)
    (pair : landmark * landmark) : outcome (vec3 * vec3) :=
  let '(m_lm, f_lm) := pair in
  m_phys ← to_physical m_lm moving_spacing;
  f_phys ← to_physical f_lm fixed_spacing;
  Return (m_phys, f_phys).

Definition flatten_points (ps : list vec3) : list float :=
  flat_map (λ '(a, b, c), [a; b; c]) ps.

(** [v ** 2] on Python floats: the value is the C library's
    [pow(v, 2.0)], here [pow2 v], and Python raises when it overflows. *)
Definition float_sq (pow2 : float → float) (v : float) : outcome float :=
  let r := pow2 v in
  match Prim2SF v, Prim2SF r with
  | S754_finite _ _ _, S754_infinity _ =>
      Raise (OverflowError "(34, 'Numerical result out of range')")
  | _, _ => Return r
  end.

Definition select_kind (transform_type : string) : outcome sitk_kind :=
  if String.eqb transform_type "affine" then Return AffineTransform3
  else if String.eqb transform_type "similarity" then Return Similarity3DTransform
  else if String.eqb transform_type "rigid" then Return Euler3DTransform
  else Raise (ValueError ("Unknown transform type: " +:+ transform_type)).

Section Registration.

(** numpy volumes, SimpleITK images and SimpleITK transforms. *)
Variables image sitk_image transform : Type.

(** SimpleITK and numpy as this function uses them. *)
Record SitkLib : Type := {
  numpy_to_sitk : image → vec3 → string + sitk_image;
  (* LandmarkBasedTransformInitializer(kind(), fixed_points, moving_points) *)
  landmark_initializer : sitk_kind → list float → list float → string + transform;
  transform_point : transform → vec3 → vec3;
  (* pow(v, 2.0) of the C library, behind v ** 2 *)
  libm_pow2 : float → float;
  (* ResampleImageFilter: reference image, linear, default 0; then
     GetArrayFromImage *)
  resample : sitk_image → transform → sitk_image → string + image;
  np_mean : list float → float;
  np_std : list float → float;
  np_min : list float → float;
  np_max : list float → float
}.

(** [errors.min()] and [errors.max()]: numpy refuses an empty array. *)
Definition reduce_nonempty (f : list float → float) (name : string)
    (l : list float) : outcome float :=
  if is_empty l then
    Raise (ValueError ("zero-size array to reduction operation " +:+ name
                       +:+ " which has no identity"))
  else Return (f l).

Definition landmark_error (lib : SitkLib) (t : transform)
    (moving_spacing fixed_spacing : vec3) (pair : landmark * landmark)
    : outcome float :=
  let '(m_lm, f_lm) := pair in
  m_phys ← to_physical m_lm moving_spacing;
  '(f0, f1, f2) ← to_physical f_lm fixed_spacing;
  let '(m0, m1, m2) := lib.(transform_point) t m_phys in
  d0 ← float_sq lib.(libm_pow2) (m0 - f0);
  d1 ← float_sq lib.(libm_pow2) (m1 - f1);
  d2 ← float_sq lib.(libm_pow2) (m2 - f2);
  Return (sqrt (0 + d0 + d1 + d2))%float.

Definition compute_landmark_error (lib : SitkLib)
    (moving_landmarks fixed_landmarks : list landmark) (t : transform)
    (moving_spacing fixed_spacing : vec3) : outcome (list float) :=
  mapM (landmark_error lib t moving_spacing fixed_spacing)
       (zip moving_landmarks fixed_landmarks).

(** The function after its landmark-count check. *)
Definition register_checked (lib : SitkLib) (moving_image fixed_image : image)
    (moving_landmarks fixed_landmarks : list landmark)
    (moving_spacing fixed_spacing : vec3) (transform_type : string)
    : outcome (image * transform * metrics) :=
  moving_sitk ← sitk_call (lib.(numpy_to_sitk) moving_image moving_spacing);
  fixed_sitk ← sitk_call (lib.(numpy_to_sitk) fixed_image fixed_spacing);
  phys ← mapM (physical_pair moving_spacing fixed_spacing)
              (zip moving_landmarks fixed_landmarks);
  let moving_points := flatten_points (phys.*1) in
  let fixed_points := flatten_points (phys.*2) in
  kind ← select_kind transform_type;
  landmark_transform ←
    sitk_call (lib.(landmark_initializer) kind fixed_points moving_points);
  errs ← compute_landmark_error lib moving_landmarks fixed_landmarks
            landmark_transform moving_spacing fixed_spacing;
  _ ← reduce_nonempty lib.(np_min) "minimum" errs;
  _ ← reduce_nonempty lib.(np_max) "maximum" errs;
  registered_array ←
    sitk_call (lib.(resample) fixed_sitk landmark_transform moving_sitk);
  max_e ← reduce_nonempty lib.(np_max) "maximum" errs;
  min_e ← reduce_nonempty lib.(np_min) "minimum" errs;
  Return (registered_array, landmark_transform,
          {| errors := errs; mean_error := lib.(np_mean) errs;
             std_error := lib.(np_std) errs;
             max_error := max_e; min_error := min_e |}).

Definition landmark_registration (lib : SitkLib) (moving_image fixed_image : image)
    (moving_landmarks fixed_landmarks : list landmark)
    (moving_spacing fixed_spacing : vec3) (transform_type : string)
    : outcome (image * transform * metrics) :=
  if too_few_landmarks moving_landmarks transform_type then
    Raise (too_few_error transform_type)
  else
    register_checked lib moving_image fixed_image moving_landmarks
      fixed_landmarks moving_spacing fixed_spacing transform_type.

End Registration.

(** *** Examples *)

(** A library in which every SimpleITK call fails. *)
Definition failing_sitk : SitkLib unit unit unit :=
  {| numpy_to_sitk := λ _ _, inl "numpy_to_sitk";
     landmark_initializer := λ _ _ _, inl "LandmarkBasedTransformInitializer";
     transform_point := λ _ p, p;
     libm_pow2 := λ v, (v * v)%float;
     resample := λ _ _ _, inl "Execute";
     np_mean := λ _, 0%float; np_std := λ _, 0%float;
     np_min := λ _, 0%float; np_max := λ _, 0%float |}.

Definition float_min (l : list float) : float :=
  foldr (λ x acc, if (x <? acc)%float then x else acc) infinity l.

Definition float_max (l : list float) : float :=
  foldr (λ x acc, if (acc <? x)%float then x else acc) neg_infinity l.

Definition float_mean (l : list float) : float :=
  (foldr (λ x acc, x + acc) 0 l / SF2Prim (binary_normalize prec emax (Z.of_nat (length l)) 0 false))%float.

(** A library in which every SimpleITK call succeeds and the fitted
    transform is the identity. *)
Definition identity_sitk : SitkLib unit unit unit :=
  {| numpy_to_sitk := λ _ _, inr ();
     landmark_initializer := λ _ _ _, inr ();
     transform_point := λ _ p, p;
     libm_pow2 := λ v, (v * v)%float;
     resample := λ _ _ _, inr ();
     np_mean := float_mean;
     np_std := λ l, sqrt (float_mean (map (λ x, (x - float_mean l) * (x - float_mean l))%float l));
     np_min := float_min; np_max := float_max |}.

(** A selector before any click, in the Z view. *)
Definition fresh_selector : selector :=
  {| moving_landmarks := []; fixed_landmarks := []; landmark_names := [];
     moving_plots := []; fixed_plots := [];
     moving_slice := 5; fixed_slice := 6; view := "Z";
     moving_name := "MicroCT"; fixed_name := "Allen CCF" |}.

(** A left click at (x, y) in the given axes. *)
Definition click (ax : axes) (x y : float) : mouse_event :=
  {| inaxes := Some ax; button := 1; xdata := x; ydata := y |}.

(** The selector after one click on each image. *)
Definition one_pair_selector : selector :=
  (onclick (click ax_fixed 31 41) (onclick (click ax_moving 30 40) fresh_selector).1).1.

(** A selector before any click, in the Y view on slice 1. *)
Definition y_view_selector : selector :=
  {| moving_landmarks := []; fixed_landmarks := []; landmark_names := [];
     moving_plots := []; fixed_plots := [];
     moving_slice := 1; fixed_slice := 1; view := "Y";
     moving_name := "MicroCT"; fixed_name := "Allen CCF" |}.

(** A landmark file without the fixed landmarks. *)
Definition moving_only_document : json :=
  JDict [("moving_landmarks",
          JList [JList [JInt 1; JInt 2; JInt 3]; JList [JInt 4; JInt 5; JInt 6]])].

(** Run callbacks one after the other, whatever they raise (the event loop
    goes on after a failed callback). *)
Definition run (cbs : list callback) (s : selector) : selector :=
  fold_left (λ st cb, (cb st).1) cbs s.

End Landmarks.

(** ** fiber_tracker.py: [AllenCCFOntology], [FiberTracker] *)

Module Tracker.
Import Py.

(** A value of [id_to_info], and what [get_region_info] returns. *)
Record region_info : Type := {
  info_id : Z;
  info_name : string;
  info_acronym : string;
  info_parent_id : option Z;
  info_color_hex : string
}.

(** [AllenCCFOntology.id_to_info]; the two name indices are not read by the
    functions below. *)
Abbreviation ontology := (gmap Z region_info).

Definition get_region_info (id_to_info : ontology) (region_id : Z) : region_info :=
  if region_id =? 0 then
    {| info_id := 0; info_name := "Outside Brain"; info_acronym := "OUT";
       info_parent_id := None; info_color_hex := "000000" |}
  else
    default
      {| info_id := region_id;
         info_name := "Unknown_Region_" +:+ pretty region_id;
         info_acronym := "UNK" +:+ pretty region_id;
         info_parent_id := None; info_color_hex := "FFFFFF" |}
      (id_to_info !! region_id).

(** The ancestry walk as the specification words it: the name of each visited
    region, following parent ids, until the parent is null or the root 997,
    or [n] regions have been visited. *)
Fixpoint ancestry (n : nat) (id_to_info : ontology) (region_id : Z) : list string :=
  match n with
  | O => []
  | S n' =>
    let info := get_region_info id_to_info region_id in
    info.(info_name) ::
      match info.(info_parent_id) with
      | None => []
      | Some parent => if parent =? 997 then [] else ancestry n' id_to_info parent
      end
  end.

(** The local variables of the loop in [get_region_hierarchy]. *)
Record walk : Type := {
  hierarchy : list string;
  current_id : option Z;
  depth : Z
}.

(** The [while] loop, one iteration per unit of [fuel]; [None] when the fuel
    runs out before the loop exits. *)
Fixpoint hierarchy_loop (fuel : nat) (id_to_info : ontology) (max_depth : Z)
    (w : walk) : option (list string) :=
  match fuel with
  | O => None
  | S fuel' =>
    match w.(current_id) with
    | Some cid =>
      if w.(depth) <? max_depth then
        let info := get_region_info id_to_info cid in
        let h := w.(hierarchy) ++ [info.(info_name)] in
        let next := info.(info_parent_id) in
        let d := w.(depth) + 1 in
        if decide (next = Some 997) then Some h
        else hierarchy_loop fuel' id_to_info max_depth
               {| hierarchy := h; current_id := next; depth := d |}
      else Some w.(hierarchy)
    | None => Some w.(hierarchy)
    end
  end.

(** [get_region_hierarchy(region_id, max_depth)], run with more fuel than
    the depth guard lets the loop use. *)
Definition get_region_hierarchy (id_to_info : ontology) (region_id : Z)
    (max_depth : Z) : option (list string) :=
  hierarchy_loop (S (Z.to_nat max_depth)) id_to_info max_depth
    {| hierarchy := []; current_id := Some region_id; depth := 0 |}.

(** The CCF annotation volume: its shape and [int(a[z, y, x])] at an index
    within the shape. *)
Record annotation : Type := {
  shape : Z * Z * Z;
  region_at : Z → Z → Z → outcome Z
}.

(** The dict [get_region_at_point] returns. *)
Record region_lookup : Type := {
  id : option Z;
  name : string;
  acronym : string;
  region_hierarchy : list string;
  color_hex : option string;
  ccf_coords : option (Z * Z * Z)
}.

Section FiberTracker.

(** A SimpleITK transform read from file. *)
Variable transform : Type.
(** [transform.TransformPoint(point)]. *)
Variable transform_point : transform → vec3 → string + vec3.

Record tracker : Type := {
  spacing : float;
  use_registered : bool;
  loaded_transform : option transform;
  ccf_annotation : option annotation;
  id_to_info : ontology
}.

Definition transform_point_to_ccf (self : tracker) (z y x : Z) : Z * Z * Z :=
  if self.(use_registered) then (z, y, x)
  else
    match self.(loaded_transform) with
    | None => (z, y, x)
    | Some t =>
      try_except
        (px ← int_times_float x self.(spacing);
         py ← int_times_float y self.(spacing);
         pz ← int_times_float z self.(spacing);
         '(c0, c1, c2) ← sitk_call (transform_point t (px, py, pz));
         q0 ← float_div c0 self.(spacing);
         x_ccf ← int_round q0;
         q1 ← float_div c1 self.(spacing);
         y_ccf ← int_round q1;
         q2 ← float_div c2 self.(spacing);
         z_ccf ← int_round q2;
         Return (z_ccf, y_ccf, x_ccf))
        (λ _, (z, y, x))
    end.

(** The bounds test against [ccf_annotation.shape]. *)
Definition out_of_bounds (shp : Z * Z * Z) (c : Z * Z * Z) : bool :=
  let '(n0, n1, n2) := shp in
  let '(z_ccf, y_ccf, x_ccf) := c in
  (z_ccf <? 0) || (n0 <=? z_ccf) || (y_ccf <? 0) || (n1 <=? y_ccf)
  || (x_ccf <? 0) || (n2 <=? x_ccf).

Definition no_annotation : region_lookup :=
  {| id := None; name := "N/A (No CCF annotation loaded)"; acronym := "N/A";
     region_hierarchy := []; color_hex := None; ccf_coords := None |}.

Definition out_of_bounds_result (c : Z * Z * Z) : region_lookup :=
  {| id := Some (-1); name := "Out of Bounds"; acronym := "OOB";
     region_hierarchy := []; color_hex := None; ccf_coords := Some c |}.

Definition outside_brain_result (c : Z * Z * Z) : region_lookup :=
  {| id := Some 0; name := "Outside Brain"; acronym := "OUT";
     region_hierarchy := []; color_hex := None; ccf_coords := Some c |}.

Definition error_result (c : Z * Z * Z) : region_lookup :=
  {| id := Some (-1); name := "Error"; acronym := "ERR";
     region_hierarchy := []; color_hex := None; ccf_coords := Some c |}.

(** The classification of a CCF-space coordinate: lines 426-489. *)
Definition lookup_ccf (self : tracker) (ann : annotation) (c : Z * Z * Z)
    : region_lookup :=
  if out_of_bounds ann.(shape) c then out_of_bounds_result c
  else
    try_except
      (let '(z_ccf, y_ccf, x_ccf) := c in
       region_id ← ann.(region_at) z_ccf y_ccf x_ccf;
       if region_id =? 0 then Return (outside_brain_result c)
       else
         let region_info := get_region_info self.(id_to_info) region_id in
         match get_region_hierarchy self.(id_to_info) region_id 10 with
         | Some h =>
             Return {| id := Some region_id; name := region_info.(info_name);
                       acronym := region_info.(info_acronym);
                       region_hierarchy := h;
                       color_hex := Some region_info.(info_color_hex);
                       ccf_coords := Some c |}
         | None => Raise (RuntimeError "hierarchy walk did not finish")
         end)
      (λ _, error_result c).

Definition get_region_at_point (self : tracker) (z y x : Z) : region_lookup :=
  match self.(ccf_annotation) with
  | None => no_annotation
  | Some ann => lookup_ccf self ann (transform_point_to_ccf self z y x)
  end.

End FiberTracker.

(** *** Examples *)

(** A 2 x 2 x 2 annotation: background at the origin, region 5 elsewhere. *)
Definition small_annotation : annotation :=
  {| shape := (2, 2, 2);
     region_at := λ z y x, Return (if (z =? 0) && (y =? 0) && (x =? 0) then 0 else 5) |}.

(** A tracker on a registered image, with no transform and an empty
    ontology. *)
Definition registered_tracker : tracker unit :=
  {| spacing := 0.025; use_registered := true; loaded_transform := None;
     ccf_annotation := Some small_annotation; id_to_info := ∅ |}.

(** A tracker on an aligned (not registered) image for which no transform
    was loaded. *)
Definition unmapped_tracker : tracker unit :=
  {| spacing := 0.025; use_registered := false; loaded_transform := None;
     ccf_annotation := Some small_annotation; id_to_info := ∅ |}.

(** A tracker on an aligned image with a transform loaded. *)
Definition aligned_tracker : tracker unit :=
  {| spacing := 0.025; use_registered := false; loaded_transform := Some ();
     ccf_annotation := Some small_annotation; id_to_info := ∅ |}.

(** The same with a voxel spacing of zero. *)
Definition zero_spacing_tracker : tracker unit :=
  {| spacing := 0; use_registered := false; loaded_transform := Some ();
     ccf_annotation := Some small_annotation; id_to_info := ∅ |}.

(** A transform that doubles every coordinate and fails on the plane
    x = 0.025 mm only. *)
Definition punctured : unit → vec3 → string + vec3 :=
  λ _ '(a, b, c),
    if (a =? 0.025)%float then inl "TransformPoint failed"
    else inr (a + a, b + b, c + c)%float.

(** Region 1 and region 2 name each other as parent. *)
Definition cyclic_ontology : ontology :=
  {[ 1 := {| info_id := 1; info_name := "a"; info_acronym := "A";
             info_parent_id := Some 2; info_color_hex := "FFFFFF" |};
     2 := {| info_id := 2; info_name := "b"; info_acronym := "B";
             info_parent_id := Some 1; info_color_hex := "FFFFFF" |} ]}.

End Tracker.

(** ** Volumes, slices and the views of the three tools *)

Module Views.
Import Py.

(** A 3D numpy array: its shape and its element at each index within the
    shape. Integer indexing, [np.transpose] and [np.flip] are modelled by
    their index arithmetic; they compute no new sample. *)
Record volume (A : Type) : Type := {
  shape : Z * Z * Z;
  voxel : Z → Z → Z → A
}.
Arguments shape {A} _.
Arguments voxel {A} _ _ _ _.

(** A 2D array cut out of a volume. *)
Record slice2d (A : Type) : Type := {
  shape2 : Z * Z;
  pixel : Z → Z → A
}.
Arguments shape2 {A} _.
Arguments pixel {A} _ _ _.

(** An integer index on an axis of length [n]: negative indices count from
    the end, anything else outside the axis raises. *)
Definition index (n i : Z) : outcome Z :=
  if (0 <=? i) && (i <? n) then Return i
  else if (- n <=? i) && (i <? 0) then Return (i + n)
  else Raise (IndexError "index is out of bounds for axis").

(** [image[i, :, :]], [image[:, i, :]] and [image[:, :, i]]. *)
Definition take0 {A} (image : volume A) (i : Z) : outcome (slice2d A) :=
  let '(n0, n1, n2) := image.(shape) in
  k ← index n0 i;
  Return {| shape2 := (n1, n2); pixel := λ r c, image.(voxel) k r c |}.

Definition take1 {A} (image : volume A) (i : Z) : outcome (slice2d A) :=
  let '(n0, n1, n2) := image.(shape) in
  k ← index n1 i;
  Return {| shape2 := (n0, n2); pixel := λ r c, image.(voxel) r k c |}.

Definition take2 {A} (image : volume A) (i : Z) : outcome (slice2d A) :=
  let '(n0, n1, n2) := image.(shape) in
  k ← index n2 i;
  Return {| shape2 := (n0, n1); pixel := λ r c, image.(voxel) r c k |}.

(** [image[z, y, x]] and [slice_2d[row, col]]. *)
Definition voxel_at {A} (image : volume A) (z y x : Z) : outcome A :=
  let '(n0, n1, n2) := image.(shape) in
  k0 ← index n0 z;
  k1 ← index n1 y;
  k2 ← index n2 x;
  Return (image.(voxel) k0 k1 k2).

Definition pixel_at {A} (s : slice2d A) (row col : Z) : outcome A :=
  let '(rows, cols) := s.(shape2) in
  r ← index rows row;
  c ← index cols col;
  Return (s.(pixel) r c).

(** *** [LandmarkSelector.get_slice] and [get_max_slice]

    Both fall off the end of their [if] chain, returning [None], for a view
    other than Z, Y and X. *)
Definition get_slice {A} (image : volume A) (slice_idx : Z) (view : string)
    : outcome (option (slice2d A)) :=
  if String.eqb view "Z" then s ← take0 image slice_idx; Return (Some s)
  else if String.eqb view "Y" then s ← take1 image slice_idx; Return (Some s)
  else if String.eqb view "X" then s ← take2 image slice_idx; Return (Some s)
  else Return None.

Definition get_max_slice {A} (image : volume A) (view : string) : option Z :=
  let '(n0, n1, n2) := image.(shape) in
  if String.eqb view "Z" then Some (n0 - 1)
  else if String.eqb view "Y" then Some (n1 - 1)
  else if String.eqb view "X" then Some (n2 - 1)
  else None.

(** *** [MidlineAligner.get_slice_and_info] *)

Record view_info : Type := {
  slice_axis : string;
  horizontal : string;
  vertical : string;
  max_slice : Z
}.

Definition get_slice_and_info {A} (image : volume A) (view : string)
    (slice_idx : Z) : outcome (slice2d A * view_info) :=
  let '(n0, n1, n2) := image.(shape) in
  if String.eqb view "axial" then
    slice_2d ← take1 image slice_idx;
    Return (slice_2d,
            {| slice_axis := "Y (slice index 1)"; horizontal := "X (Left-Right)";
               vertical := "Z (Dorsal-Ventral)"; max_slice := n1 - 1 |})
  else if String.eqb view "coronal" then
    slice_2d ← take0 image slice_idx;
    Return (slice_2d,
            {| slice_axis := "Z (slice index 0)"; horizontal := "X (Left-Right)";
               vertical := "Y (Anterior-Posterior)"; max_slice := n0 - 1 |})
  else if String.eqb view "sagittal" then
    slice_2d ← take2 image slice_idx;
    Return (slice_2d,
            {| slice_axis := "X (slice index 2)";
               horizontal := "Y (Anterior-Posterior)";
               vertical := "Z (Dorsal-Ventral)"; max_slice := n2 - 1 |})
  else Raise (ValueError ("Unknown view: " +:+ view)).

(** *** [AxisVerifier]: the closures of [verify_and_correct_axes] *)

(** The axis numbers the swap and flip buttons pass. *)
Inductive axis : Type :=
| axis0
| axis1
| axis2.

Definition axis_number (a : axis) : nat :=
  match a with
  | axis0 => 0
  | axis1 => 1
  | axis2 => 2
  end.

(** [axes = [0, 1, 2]; axes[axis1], axes[axis2] = axes[axis2], axes[axis1]]:
    both right-hand sides are read before either entry is written. *)
Definition swapped_axes (a1 a2 : axis) : list nat :=
  let axes := [0; 1; 2]%nat in
  let v1 := default 0%nat (axes !! axis_number a2) in
  let v2 := default 0%nat (axes !! axis_number a1) in
  <[axis_number a2 := v2]> (<[axis_number a1 := v1]> axes).

Definition nth_dim (shp : Z * Z * Z) (k : nat) : Z :=
  let '(n0, n1, n2) := shp in
  match k with
  | 0%nat => n0
  | 1%nat => n1
  | _ => n2
  end.

(** [np.transpose(image, axes)]: axis [k] of the result is axis [axes[k]] of
    the source. *)
Definition transpose {A} (image : volume A) (axes : list nat) : volume A :=
  let p k := default 0%nat (axes !! k) in
  {| shape := (nth_dim image.(shape) (p 0%nat), nth_dim image.(shape) (p 1%nat),
               nth_dim image.(shape) (p 2%nat));
     voxel := λ i0 i1 i2,
       let source k :=
         if (p 0 =? k)%nat then i0 else if (p 1 =? k)%nat then i1 else i2 in
       image.(voxel) (source 0%nat) (source 1%nat) (source 2%nat) |}.

(** [np.flip(image, axis=a)]. *)
Definition flip {A} (image : volume A) (a : axis) : volume A :=
  let '(n0, n1, n2) := image.(shape) in
  {| shape := image.(shape);
     voxel := λ i0 i1 i2,
       match a with
       | axis0 => image.(voxel) (n0 - 1 - i0) i1 i2
       | axis1 => image.(voxel) i0 (n1 - 1 - i1) i2
       | axis2 => image.(voxel) i0 i1 (n2 - 1 - i2)
       end |}.

(** The image being corrected and the slice shown in each of the three
    views (coronal through axis 0, axial through axis 1, sagittal through
    axis 2). *)
Record verifier (A : Type) : Type := {
  image : volume A;
  corrected_image : volume A;
  slices : Z * Z * Z
}.
Arguments image {A} _.
Arguments corrected_image {A} _.
Arguments slices {A} _.

Definition middle_slices (shp : Z * Z * Z) : Z * Z * Z :=
  let '(n0, n1, n2) := shp in (n0 `div` 2, n1 `div` 2, n2 `div` 2).

Definition swap_axes {A} (a1 a2 : axis) (self : verifier A) : verifier A :=
  let corrected := transpose self.(corrected_image) (swapped_axes a1 a2) in
  {| image := self.(image); corrected_image := corrected;
     slices := middle_slices corrected.(shape) |}.

Definition flip_axis {A} (a : axis) (self : verifier A) : verifier A :=
  {| image := self.(image); corrected_image := flip self.(corrected_image) a;
     slices := self.(slices) |}.

Definition reset_image {A} (self : verifier A) : verifier A :=
  {| image := self.(image); corrected_image := self.(image);
     slices := middle_slices self.(image).(shape) |}.

(** A triple with the entries at two axes exchanged. *)
Definition exchange (a1 a2 : axis) (t : Z * Z * Z) : Z * Z * Z :=
  let '(t0, t1, t2) := t in
  match a1, a2 with
  | axis0, axis1 | axis1, axis0 => (t1, t0, t2)
  | axis0, axis2 | axis2, axis0 => (t2, t1, t0)
  | axis1, axis2 | axis2, axis1 => (t0, t2, t1)
  | _, _ => t
  end.

(** Every entry of [idx] is an index within [shp]. *)
Definition within (shp idx : Z * Z * Z) : Prop :=
  0 ≤ idx.1.1 < shp.1.1 ∧ 0 ≤ idx.1.2 < shp.1.2 ∧ 0 ≤ idx.2 < shp.2.

(** Two volumes with the same shape and the same samples. *)
Definition same_volume {A} (v w : volume A) : Prop :=
  v.(shape) = w.(shape) ∧ ∀ z y x, v.(voxel) z y x = w.(voxel) z y x.

(** *** Examples *)

(** A 2 x 3 x 4 volume whose sample at (z, y, x) is 100 z + 10 y + x. *)
Definition numbered_volume : volume Z :=
  {| shape := (2, 3, 4); voxel := λ z y x, 100 * z + 10 * y + x |}.

End Views.

(** ** Python dicts and text, as the save and load functions use them *)

Module Text.
Import Py.

(** *** Insertion-ordered dicts *)

(** [d[k] = v]: a present key keeps its place and gets the new value, a
    new key goes to the end. *)
Fixpoint dict_set {K V} `{EqDecision K} (k : K) (v : V) (d : list (K * V))
    : list (K * V) :=
  match d with
  | [] => [(k, v)]
  | (k', v') :: rest =>
      if decide (k' = k) then (k', v) :: rest else (k', v') :: dict_set k v rest
  end.

Fixpoint dict_lookup {K V} `{EqDecision K} (k : K) (d : list (K * V)) : option V :=
  match d with
  | [] => None
  | (k', v') :: rest => if decide (k' = k) then Some v' else dict_lookup k rest
  end.

(** [del d[k]] for a present key. *)
Fixpoint dict_del {K V} `{EqDecision K} (k : K) (d : list (K * V)) : list (K * V) :=
  match d with
  | [] => []
  | (k', v') :: rest => if decide (k' = k) then rest else (k', v') :: dict_del k rest
  end.

(** A dict display or comprehension: the items are set one after the other. *)
Definition dict_of_items {K V} `{EqDecision K} (items : list (K * V)) : list (K * V) :=
  fold_left (λ d kv, dict_set kv.1 kv.2 d) items [].

(** *** [str.rsplit('_', 1)] and [int(str)] on ASCII text *)

Fixpoint all_chars (P : ascii → bool) (s : string) : bool :=
  match s with
  | EmptyString => true
  | String c rest => P c && all_chars P rest
  end.

Definition is_underscore (c : ascii) : bool := Ascii.eqb c "_".

(** The split at the last underscore, [None] when there is none (the list
    [rsplit] returns then has one element). *)
Fixpoint rsplit_underscore (s : string) : option (string * string) :=
  match s with
  | EmptyString => None
  | String c rest =>
      match rsplit_underscore rest with
      | Some (before, after) => Some (String c before, after)
      | None => if is_underscore c then Some (EmptyString, rest) else None
      end
  end.

(** The characters [int] skips around an ASCII literal: tab, newline,
    vertical tab, form feed, carriage return and space. *)
Definition is_space (c : ascii) : bool :=
  let n := nat_of_ascii c in
  ((9 <=? n) && (n <=? 13) || (n =? 32))%nat.

Fixpoint lstrip (s : string) : string :=
  match s with
  | EmptyString => EmptyString
  | String c rest => if is_space c then lstrip rest else s
  end.

Fixpoint rstrip (s : string) : string :=
  match s with
  | EmptyString => EmptyString
  | String c rest =>
      match rstrip rest with
      | EmptyString => if is_space c then EmptyString else String c EmptyString
      | kept => String c kept
      end
  end.

Definition digit_value (c : ascii) : option N :=
  let n := nat_of_ascii c in
  if ((48 <=? n) && (n <=? 57))%nat then Some (N.of_nat (n - 48)) else None.

(** Digits with single underscores between them; [after_digit] tells
    whether the previous character was a digit. *)
Fixpoint parse_digits (s : string) (acc : N) (after_digit : bool) : option N :=
  match s with
  | EmptyString => if after_digit then Some acc else None
  | String c rest =>
      match digit_value c with
      | Some d => parse_digits rest (acc * 10 + d)%N true
      | None =>
          if is_underscore c && after_digit then parse_digits rest acc false
          else None
      end
  end.

Definition invalid_literal : exception :=
  ValueError "invalid literal for int() with base 10".

(** [int(s)] for a string of ASCII characters: surrounding whitespace, an
    optional sign, decimal digits. The digit-count limit of recent
    interpreters is not modelled. *)
Definition int_of_string (s : string) : outcome Z :=
  let body := rstrip (lstrip s) in
  match body with
  | String c rest =>
      if Ascii.eqb c "-" then
        match parse_digits rest 0 false with
        | Some n => Return (- Z.of_N n)
        | None => Raise invalid_literal
        end
      else if Ascii.eqb c "+" then
        match parse_digits rest 0 false with
        | Some n => Return (Z.of_N n)
        | None => Raise invalid_literal
        end
      else
        match parse_digits body 0 false with
        | Some n => Return (Z.of_N n)
        | None => Raise invalid_literal
        end
  | EmptyString => Raise invalid_literal
  end.

End Text.

(** ** midline_alignment.py: marking, saving and loading midline points *)

Module Marking.
Import Py Text.

(** A mouse event as [MidlineAligner.onclick] reads it; [in_ax] is
    [event.inaxes == self.ax]. *)
Record click_event : Type := {
  in_ax : bool;
  button : Z;
  xdata : float;
  ydata : float
}.

(** The fields of a [MidlineAligner] that marking reads or writes.
    [current_slice] is meaningful once [current_view] is set. *)
Record aligner (A : Type) : Type := {
  image : Views.volume A;
  midline_points : Midline.midline_points;
  current_view : option string;
  current_slice : Z
}.
Arguments image {A} _.
Arguments midline_points {A} _.
Arguments current_view {A} _.
Arguments current_slice {A} _.

Definition set_points {A} (self : aligner A) (d : Midline.midline_points) : aligner A :=
  {| image := self.(image); midline_points := d;
     current_view := self.(current_view); current_slice := self.(current_slice) |}.

(** [update_display] draws; what it can raise comes from
    [get_slice_and_info]. *)
Definition update_display {A} (self : aligner A) : outcome unit :=
  match self.(current_view) with
  | None => Return ()
  | Some view =>
      _ ← Views.get_slice_and_info self.(image) view self.(current_slice);
      Return ()
  end.

Definition onclick {A} (event : click_event) (self : aligner A)
    : aligner A * outcome unit :=
  match self.(current_view) with
  | None => (self, Return ())
  | Some view =>
    if negb event.(in_ax) then (self, Return ())
    else if event.(button) =? 1 then
      match int_of_float event.(xdata) with
      | Raise e => (self, Raise e)
      | Return col =>
        match int_of_float event.(ydata) with
        | Raise e => (self, Raise e)
        | Return row =>
          let key := (view, self.(current_slice)) in
          let d := match dict_lookup key self.(midline_points) with
                   | None => dict_set key [] self.(midline_points)
                   | Some _ => self.(midline_points)
                   end in
          let points := default [] (dict_lookup key d) in
          let self' := set_points self (dict_set key (points ++ [(row, col)]) d) in
          (self', update_display self')
        end
      end
    else (self, Return ())
  end.

(** The 'Clear Slice' button. *)
Definition on_clear {A} (self : aligner A) : aligner A * outcome unit :=
  match self.(current_view) with
  | None => (self, Return ())
  | Some view =>
      let key := (view, self.(current_slice)) in
      match dict_lookup key self.(midline_points) with
      | Some _ =>
          let self' := set_points self (dict_del key self.(midline_points)) in
          (self', update_display self')
      | None => (self, Return ())
      end
  end.

(** The 'Clear All' button. *)
Definition on_clear_all {A} (self : aligner A) : aligner A * outcome unit :=
  let self' := set_points self [] in
  (self', update_display self').

(** *** [save_midline_points] and [load_midline_points] *)

(** [f"{k[0]}_{k[1]}"]. *)
Definition key_to_string (k : string * Z) : string :=
  k.1 +:+ "_" +:+ pretty k.2.

Definition point_to_json (p : Z * Z) : Landmarks.json :=
  Landmarks.JList [Landmarks.JInt p.1; Landmarks.JInt p.2].

(** One item of the dict comprehension: the key as text, the points as
    lists. *)
Definition encode_item (kv : (string * Z) * list (Z * Z)) : string * Landmarks.json :=
  (key_to_string kv.1, Landmarks.JList (map point_to_json kv.2)).

Definition points_data (d : Midline.midline_points) : Landmarks.json :=
  Landmarks.JDict
    [("midline_points", Landmarks.JDict (dict_of_items (map encode_item d)))].

Definition save_midline_points {A} (filepath : string) (self : aligner A)
    (fs : Landmarks.files) : Landmarks.files :=
  <[filepath := points_data self.(midline_points)]> fs.

(** [view, slice_idx = k.rsplit('_', 1)] and [int(slice_idx)]. *)
Definition string_to_key (k : string) : outcome (string * Z) :=
  match rsplit_underscore k with
  | None => Raise (ValueError "not enough values to unpack (expected 2, got 1)")
  | Some (view, slice_idx) => i ← int_of_string slice_idx; Return (view, i)
  end.

(** [tuple(p)]; the typed aligner holds (row, col) integer pairs only. *)
Definition json_to_point (j : Landmarks.json) : outcome (Z * Z) :=
  match j with
  | Landmarks.JList [Landmarks.JInt row; Landmarks.JInt col] => Return (row, col)
  | _ => Raise (TypeError "not a (row, col) pair")
  end.

Definition json_to_points (j : Landmarks.json) : outcome (list (Z * Z)) :=
  match j with
  | Landmarks.JList l => mapM json_to_point l
  | _ => Raise (TypeError "not a list of points")
  end.

(** The loop over [data['midline_points'].items()]: the dict filled so far
    and what stopped the loop, if anything. *)
Fixpoint load_items (items : list (string * Landmarks.json))
    (d : Midline.midline_points) : Midline.midline_points * outcome unit :=
  match items with
  | [] => (d, Return ())
  | (k, v) :: rest =>
      match string_to_key k with
      | Raise e => (d, Raise e)
      | Return key =>
          match json_to_points v with
          | Raise e => (d, Raise e)
          | Return points => load_items rest (dict_set key points d)
          end
      end
  end.

(** [self.midline_points = {}] comes right after the file is read, before
    the document is looked into: every failure past the read leaves the
    points cleared or partly loaded. A ['midline_points'] value that is not
    an object has no [items]; Python's [AttributeError] is reported here as a
    [TypeError]. *)
Definition load_midline_points {A} (filepath : string) (self : aligner A)
    (fs : Landmarks.files) : aligner A * outcome unit :=
  match fs !! filepath with
  | None => (self, Raise (FileNotFoundError filepath))
  | Some (Landmarks.JDict data) =>
      match Landmarks.dict_get "midline_points" data with
      | None => (set_points self [], Raise (KeyError "midline_points"))
      | Some (Landmarks.JDict items) =>
          let '(d, status) := load_items items [] in
          (set_points self d, status)
      | Some _ =>
          (set_points self [], Raise (TypeError "object has no attribute 'items'"))
      end
  | Some _ =>
      (set_points self [],
       Raise (TypeError "indices must be integers or slices, not str"))
  end.

(** *** Examples *)

Definition fresh_aligner : aligner Z :=
  {| image := Views.numbered_volume; midline_points := [];
     current_view := Some "coronal"; current_slice := 1 |}.

Definition left_click (x y : float) : click_event :=
  {| in_ax := true; button := 1; xdata := x; ydata := y |}.

(** Clicks handled one after the other, whatever they raise. *)
Definition run_clicks {A} (events : list click_event) (self : aligner A) : aligner A :=
  fold_left (λ st ev, (onclick ev st).1) events self.

(** Two slices marked, one of them in a view whose name holds an
    underscore and at a negative index. *)
Definition marked_aligner : aligner Z :=
  {| image := Views.numbered_volume;
     midline_points := [(("coronal", 1), [(1, 2); (2, 2)]);
                        (("my_view", -3), [(0, 0)])];
     current_view := Some "coronal"; current_slice := 1 |}.

End Marking.

(** ** fiber_tracker.py: the tracking session of [FiberTracker] *)

Module Fibers.
Import Py.

(** A voxel index, (z, y, x). *)
Definition point : Type := Z * Z * Z.

(** A row of [fiber_colors]. *)
Definition rgba : Type := list float.

(** An artist kept in [current_points]: the 'r+' marker of the top, the 'bx'
    marker of the bottom, the line between them. *)
Inductive artist : Type :=
| top_marker (x y : Z)
| bottom_marker (x y : Z)
| shaft (x0 y0 x1 y1 : Z) (color : rgba).

(** The value under ['ccf_coords'] of a fiber: the tuple that
    [get_region_at_point] built, or any other value ([None], or what
    [json.load] returned). *)
Inductive value : Type :=
| tuple3 (c : point)
| plain (j : Landmarks.json).

(** An entry of [self.fibers]. [load_previous_work] copies most values from
    the file as they are, so they are held as parsed JSON values. *)
Record fiber : Type := {
  id : Z;
  top : Landmarks.json * Landmarks.json * Landmarks.json;
  bottom : Landmarks.json * Landmarks.json * Landmarks.json;
  color : rgba;
  region_id : Landmarks.json;
  region_name : Landmarks.json;
  region_acronym : Landmarks.json;
  region_hierarchy : Landmarks.json;
  ccf_coords : value
}.

(** [self.current_fiber]: ['top'], ['bottom'] and, when present, the
    ['region_info'] key. *)
Record marking : Type := {
  current_top : option point;
  current_bottom : option point;
  current_region_info : option Tracker.region_lookup
}.

Record mouse_event : Type := {
  inaxes : bool;            (* event.inaxes == self.ax *)
  xdata : option float;
  ydata : float             (* set whenever xdata is *)
}.

Record scroll_event : Type := {
  scroll_inaxes : bool;
  button : string
}.

(** A (z, y, x) tuple of ints as three values. *)
Definition triple (p : point) : Landmarks.json * Landmarks.json * Landmarks.json :=
  let '(z, y, x) := p in (Landmarks.JInt z, Landmarks.JInt y, Landmarks.JInt x).

Definition optional_int (o : option Z) : Landmarks.json :=
  match o with
  | Some z => Landmarks.JInt z
  | None => Landmarks.JNull
  end.

Definition optional_tuple (o : option point) : value :=
  match o with
  | Some c => tuple3 c
  | None => plain Landmarks.JNull
  end.

(** [self.fiber_colors[k % len(self.fiber_colors)]]. *)
Definition color_of (fiber_colors : list rgba) (k : Z) : outcome rgba :=
  let n := Z.of_nat (length fiber_colors) in
  if n =? 0 then Raise (ZeroDivisionError "integer modulo by zero")
  else
    match fiber_colors !! Z.to_nat (k mod n) with
    | Some c => Return c
    | None => Raise (IndexError "index out of bounds")
    end.

(** The dict [next_fiber] uses when [current_fiber] has no ['region_info']. *)
Definition default_region_info : Tracker.region_lookup :=
  {| Tracker.id := None; Tracker.name := "N/A"; Tracker.acronym := "N/A";
     Tracker.region_hierarchy := []; Tracker.color_hex := None;
     Tracker.ccf_coords := None |}.

(** The [fiber_data] dict of [next_fiber]. *)
Definition fiber_data (n : Z) (t b : point) (c : rgba)
    (region_info : Tracker.region_lookup) : fiber :=
  {| id := n; top := triple t; bottom := triple b; color := c;
     region_id := optional_int region_info.(Tracker.id);
     region_name := Landmarks.JStr region_info.(Tracker.name);
     region_acronym := Landmarks.JStr region_info.(Tracker.acronym);
     region_hierarchy :=
       Landmarks.JList (map Landmarks.JStr region_info.(Tracker.region_hierarchy));
     ccf_coords := optional_tuple region_info.(Tracker.ccf_coords) |}.

(** *** Saving *)

Definition value_to_json (v : value) : Landmarks.json :=
  match v with
  | tuple3 (z, y, x) =>
      Landmarks.JList [Landmarks.JInt z; Landmarks.JInt y; Landmarks.JInt x]
  | plain j => j
  end.

(** One entry of [fiber_list] in [save_fiber_data]. *)
Definition fiber_to_json (f : fiber) : Landmarks.json :=
  Landmarks.JDict
    [("fiber_id", Landmarks.JInt f.(id));
     ("top_z", f.(top).1.1); ("top_y", f.(top).1.2); ("top_x", f.(top).2);
     ("bottom_z", f.(bottom).1.1); ("bottom_y", f.(bottom).1.2);
     ("bottom_x", f.(bottom).2);
     ("region_id", f.(region_id));
     ("region_name", f.(region_name));
     ("region_acronym", f.(region_acronym));
     ("region_hierarchy", f.(region_hierarchy));
     ("ccf_coords", value_to_json f.(ccf_coords))].

Definition fiber_list (fibers : list fiber) : Landmarks.json :=
  Landmarks.JList (map fiber_to_json fibers).

(** [save_fiber_data(output_path)]. *)
Definition save_fiber_data (output_path : string) (fibers : list fiber)
    (fs : Landmarks.files) : Landmarks.files :=
  <[output_path := fiber_list fibers]> fs.

(** A fiber as it is after a save and a load: the CCF tuple has become the
    list [json.load] returns. *)
Definition reloaded (f : fiber) : fiber :=
  {| id := f.(id); top := f.(top); bottom := f.(bottom); color := f.(color);
     region_id := f.(region_id); region_name := f.(region_name);
     region_acronym := f.(region_acronym);
     region_hierarchy := f.(region_hierarchy);
     ccf_coords := plain (value_to_json f.(ccf_coords)) |}.

Section Session.

Variable transform : Type.
Variable transform_point : transform → vec3 → string + vec3.
(** What [s % n] raises for a str [s] (printf-style formatting), or what
    indexing [fiber_colors] with the str it returns raises. *)
Variable format_failure : string → exception.

(** The attributes of a [FiberTracker] that the callbacks read or write. *)
Record session : Type := {
  tracker : Tracker.tracker transform;
  nz : Z;
  ny : Z;
  nx : Z;
  current_slice : Z;
  fibers : list fiber;
  current_fiber : marking;
  current_points : list artist;
  fiber_colors : list rgba
}.

Definition set_slice (s : session) (z : Z) : session :=
  {| tracker := s.(tracker); nz := s.(nz); ny := s.(ny); nx := s.(nx);
     current_slice := z; fibers := s.(fibers);
     current_fiber := s.(current_fiber); current_points := s.(current_points);
     fiber_colors := s.(fiber_colors) |}.

Definition set_fibers (s : session) (fs : list fiber) : session :=
  {| tracker := s.(tracker); nz := s.(nz); ny := s.(ny); nx := s.(nx);
     current_slice := s.(current_slice); fibers := fs;
     current_fiber := s.(current_fiber); current_points := s.(current_points);
     fiber_colors := s.(fiber_colors) |}.

Definition set_current (s : session) (cf : marking) (points : list artist) : session :=
  {| tracker := s.(tracker); nz := s.(nz); ny := s.(ny); nx := s.(nx);
     current_slice := s.(current_slice); fibers := s.(fibers);
     current_fiber := cf; current_points := points;
     fiber_colors := s.(fiber_colors) |}.

(** A callback leaves a state behind even when it raises part-way.
    matplotlib's drawing calls are taken to return. *)
Definition callback : Type := session → session * outcome unit.

(** [update_slice], the slider's observer: [val] is the slider value. *)
Definition update_slice (val : Z) : callback := λ s,
  let s' := set_slice s val in
  if (val <? - s.(nz)) || (s.(nz) <=? val) then
    (s', Raise (IndexError "index out of bounds for axis 0"))
  else if (s.(ny) =? 0) || (s.(nx) =? 0) then
    (s', Raise (ValueError "zero-size array to reduction operation maximum"))
  else (s', Return ()).

(** [Slider.set_val] stores the value and calls [update_slice]. *)
Definition on_scroll (event : scroll_event) : callback := λ s,
  if negb event.(scroll_inaxes) then (s, Return ())
  else
    let go new_slice :=
      if negb (new_slice =? s.(current_slice)) then update_slice new_slice s
      else (s, Return ()) in
    if String.eqb event.(button) "up" then
      go (Z.min (s.(current_slice) + 1) (s.(nz) - 1))
    else if String.eqb event.(button) "down" then
      go (Z.max (s.(current_slice) - 1) 0)
    else (s, Return ()).

Definition on_click (event : mouse_event) : callback := λ s,
  if negb event.(inaxes) then (s, Return ())
  else
    match event.(xdata) with
    | None => (s, Return ())
    | Some xd =>
      match int_round xd with
      | Raise e => (s, Raise e)
      | Return x =>
        match int_round event.(ydata) with
        | Raise e => (s, Raise e)
        | Return y =>
          let z := s.(current_slice) in
          if (x <? 0) || (s.(nx) <=? x) || (y <? 0) || (s.(ny) <=? y) then
            (s, Return ())
          else
            match s.(current_fiber).(current_top) with
            | None =>
                (set_current s
                   {| current_top := Some (z, y, x);
                      current_bottom := s.(current_fiber).(current_bottom);
                      current_region_info :=
                        s.(current_fiber).(current_region_info) |}
                   (s.(current_points) ++ [top_marker x y]),
                 Return ())
            | Some t =>
              match s.(current_fiber).(current_bottom) with
              | None =>
                  let region_info :=
                    Tracker.get_region_at_point transform transform_point
                      s.(tracker) z y x in
                  let cf :=
                    {| current_top := Some t; current_bottom := Some (z, y, x);
                       current_region_info := Some region_info |} in
                  let points := s.(current_points) ++ [bottom_marker x y] in
                  let fiber_id := Z.of_nat (length s.(fibers)) in
                  match color_of s.(fiber_colors) fiber_id with
                  | Raise e => (set_current s cf points, Raise e)
                  | Return c =>
                      if t.1.1 =? z then
                        (set_current s cf
                           (points ++ [shaft t.2 t.1.2 x y c]),
                         Return ())
                      else (set_current s cf points, Return ())
                  end
              | Some _ => (s, Return ())
              end
            end
        end
      end
    end.

Definition undo_current : callback := λ s,
  let cf := s.(current_fiber) in
  let redraw (cf' : marking) :=
    (set_current s cf'
       match cf'.(current_top) with
       | Some (z, y, x) =>
           if z =? s.(current_slice) then [top_marker x y] else []
       | None => []
       end,
     Return ()) in
  match cf.(current_bottom) with
  | Some _ =>
      redraw {| current_top := cf.(current_top); current_bottom := None;
                current_region_info := None |}
  | None =>
    match cf.(current_top) with
    | Some _ =>
        redraw {| current_top := None; current_bottom := None;
                  current_region_info := cf.(current_region_info) |}
    | None => (s, Return ())
    end
  end.

Definition undo_last_fiber : callback := λ s,
  match s.(fibers) with
  | [] => (s, Return ())
  | _ => (set_fibers s (removelast s.(fibers)), Return ())
  end.

Definition next_fiber : callback := λ s,
  match s.(current_fiber).(current_top), s.(current_fiber).(current_bottom) with
  | Some t, Some b =>
      let region_info :=
        default default_region_info s.(current_fiber).(current_region_info) in
      let n := Z.of_nat (length s.(fibers)) in
      match color_of s.(fiber_colors) n with
      | Raise e => (s, Raise e)
      | Return c =>
          (set_current
             (set_fibers s (s.(fibers) ++ [fiber_data n t b c region_info]))
             {| current_top := None; current_bottom := None;
                current_region_info := None |}
             [],
           Return ())
      end
  | _, _ => (s, Return ())
  end.

(** *** Loading *)

(** [fiber_colors[fiber_id % len(fiber_colors)]] for a value read from the
    file. *)
Definition color_of_value (fiber_colors : list rgba) (j : Landmarks.json)
    : outcome (Z * rgba) :=
  match j with
  | Landmarks.JInt k => c ← color_of fiber_colors k; Return (k, c)
  | Landmarks.JStr s => Raise (format_failure s)
  | Landmarks.JNull =>
      Raise (TypeError "unsupported operand type(s) for %: 'NoneType' and 'int'")
  | Landmarks.JList _ =>
      Raise (TypeError "unsupported operand type(s) for %: 'list' and 'int'")
  | Landmarks.JDict _ =>
      Raise (TypeError "unsupported operand type(s) for %: 'dict' and 'int'")
  end.

(** [fiber_dict[key]]. *)
Definition item (key : string) (fiber_dict : list (string * Landmarks.json))
    : outcome Landmarks.json :=
  match Landmarks.dict_get key fiber_dict with
  | Some v => Return v
  | None => Raise (KeyError key)
  end.

(** [fiber_dict.get(key, fallback)]. *)
Definition get (key : string) (fallback : Landmarks.json)
    (fiber_dict : list (string * Landmarks.json)) : Landmarks.json :=
  default fallback (Landmarks.dict_get key fiber_dict).

(** The [fiber] dict built for one entry of the file. *)
Definition load_fiber (fiber_colors : list rgba) (entry : Landmarks.json)
    : outcome fiber :=
  match entry with
  | Landmarks.JDict fiber_dict =>
      fiber_id ← item "fiber_id" fiber_dict;
      top_z ← item "top_z" fiber_dict;
      top_y ← item "top_y" fiber_dict;
      top_x ← item "top_x" fiber_dict;
      bottom_z ← item "bottom_z" fiber_dict;
      bottom_y ← item "bottom_y" fiber_dict;
      bottom_x ← item "bottom_x" fiber_dict;
      '(k, c) ← color_of_value fiber_colors fiber_id;
      Return {| id := k; top := (top_z, top_y, top_x);
                bottom := (bottom_z, bottom_y, bottom_x); color := c;
                region_id := get "region_id" Landmarks.JNull fiber_dict;
                region_name := get "region_name" (Landmarks.JStr "N/A") fiber_dict;
                region_acronym :=
                  get "region_acronym" (Landmarks.JStr "N/A") fiber_dict;
                region_hierarchy :=
                  get "region_hierarchy" (Landmarks.JList []) fiber_dict;
                ccf_coords := plain (get "ccf_coords" Landmarks.JNull fiber_dict) |}
  | Landmarks.JList _ =>
      Raise (TypeError "list indices must be integers or slices, not str")
  | Landmarks.JStr _ => Raise (TypeError "string indices must be integers")
  | Landmarks.JInt _ => Raise (TypeError "'int' object is not subscriptable")
  | Landmarks.JNull => Raise (TypeError "'NoneType' object is not subscriptable")
  end.

(** The loop of [load_previous_work]: each fiber is appended before the next
    entry is looked at. *)
Fixpoint load_entries (entries : list Landmarks.json) (s : session)
    : session * outcome unit :=
  match entries with
  | [] => (s, Return ())
  | entry :: rest =>
    match load_fiber s.(fiber_colors) entry with
    | Raise e => (s, Raise e)
    | Return f => load_entries rest (set_fibers s (s.(fibers) ++ [f]))
    end
  end.

(** The characters of a str, as iterating it yields them. *)
Fixpoint characters (s : string) : list Landmarks.json :=
  match s with
  | EmptyString => []
  | String c rest => Landmarks.JStr (String c EmptyString) :: characters rest
  end.

(** [load_previous_work(saved_data)] for a parsed document of ints, strs,
    lists, dicts and null. *)
Definition load_previous_work (saved_data : Landmarks.json) : callback := λ s,
  match saved_data with
  | Landmarks.JList entries => load_entries entries s
  | Landmarks.JDict items => load_entries (map (λ kv, Landmarks.JStr kv.1) items) s
  | Landmarks.JStr text => load_entries (characters text) s
  | Landmarks.JInt _ => (s, Raise (TypeError "'int' object is not iterable"))
  | Landmarks.JNull => (s, Raise (TypeError "'NoneType' object is not iterable"))
  end.

(** *** Sessions *)

Inductive event : Type :=
| Click (e : mouse_event)
| Scroll (e : scroll_event)
| UndoCurrent
| UndoLastFiber
| NextFiber.

Definition handle (ev : event) : callback :=
  match ev with
  | Click e => on_click e
  | Scroll e => on_scroll e
  | UndoCurrent => undo_current
  | UndoLastFiber => undo_last_fiber
  | NextFiber => next_fiber
  end.

(** The state after a sequence of events; an exception in a callback does
    not end the session. *)
Definition run (events : list event) (s : session) : session :=
  fold_left (λ st ev, (handle ev st).1) events s.

End Session.

Arguments tracker {transform} _.
Arguments nz {transform} _.
Arguments ny {transform} _.
Arguments nx {transform} _.
Arguments current_slice {transform} _.
Arguments fibers {transform} _.
Arguments current_fiber {transform} _.
Arguments current_points {transform} _.
Arguments fiber_colors {transform} _.
Arguments set_slice {transform} _ _.
Arguments set_fibers {transform} _ _.
Arguments set_current {transform} _ _ _.
Arguments update_slice {transform} _ _.
Arguments on_scroll {transform} _ _.
Arguments on_click {transform} _ _ _.
Arguments undo_current {transform} _.
Arguments undo_last_fiber {transform} _.
Arguments next_fiber {transform} _.
Arguments load_entries {transform} _ _ _.
Arguments load_previous_work {transform} _ _ _.
Arguments handle {transform} _ _ _.
Arguments run {transform} _ _ _.

(** The fibers are numbered from [k] in list order, each with the row of the
    palette that its number selects. *)
Fixpoint numbered_from (fiber_colors : list rgba) (k : Z) (fibers : list fiber) : Prop :=
  match fibers with
  | [] => True
  | f :: rest =>
      f.(id) = k ∧ color_of fiber_colors k = Return f.(color)
      ∧ numbered_from fiber_colors (k + 1) rest
  end.

(** [p] is an index of the image. *)
Definition inside {transform} (s : session transform) (p : point) : bool :=
  let '(z, y, x) := p in
  (0 <=? z) && (z <? s.(nz)) && (0 <=? y) && (y <? s.(ny))
  && (0 <=? x) && (x <? s.(nx)).

(** *** Examples *)

(** A 4 x 8 x 8 registered image just opened, with a palette of two rows. *)
Definition fresh_session : session unit :=
  {| tracker := Tracker.registered_tracker; nz := 4; ny := 8; nx := 8;
     current_slice := 2; fibers := [];
     current_fiber := {| current_top := None; current_bottom := None;
                         current_region_info := None |};
     current_points := [];
     fiber_colors := [[0.5; 0.5; 0.5; 1]; [1; 0; 0; 1]]%float |}.

Definition no_transform : unit → vec3 → string + vec3 := λ _ p, inr p.

Definition click (x y : float) : mouse_event :=
  {| inaxes := true; xdata := Some x; ydata := y |}.

Definition scroll (direction : string) : scroll_event :=
  {| scroll_inaxes := true; button := direction |}.

(** One fiber from (2, 1, 1) to (1, 1, 0), saved. *)
Definition one_fiber : list event :=
  [Click (click 1 1); Scroll (scroll "down"); Click (click 0.4 1.2); NextFiber].

(** The fibers of that session. *)
Definition saved_fibers : list fiber :=
  fibers (run no_transform one_fiber fresh_session).

(** The exception of [s % n] for a str without a conversion specifier. *)
Definition no_specifier : string → exception :=
  λ _, TypeError "not all arguments converted during string formatting".

(** A file entry without its ['fiber_id']. *)
Definition entry_without_id : Landmarks.json :=
  Landmarks.JDict [("top_z", Landmarks.JInt 1); ("top_y", Landmarks.JInt 1);
                   ("top_x", Landmarks.JInt 0)].

End Fibers.

(** ** fiber_tracker.py: [AllenCCFOntology.parse_ontology] *)

Module Ontology.
Import Py.

(** A value of the parsed structure graph, by the tests that
    [parse_structure_tree] makes on it. The model covers graphs as the Allen
    API serves them: ['id'] and ['parent_structure_id'] are ints (or absent
    or null), names, acronyms and colours are strs, ['children'] is a list. *)
Inductive node : Type :=
| Struct (id : option Z) (name acronym : option string)
    (parent_structure_id : option Z) (color_hex_triplet : option string)
    (children : option (list node)) (msg : option node)   (* a dict *)
| Items (items : list node)                               (* a list *)
| Text (s : string)                                       (* a str *)
| Scalar.                                                 (* an int or null *)

(** The value stored under [id_to_info[struct_id]]. *)
Definition info_of (struct_id : Z) (name acronym : option string)
    (parent_structure_id : option Z) (color_hex_triplet : option string)
    : Tracker.region_info :=
  {| Tracker.info_id := struct_id;
     Tracker.info_name := default ("Region_" +:+ pretty struct_id) name;
     Tracker.info_acronym := default "" acronym;
     Tracker.info_parent_id := parent_structure_id;
     Tracker.info_color_hex := default "FFFFFF" color_hex_triplet |}.

Fixpoint parse_structure_tree (n : node) (id_to_info : Tracker.ontology)
    : Tracker.ontology :=
  match n with
  | Struct id name acronym parent color children _ =>
      let id_to_info' :=
        match id with
        | Some struct_id =>
            <[struct_id := info_of struct_id name acronym parent color]> id_to_info
        | None => id_to_info
        end in
      match children with
      | Some cs =>
          fold_left (λ acc child, parse_structure_tree child acc) cs id_to_info'
      | None => id_to_info'
      end
  | Items items =>
      fold_left (λ acc item, parse_structure_tree item acc) items id_to_info
  | Text _ => id_to_info
  | Scalar => id_to_info
  end.

(** [x == 'msg'] for an element of a list. *)
Definition is_msg (n : node) : bool :=
  match n with
  | Text s => String.eqb s "msg"
  | _ => false
  end.

(** [data['msg'] if 'msg' in data else data]: the membership test is a key
    test on a dict, an element test on a list, a substring test on a str. *)
Definition graph_of (data : node) : outcome node :=
  match data with
  | Struct _ _ _ _ _ _ (Some msg) => Return msg
  | Struct _ _ _ _ _ _ None => Return data
  | Items items =>
      if existsb is_msg items then
        Raise (TypeError "list indices must be integers or slices, not str")
      else Return data
  | Text s =>
      match String.index 0 "msg" s with
      | Some _ => Raise (TypeError "string indices must be integers")
      | None => Return data
      end
  | Scalar => Raise (TypeError "argument is not iterable")
  end.

(** [parse_ontology(data)], as the change it makes to [self.id_to_info]. *)
Definition parse_ontology (data : node) (id_to_info : Tracker.ontology)
    : Tracker.ontology * outcome unit :=
  match graph_of data with
  | Return graph => (parse_structure_tree graph id_to_info, Return ())
  | Raise e => (id_to_info, Raise e)
  end.

(** The structures of a graph that have an ['id'], in document order, each
    as the record [parse_structure_tree] builds for it. *)
Fixpoint structures (n : node) : list Tracker.region_info :=
  match n with
  | Struct id name acronym parent color children _ =>
      match id with
      | Some struct_id => [info_of struct_id name acronym parent color]
      | None => []
      end
      ++ match children with
         | Some cs => flat_map structures cs
         | None => []
         end
  | Items items => flat_map structures items
  | Text _ => []
  | Scalar => []
  end.

(** The last structure of the list with the given id. *)
Definition last_with_id (region_id : Z) (l : list Tracker.region_info)
    : option Tracker.region_info :=
  find (λ r, r.(Tracker.info_id) =? region_id) (rev l).

(** *** Examples *)

Definition leaf (id : Z) (name acronym : string) (parent : Z) : node :=
  Struct (Some id) (Some name) (Some acronym) (Some parent) (Some "B0F0FF")
    (Some []) None.

(** The top of the Allen structure graph, with a second record for id 8. *)
Definition allen_graph : node :=
  Items
    [Struct (Some 997) (Some "root") (Some "root") None (Some "FFFFFF")
       (Some [Struct (Some 8) (Some "Basic cell groups and regions")
                (Some "grey") (Some 997) (Some "BFDAE3")
                (Some [leaf 567 "Cerebrum" "CH" 8;
                       leaf 343 "Brain stem" "BS" 8]) None;
              Struct (Some 1009) None None (Some 997) None None None;
              leaf 8 "grey, again" "grey" 997]) None].

(** The response of the API: the graph under ['msg']. *)
Definition allen_top : node :=
  Struct None None None None None None (Some allen_graph).

End Ontology.

(** * Properties *)

Import Py.

(** ** binary64 facts used below *)

Section Binary64.
Local Open Scope float_scope.

Lemma SFabs_SFopp (s : spec_float) : SFabs (SFopp s) = SFabs s.
Proof. by destruct s. Qed.

Lemma abs_opp (x : float) : abs (- x) = abs x.
Proof. apply Prim2SF_inj. by rewrite !abs_spec, opp_spec, SFabs_SFopp. Qed.

Lemma compare_cont_Eq_swap (p q : positive) :
  Pos.compare_cont Eq q p = CompOpp (Pos.compare_cont Eq p q).
Proof. by rewrite (Pos.compare_cont_antisym p q Eq). Qed.

Lemma SFcompare_Lt_Gt (a b : spec_float) :
  SFcompare a b = Some Lt → SFcompare b a = Some Gt.
Proof.
  destruct a as [sa|sa| |sa ma ea], b as [sb|sb| |sb mb eb]; simpl; try done;
    try (destruct sa; done); try (destruct sb; done); try (destruct sa, sb; done).
  rewrite (Z.compare_antisym ea eb), (compare_cont_Eq_swap ma mb).
  destruct sa, sb, (ea ?= eb)%Z, (Pos.compare_cont Eq ma mb); simpl; done.
Qed.

(** [x < y] excludes [y < x], NaN included. *)
Lemma ltb_asym (x y : float) : (x <? y) = true → (y <? x) = false.
Proof.
  rewrite !ltb_spec. unfold SFltb. intros H.
  destruct (SFcompare (Prim2SF x) (Prim2SF y)) as [[]|] eqn:E; try done.
  by rewrite (SFcompare_Lt_Gt _ _ E).
Qed.

End Binary64.

(** ** Midline plane fitting *)

Section MidlineFacts.
Import Midline.
Local Open Scope float_scope.

Lemma fit_midline_plane_inv (lib : NumLib) (mp : midline_points) (r : plane_fit) :
  fit_midline_plane lib mp = Return r →
  (2 ≤ length mp)%nat ∧
  fitted_normal lib (collect_points_3d mp) = Return r.(normal) ∧
  rotation_of_normal lib r.(normal)
    = (r.(rotation_axis), r.(rotation_angle), r.(rotation_angle_deg)).
Proof.
  unfold fit_midline_plane.
  destruct (Nat.ltb_spec (length mp) 2) as [Hlt|Hge]; [done|].
  destruct (fitted_normal lib (collect_points_3d mp)) as [n|e] eqn:Hn; [|done].
  cbn [mbind outcome_bind bind].
  destruct (rotation_of_normal lib n) as [[axis angle] deg] eqn:Hrot.
  intros [= <-]. by cbn.
Qed.

Lemma fit_midline_plane_returns (lib : NumLib) (mp : midline_points) (n : vec3) :
  (2 ≤ length mp)%nat →
  fitted_normal lib (collect_points_3d mp) = Return n →
  ∃ r, fit_midline_plane lib mp = Return r ∧ r.(normal) = n
       ∧ rotation_of_normal lib n
         = (r.(rotation_axis), r.(rotation_angle), r.(rotation_angle_deg)).
Proof.
  intros Hlen Hn. unfold fit_midline_plane.
  destruct (Nat.ltb_spec (length mp) 2) as [Hlt|_]; [lia|].
  rewrite Hn. cbn [mbind outcome_bind bind].
  destruct (rotation_of_normal lib n) as [[axis angle] deg].
  eexists. split; [reflexivity|]. by cbn.
Qed.




(** The hypothesis on the tolerance is needed in the model, where the
    library is arbitrary: when the SVD answers a row that is not a unit
    vector, off the X axis by 1e-5 with x-component 1, the candidate angle is
    arccos 1 = 0, the rotated normal is the normal itself and is not strictly
    closer; the rule of the specification negates the axis, the code keeps
    it. A unit normal that passes the 1e-6 test has a dot product below 1,
    and an accurate rotation takes it to about 1. *)
Lemma verification_keeps_candidate_when_not_closer :
  fit_midline_plane (example_lib rows_tilted) clicks_on_x10
    = Return tilted_fit
  ∧ (1e-6 <? ieee_norm (ieee_cross (1, 1e-5, 0) target_normal)) = true
  ∧ (dot_before (example_lib rows_tilted) (1, 1e-5, 0)
       <? dot_after (example_lib rows_tilted) (1, 1e-5, 0)) = false
  ∧ candidate_rotation (example_lib rows_tilted) (1, 1e-5, 0) = ((0, 0, -1), 0)
  ∧ spec_verified_rotation (example_lib rows_tilted) (1, 1e-5, 0)
      = ((-0, -0, 1), -0)
  ∧ ((0, 0, -1) : vec3) ≠ (-0, -0, 1).
Proof.
  repeat split; try (vm_compute; reflexivity).
  intros H. apply (f_equal (λ v : vec3, Prim2SF v.2)) in H.
  vm_compute in H. discriminate H.
Qed.

(** C4. With at least two marked slices and a fitted, sign-oriented normal
    whose cross product with +X has norm below 1e-6, [fit_midline_plane]
    returns, and the rotation angle it returns is 0. *)
Theorem fit_midline_plane_degenerate
    (lib : NumLib) (mp : midline_points) (n : vec3) :
  (2 ≤ length mp)%nat →
  fitted_normal lib (collect_points_3d mp) = Return n →
  (lib.(np_norm) (lib.(np_cross) n target_normal) <? 1e-6) = true →
  ∃ r, fit_midline_plane lib mp = Return r
       ∧ r.(normal) = n
       ∧ r.(rotation_angle) = 0
       ∧ r.(rotation_angle_deg) = 0.
Proof.
  intros Hlen Hn Hsmall.
  destruct (fit_midline_plane_returns lib mp n Hlen Hn) as (r & Hr & Hnormal & Hrot).
  exists r. split; [done|]. split; [done|].
  unfold rotation_of_normal in Hrot.
  rewrite (ltb_asym _ _ Hsmall) in Hrot.
  by injection Hrot as _ <- <-.
Qed.

Lemma fit_midline_plane_degenerate_witness :
  ∃ r, fit_midline_plane (example_lib rows_x10) clicks_on_x10 = Return r
       ∧ r.(normal) = (1, 0, 0)
       ∧ r.(rotation_angle) = 0
       ∧ r.(rotation_angle_deg) = 0.
Proof.
  apply (fit_midline_plane_degenerate (example_lib rows_x10) clicks_on_x10 (1, 0, 0)).
  - vm_compute. lia.
  - vm_compute. reflexivity.
  - vm_compute. reflexivity.
Defined.

(** *** Applying the alignment *)

Lemma abs_effective_angle (plane_params : plane_fit) (reverse : bool) :
  abs (effective_angle plane_params reverse) = abs plane_params.(rotation_angle).
Proof.
  unfold effective_angle. destruct reverse; by rewrite ?abs_opp.
Qed.

(** C5. The angle handed to the rotation has the absolute value of the
    fitted angle; when that is below 0.001, [apply_alignment] returns
    [self.image] itself and calls neither the resampler, nor clip, nor
    astype. *)
Theorem apply_alignment_negligible
    (ndarray : Type) (il : ImageLib ndarray) (image : ndarray)
    (plane_params : plane_fit) (reverse : bool) :
  (abs (effective_angle plane_params reverse) <? 0.001) = true →
  abs (effective_angle plane_params reverse) = abs plane_params.(rotation_angle)
  ∧ apply_alignment ndarray il image plane_params reverse = (image, []).
Proof.
  intros Hsmall. split; [apply abs_effective_angle|].
  unfold apply_alignment. by rewrite Hsmall.
Qed.

Lemma apply_alignment_negligible_witness :
  abs (effective_angle tilted_fit false) = abs tilted_fit.(rotation_angle)
  ∧ apply_alignment (list Z) flat_image_lib [7; 8; 9]%Z tilted_fit false
    = ([7; 8; 9]%Z, []).
Proof.
  apply (apply_alignment_negligible (list Z) flat_image_lib [7; 8; 9]%Z tilted_fit false).
  vm_compute. reflexivity.
Defined.

End MidlineFacts.

(** ** Landmark registration *)

Section OutcomeFacts.

Lemma raises_only_return {A} (P : exception → Prop) (a : A) :
  raises_only P (Return a).
Proof. intros e H. discriminate H. Qed.

Lemma raises_only_raise {A} (P : exception → Prop) (e : exception) :
  P e → raises_only P (@Raise A e).
Proof. intros HP e' [= <-]. exact HP. Qed.

Lemma raises_only_bind {A B} (P : exception → Prop) (m : outcome A)
    (k : A → outcome B) :
  raises_only P m → (∀ a, raises_only P (k a)) → raises_only P (m ≫= k).
Proof.
  intros Hm Hk e. destruct m as [a|e']; cbn.
  - apply Hk.
  - intros [= <-]. by apply Hm.
Qed.

Lemma raises_only_mapM {A B} (P : exception → Prop) (f : A → outcome B)
    (l : list A) :
  (∀ a, raises_only P (f a)) → raises_only P (mapM f l).
Proof.
  intros Hf. induction l as [|a l IH]; cbn.
  - apply raises_only_return.
  - apply raises_only_bind; [apply Hf|]. intros b.
    apply raises_only_bind; [apply IH|]. intros bs. apply raises_only_return.
Qed.

Lemma raises_only_sitk_call {A} (P : exception → Prop) (r : string + A) :
  (∀ msg, P (RuntimeError msg)) → raises_only P (sitk_call r).
Proof.
  intros HP. destruct r; cbn; [by apply raises_only_raise | apply raises_only_return].
Qed.

End OutcomeFacts.

Section RegistrationFacts.
Import Landmarks.

Lemma too_few_error_not_past (transform_type : string) :
  ¬ past_count_check (too_few_error transform_type).
Proof.
  unfold too_few_error. destruct (min_landmarks !! transform_type); cbn; tauto.
Qed.

Lemma float_of_int_raises (z : Z) : raises_only past_count_check (float_of_int z).
Proof.
  unfold float_of_int. intros e.
  destruct (Prim2SF _); intros [= <-]; exact I.
Qed.

Lemma to_physical_raises (lm : landmark) (spacing : vec3) :
  raises_only past_count_check (to_physical lm spacing).
Proof.
  destruct lm as [[z y] x], spacing as [[s0 s1] s2]. unfold to_physical, int_times_float.
  repeat (apply raises_only_bind; [|intros ?]);
    try apply float_of_int_raises; apply raises_only_return.
Qed.

Lemma float_sq_raises (pow2 : float → float) (v : float) :
  raises_only past_count_check (float_sq pow2 v).
Proof.
  unfold float_sq. intros e.
  destruct (Prim2SF v), (Prim2SF (pow2 v)); intros [= <-]; exact I.
Qed.

Lemma select_kind_raises (transform_type : string) :
  raises_only past_count_check (select_kind transform_type).
Proof.
  unfold select_kind. intros e.
  repeat case_match; intros [= <-]; exact I.
Qed.

Lemma reduce_nonempty_raises (f : list float → float) (l : list float) :
  raises_only past_count_check (reduce_nonempty f "minimum" l)
  ∧ raises_only past_count_check (reduce_nonempty f "maximum" l).
Proof.
  unfold reduce_nonempty. split; intros e; destruct (is_empty l); intros [= <-]; exact I.
Qed.

Context {image sitk_image transform : Type}.
Implicit Types lib : SitkLib image sitk_image transform.

Lemma compute_landmark_error_raises lib moving fixed t ms fs :
  raises_only past_count_check
    (compute_landmark_error image sitk_image transform lib moving fixed t ms fs).
Proof.
  apply raises_only_mapM. intros [m_lm f_lm]. unfold landmark_error.
  apply raises_only_bind; [apply to_physical_raises|]. intros m_phys.
  apply raises_only_bind; [apply to_physical_raises|]. intros [[f0 f1] f2].
  destruct (transform_point _ _ _ lib t m_phys) as [[m0 m1] m2].
  repeat (apply raises_only_bind; [apply float_sq_raises|intros ?]).
  apply raises_only_return.
Qed.

(** Past its first check, the function raises neither of the errors of that
    check. *)
Lemma register_checked_raises lib mi fi moving fixed ms fs transform_type :
  raises_only past_count_check
    (register_checked image sitk_image transform lib mi fi moving fixed ms fs
       transform_type).
Proof.
  unfold register_checked.
  apply raises_only_bind; [by apply raises_only_sitk_call|]. intros moving_sitk.
  apply raises_only_bind; [by apply raises_only_sitk_call|]. intros fixed_sitk.
  apply raises_only_bind.
  { apply raises_only_mapM. intros [m_lm f_lm]. unfold physical_pair.
    apply raises_only_bind; [apply to_physical_raises|]. intros m_phys.
    apply raises_only_bind; [apply to_physical_raises|]. intros f_phys.
    apply raises_only_return. }
  intros phys.
  apply raises_only_bind; [apply select_kind_raises|]. intros kind.
  apply raises_only_bind; [by apply raises_only_sitk_call|]. intros t.
  apply raises_only_bind; [apply compute_landmark_error_raises|]. intros errs.
  apply raises_only_bind; [apply reduce_nonempty_raises|]. intros _.
  apply raises_only_bind; [apply reduce_nonempty_raises|]. intros _.
  apply raises_only_bind; [by apply raises_only_sitk_call|]. intros registered.
  apply raises_only_bind; [apply reduce_nonempty_raises|]. intros max_e.
  apply raises_only_bind; [apply reduce_nonempty_raises|]. intros min_e.
  apply raises_only_return.
Qed.

Lemma known_kind_minimum (transform_type : string) :
  transform_type ∈ ["rigid"; "similarity"; "affine"] →
  min_landmarks !! transform_type = Some (spec_minimum transform_type)
  ∧ too_few_error transform_type
    = ValueError ("Need at least " +:+ pretty (spec_minimum transform_type)
                  +:+ " landmark pairs for " +:+ transform_type +:+ " registration").
Proof.
  rewrite !elem_of_cons, elem_of_nil.
  intros [->|[->|[->|[]]]]; split; vm_compute; reflexivity.
Qed.

(** The check as the code has it. For a kind among rigid, similarity and
    affine, the call raises the too-few-landmarks [ValueError] exactly when
    [len(moving_landmarks)] is below 3, 3 and 4 respectively; with that many
    or more, the check is passed and the call is the rest of the function,
    which never raises that error. *)
Theorem landmark_registration_minimum lib mi fi (moving fixed : list landmark)
    (ms fs : vec3) (transform_type : string) :
  transform_type ∈ ["rigid"; "similarity"; "affine"] →
  let call := landmark_registration image sitk_image transform lib mi fi moving
                fixed ms fs transform_type in
  let error := ValueError ("Need at least " +:+ pretty (spec_minimum transform_type)
                 +:+ " landmark pairs for " +:+ transform_type +:+ " registration") in
  (call = Raise error ↔ (length moving < spec_minimum transform_type)%nat)
  ∧ ((length moving < spec_minimum transform_type)%nat ∨
     call = register_checked image sitk_image transform lib mi fi moving fixed
              ms fs transform_type).
Proof.
  intros Hkind call error.
  destruct (known_kind_minimum _ Hkind) as [Hmin Herr].
  fold error in Herr.
  assert (Hguard : too_few_landmarks moving transform_type
                   = bool_decide (length moving < spec_minimum transform_type)%nat).
  { unfold too_few_landmarks. rewrite Hmin. cbn [default from_option id].
    destruct (Nat.ltb_spec (length moving) (spec_minimum transform_type));
      symmetry; [apply bool_decide_eq_true_2 | apply bool_decide_eq_false_2]; lia. }
  subst call. unfold landmark_registration. rewrite Hguard, Herr.
  case_bool_decide as Hlt.
  - split; [done | by left].
  - split; [|by right]. split; [|done].
    intros Hraise. exfalso.
    apply (too_few_error_not_past transform_type). rewrite Herr.
    exact (register_checked_raises _ _ _ _ _ _ _ _ _ Hraise).
Qed.


(** The affine (or any) solve is SimpleITK's: when the initializer fails,
    its failure reaches the caller as the [RuntimeError] it is, unchanged. *)
Lemma initializer_failure_propagates lib mi fi (moving fixed : list landmark)
    (ms fs : vec3) (transform_type : string) (moving_sitk fixed_sitk : sitk_image)
    (phys : list (vec3 * vec3)) (kind : sitk_kind) (msg : string) :
  too_few_landmarks moving transform_type = false →
  numpy_to_sitk _ _ _ lib mi ms = inr moving_sitk →
  numpy_to_sitk _ _ _ lib fi fs = inr fixed_sitk →
  mapM (physical_pair ms fs) (zip moving fixed) = Return phys →
  select_kind transform_type = Return kind →
  landmark_initializer _ _ _ lib kind (flatten_points phys.*2)
    (flatten_points phys.*1) = inl msg →
  landmark_registration image sitk_image transform lib mi fi moving fixed ms fs
    transform_type = Raise (RuntimeError msg).
Proof.
  intros Hcount Hm Hf Hphys Hkind Hinit.
  unfold landmark_registration, register_checked.
  rewrite Hcount, Hm, Hf. cbn [sitk_call mbind outcome_bind bind].
  rewrite Hphys. cbn [mbind outcome_bind bind].
  rewrite Hkind. cbn [mbind outcome_bind bind].
  by rewrite Hinit.
Qed.

End RegistrationFacts.

Lemma landmark_registration_minimum_witness :
  (Landmarks.landmark_registration unit unit unit Landmarks.failing_sitk () () [(1, 2, 3); (4, 5, 6)] [(1, 2, 3); (4, 5, 6)]
     (0.025, 0.025, 0.025)%float (0.025, 0.025, 0.025)%float "rigid"
   = Raise (ValueError "Need at least 3 landmark pairs for rigid registration")
   ↔ (2 < 3)%nat)
  ∧ ((2 < 3)%nat ∨
     Landmarks.landmark_registration unit unit unit Landmarks.failing_sitk () () [(1, 2, 3); (4, 5, 6)] [(1, 2, 3); (4, 5, 6)]
       (0.025, 0.025, 0.025)%float (0.025, 0.025, 0.025)%float "rigid"
     = Landmarks.register_checked unit unit unit Landmarks.failing_sitk () () [(1, 2, 3); (4, 5, 6)] [(1, 2, 3); (4, 5, 6)]
         (0.025, 0.025, 0.025)%float (0.025, 0.025, 0.025)%float "rigid").
Proof.
  apply (landmark_registration_minimum Landmarks.failing_sitk () () [(1, 2, 3); (4, 5, 6)]
           [(1, 2, 3); (4, 5, 6)] (0.025, 0.025, 0.025)%float
           (0.025, 0.025, 0.025)%float "rigid").
  apply list_elem_of_here.
Defined.


(** ** Landmark selection *)

Section SelectorFacts.
Import Landmarks.

Lemma length_pop {A} (l : list A) : length (pop l) = Nat.pred (length l).
Proof.
  unfold pop. induction l as [|a [|b l] IH]; [done..|].
  change (removelast (a :: b :: l)) with (a :: removelast (b :: l)).
  cbn [length] in *. by rewrite IH.
Qed.

Lemma is_empty_length {A} (l : list A) : is_empty l = false → (0 < length l)%nat.
Proof. destruct l; [done|cbn; lia]. Qed.

(** A click keeps the fixed list no longer than the moving list. *)
Lemma onclick_paired_prefix (event : mouse_event) (s : selector) :
  paired_prefix s → paired_prefix (onclick event s).1.
Proof.
  unfold paired_prefix, onclick. intros Hinv.
  destruct (inaxes event) as [ax|]; [|done].
  destruct (negb (button event =? 1)); [done|].
  destruct (int_of_float (xdata event)) as [x|]; [|done].
  destruct (int_of_float (ydata event)) as [y|]; [|done].
  destruct ax; cbn; [rewrite length_app; cbn; lia | | done].
  destruct (Nat.leb_spec (length (moving_landmarks s)) (length (fixed_landmarks s)));
    cbn; [done|]. rewrite length_app. cbn. lia.
Qed.

(** A fixed landmark is appended only below the moving count. *)
Lemma onclick_appends_fixed_below (event : mouse_event) (s : selector) :
  fixed_landmarks (onclick event s).1 ≠ fixed_landmarks s →
  (length (fixed_landmarks s) < length (moving_landmarks s))%nat.
Proof.
  unfold onclick.
  destruct (inaxes event) as [ax|]; [|done].
  destruct (negb (button event =? 1)); [done|].
  destruct (int_of_float (xdata event)) as [x|]; [|done].
  destruct (int_of_float (ydata event)) as [y|]; [|done].
  destruct ax; cbn; [done| |done].
  destruct (Nat.leb_spec (length (moving_landmarks s)) (length (fixed_landmarks s)));
    cbn; [done|lia].
Qed.

(** Undo keeps the fixed list no longer than the moving list. *)
Lemma on_undo_paired_prefix (s : selector) :
  paired_prefix s → paired_prefix (on_undo s).1.
Proof.
  unfold paired_prefix, on_undo. intros Hinv.
  destruct (is_empty (moving_landmarks s)) eqn:Hm; cbn [negb andb]; [done|].
  apply is_empty_length in Hm.
  destruct (is_empty (fixed_landmarks s)) eqn:Hf; cbn [negb andb].
  - destruct (is_empty (moving_plots _)); cbn; rewrite length_pop;
      destruct (fixed_landmarks s); cbn in *; try done; lia.
  - apply is_empty_length in Hf.
    repeat (match goal with |- context [if ?b then _ else _] => destruct b end);
      cbn; rewrite !length_pop; lia.
Qed.

(** The counting invariant holds along every sequence of clicks and undos
    from a state that has it. *)
Lemma callbacks_paired_prefix (events : list (mouse_event + unit)) (s : selector) :
  paired_prefix s →
  paired_prefix
    (run (map (λ ev, match ev with inl e => onclick e | inr _ => on_undo end) events) s).
Proof.
  unfold run. revert s. induction events as [|ev events IH]; intros s Hs; [done|].
  cbn. apply IH. destruct ev; [by apply onclick_paired_prefix|by apply on_undo_paired_prefix].
Qed.

(** C10, the code at the state the claim misses. After a click on the moving
    image, its partner on the fixed image and one more click on the moving
    image, there is one complete pair and one unpaired moving landmark. Undo
    then removes the unpaired moving landmark together with the fixed landmark
    of the complete pair: what is gone is neither a pair nor the unpaired
    landmark alone, and the first moving landmark has lost its partner. *)
Theorem on_undo_splits_last_pair :
  let s := run [onclick (click ax_moving 30 40); onclick (click ax_fixed 31 41);
                onclick (click ax_moving 50 60)] fresh_selector in
  moving_landmarks s = [(5, 40, 30); (5, 60, 50)]
  ∧ fixed_landmarks s = [(6, 41, 31)]
  ∧ landmark_names s = ["Point_1"]
  ∧ on_undo s
    = ({| moving_landmarks := [(5, 40, 30)]; fixed_landmarks := [];
          landmark_names := [];
          moving_plots := [{| marker_x := 30; marker_y := 40; text := "1" |}];
          fixed_plots := [];
          moving_slice := 5; fixed_slice := 6; view := "Z";
          moving_name := "MicroCT"; fixed_name := "Allen CCF" |}, Return ()).
Proof. vm_compute. repeat split. Qed.

(** *** Saving and loading *)

Lemma landmarks_from_json (l : list landmark) :
  json_to_landmarks (JList (map landmark_to_json l)) = Return l.
Proof.
  cbn. induction l as [|[[z y] x] l IH]; [done|].
  cbn [map mapM landmark_to_json json_to_landmark]. rewrite IH. reflexivity.
Qed.

Lemma names_from_json (l : list string) :
  json_to_names (JList (map JStr l)) = Return l.
Proof.
  cbn. induction l as [|n l IH]; [done|].
  cbn [map mapM json_to_name]. rewrite IH. reflexivity.
Qed.

(** C8. Loading a file just written by [save_landmarks] succeeds, returns
    the saved moving and fixed lists, and leaves them (and the names) in the
    loading selector: same elements, same order, hence the same pairing and
    the same counts. *)
Theorem save_then_load_landmarks (saved loading : selector) (filepath : string)
    (fs : files) :
  let after := load_landmarks filepath loading (save_landmarks filepath saved fs) in
  after.2 = Return (moving_landmarks saved, fixed_landmarks saved)
  ∧ moving_landmarks after.1 = moving_landmarks saved
  ∧ fixed_landmarks after.1 = fixed_landmarks saved
  ∧ landmark_names after.1 = landmark_names saved
  ∧ zip (moving_landmarks after.1) (fixed_landmarks after.1)
    = zip (moving_landmarks saved) (fixed_landmarks saved)
  ∧ length (moving_landmarks after.1) = length (moving_landmarks saved)
  ∧ length (fixed_landmarks after.1) = length (fixed_landmarks saved).
Proof.
  intros after.
  assert (Hafter : after = (set_landmarks loading (moving_landmarks saved)
                              (fixed_landmarks saved) (landmark_names saved),
                            Return (moving_landmarks saved, fixed_landmarks saved))).
  { subst after. unfold load_landmarks, save_landmarks.
    rewrite lookup_insert_eq. unfold save_data.
    cbn [dict_get String.eqb Ascii.eqb Bool.eqb].
    rewrite !landmarks_from_json. cbn [default from_option id].
    rewrite names_from_json. reflexivity. }
  rewrite Hafter. cbn. repeat split.
Qed.

End SelectorFacts.


(** ** Region lookup *)

Section TrackerFacts.
Import Tracker.

Lemma length_ancestry (n : nat) (id_to_info : ontology) (region_id : Z) :
  (length (ancestry n id_to_info region_id) ≤ n)%nat.
Proof.
  revert region_id. induction n as [|n IH]; intros region_id; cbn; [lia|].
  destruct (info_parent_id _) as [parent|]; [|cbn; lia].
  destruct (parent =? 997); [cbn; lia|]. specialize (IH parent). lia.
Qed.

(** The loop, started anywhere with enough fuel, exits with the names
    gathered so far followed by the ancestry of the current region within
    the depth that is left. *)
Lemma hierarchy_loop_ancestry (fuel : nat) (id_to_info : ontology) (max_depth : Z)
    (h : list string) (cid d : Z) :
  (Z.to_nat (max_depth - d) < fuel)%nat →
  hierarchy_loop fuel id_to_info max_depth
    {| hierarchy := h; current_id := Some cid; depth := d |}
  = Some (h ++ ancestry (Z.to_nat (max_depth - d)) id_to_info cid).
Proof.
  revert h cid d. induction fuel as [|fuel IH]; intros h cid d Hfuel; [lia|].
  cbn [hierarchy_loop current_id depth hierarchy].
  destruct (Z.ltb_spec d max_depth) as [Hlt|Hge].
  - replace (Z.to_nat (max_depth - d)) with (S (Z.to_nat (max_depth - (d + 1))))
      in * by lia.
    cbn [ancestry].
    destruct (info_parent_id (get_region_info id_to_info cid)) as [parent|] eqn:Hp.
    + destruct (decide (Some parent = Some 997)) as [[= ->]|Hne].
      * done.
      * destruct (Z.eqb_spec parent 997) as [->|_]; [done|].
        rewrite IH by lia. by rewrite <-app_assoc.
    + destruct (decide (None = Some 997)) as [|_]; [done|].
      destruct fuel as [|fuel]; [lia|]. done.
  - replace (Z.to_nat (max_depth - d)) with O by lia. cbn. by rewrite app_nil_r.
Qed.

(** More fuel than the depth bound changes nothing. *)
Lemma hierarchy_loop_enough_fuel (fuel : nat) (id_to_info : ontology)
    (region_id max_depth : Z) :
  (Z.to_nat max_depth < fuel)%nat →
  hierarchy_loop fuel id_to_info max_depth
    {| hierarchy := []; current_id := Some region_id; depth := 0 |}
  = get_region_hierarchy id_to_info region_id max_depth.
Proof.
  intros Hfuel. unfold get_region_hierarchy.
  rewrite !hierarchy_loop_ancestry; [done|rewrite Z.sub_0_r; lia..].
Qed.

(** C9. For every region id, every id-to-record map (records may be missing,
    parent links may form a cycle) and every depth bound, the walk exits and
    returns the ancestry of the region: at most [max_depth] names, ending
    at the first region whose parent is null or the root 997. *)
Theorem get_region_hierarchy_terminates (id_to_info : ontology)
    (region_id max_depth : Z) :
  get_region_hierarchy id_to_info region_id max_depth
    = Some (ancestry (Z.to_nat max_depth) id_to_info region_id)
  ∧ (length (ancestry (Z.to_nat max_depth) id_to_info region_id)
       ≤ Z.to_nat max_depth)%nat
  ∧ ∀ n cid,
      info_parent_id (get_region_info id_to_info cid) = None
      ∨ info_parent_id (get_region_info id_to_info cid) = Some 997 →
      ancestry (S n) id_to_info cid = [info_name (get_region_info id_to_info cid)].
Proof.
  split; [|split].
  - unfold get_region_hierarchy.
    rewrite hierarchy_loop_ancestry by (rewrite Z.sub_0_r; lia).
    by rewrite Z.sub_0_r.
  - apply length_ancestry.
  - intros n cid [Hp|Hp]; cbn; by rewrite Hp.
Qed.

Section Lookup.
Context {transform : Type} (transform_point : transform → vec3 → string + vec3).
Implicit Types self : tracker transform.

(** C6. On a registered image ([use_registered] true) the point is returned
    as it came. *)
Theorem transform_point_to_ccf_registered self (z y x : Z) :
  use_registered transform self = true →
  transform_point_to_ccf transform transform_point self z y x = (z, y, x).
Proof. intros Hreg. unfold transform_point_to_ccf. by rewrite Hreg. Qed.

Lemma out_of_bounds_spec (n0 n1 n2 zc yc xc : Z) :
  out_of_bounds (n0, n1, n2) (zc, yc, xc) = true
  ↔ zc < 0 ∨ n0 ≤ zc ∨ yc < 0 ∨ n1 ≤ yc ∨ xc < 0 ∨ n2 ≤ xc.
Proof.
  unfold out_of_bounds. rewrite !orb_true_iff, !Z.ltb_lt, !Z.leb_le. tauto.
Qed.

(** C2. With an annotation volume loaded, a CCF coordinate with an index
    that is negative or not below the shape is classified Out of Bounds,
    whatever the volume stores; a coordinate within the shape whose stored id
    is 0 is classified Outside Brain. Both are returned values. *)
Theorem get_region_at_point_classification self (ann : annotation)
    (z y x zc yc xc n0 n1 n2 : Z) :
  ccf_annotation transform self = Some ann →
  transform_point_to_ccf transform transform_point self z y x = (zc, yc, xc) →
  shape ann = (n0, n1, n2) →
  (zc < 0 ∨ n0 ≤ zc ∨ yc < 0 ∨ n1 ≤ yc ∨ xc < 0 ∨ n2 ≤ xc →
   get_region_at_point transform transform_point self z y x
   = out_of_bounds_result (zc, yc, xc))
  ∧ (0 ≤ zc < n0 ∧ 0 ≤ yc < n1 ∧ 0 ≤ xc < n2 →
     region_at ann zc yc xc = Return 0 →
     get_region_at_point transform transform_point self z y x
     = outside_brain_result (zc, yc, xc)).
Proof.
  intros Hann Hccf Hshape. unfold get_region_at_point, lookup_ccf.
  rewrite Hann, Hccf, Hshape. split.
  - intros Hout. by rewrite (proj2 (out_of_bounds_spec _ _ _ _ _ _) Hout).
  - intros Hin Hzero.
    destruct (out_of_bounds (n0, n1, n2) (zc, yc, xc)) eqn:Hb.
    + apply out_of_bounds_spec in Hb. lia.
    + by rewrite Hzero.
Qed.

End Lookup.

(** A lookup of the background voxel and a walk through a parent cycle. *)
Example lookup_background :
  get_region_at_point unit (λ _ p, inr p) registered_tracker 0 0 0
  = outside_brain_result (0, 0, 0).
Proof. reflexivity. Qed.

Example cyclic_walk_stops :
  get_region_hierarchy cyclic_ontology 1 10
  = Some ["a"; "b"; "a"; "b"; "a"; "b"; "a"; "b"; "a"; "b"].
Proof. vm_compute. reflexivity. Qed.

End TrackerFacts.

Lemma transform_point_to_ccf_registered_witness :
  Tracker.transform_point_to_ccf unit (λ _ p, inr p) Tracker.registered_tracker 3 4 5
  = (3, 4, 5).
Proof.
  apply (transform_point_to_ccf_registered (λ _ p, inr p) Tracker.registered_tracker).
  reflexivity.
Defined.

Lemma get_region_at_point_classification_witness :
  (1 < 0 ∨ 2 ≤ 1 ∨ 7 < 0 ∨ 2 ≤ 7 ∨ 0 < 0 ∨ 2 ≤ 0 →
   Tracker.get_region_at_point unit (λ _ p, inr p) Tracker.registered_tracker 1 7 0
   = Tracker.out_of_bounds_result (1, 7, 0))
  ∧ (0 ≤ 1 < 2 ∧ 0 ≤ 7 < 2 ∧ 0 ≤ 0 < 2 →
     Tracker.region_at Tracker.small_annotation 1 7 0 = Return 0 →
     Tracker.get_region_at_point unit (λ _ p, inr p) Tracker.registered_tracker 1 7 0
     = Tracker.outside_brain_result (1, 7, 0)).
Proof.
  apply (get_region_at_point_classification (λ _ p, inr p) Tracker.registered_tracker
           Tracker.small_annotation 1 7 0 1 7 0 2 2 2); reflexivity.
Defined.

(** ** Region lookup: fallbacks and the found case *)

Section LookupMore.
Import Tracker.
Context {transform : Type} (transform_point : transform → vec3 → string + vec3).
Implicit Types self : tracker transform.

Lemma float_div_by_zero (f g : float) :
  (g =? 0)%float = true → ∃ e, float_div f g = Raise e.
Proof. intros Hz. unfold float_div. rewrite Hz. by eexists. Qed.

(** Whenever the mapping cannot be computed (no transform was loaded, the
    spacing is zero, which makes the division raise, or the transform call
    fails at the physical point of the query), [transform_point_to_ccf] falls
    back to the input triple. *)
Theorem transform_point_to_ccf_fallback self (z y x : Z) :
  loaded_transform transform self = None
  ∨ (spacing transform self =? 0)%float = true
  ∨ (∃ t px py pz msg,
       loaded_transform transform self = Some t
       ∧ int_times_float x (spacing transform self) = Return px
       ∧ int_times_float y (spacing transform self) = Return py
       ∧ int_times_float z (spacing transform self) = Return pz
       ∧ transform_point t (px, py, pz) = inl msg) →
  transform_point_to_ccf transform transform_point self z y x = (z, y, x).
Proof.
  intros Hcase. unfold transform_point_to_ccf.
  destruct (use_registered transform self); [done|].
  destruct Hcase as [Hnone|[Hzero|(t & px & py & pz & msg & Ht & Hx & Hy & Hz & Hfail)]].
  - by rewrite Hnone.
  - destruct (loaded_transform transform self) as [t|]; [|done].
    destruct (int_times_float x _) as [px|]; [|done].
    destruct (int_times_float y _) as [py|]; [|done].
    destruct (int_times_float z _) as [pz|]; [|done].
    cbn [mbind outcome_bind bind].
    destruct (transform_point t (px, py, pz)) as [msg|[[c0 c1] c2]]; [done|].
    cbn [sitk_call mbind outcome_bind bind].
    destruct (float_div_by_zero c0 _ Hzero) as [e ->]. done.
  - rewrite Ht, Hx, Hy, Hz. cbn [mbind outcome_bind bind]. by rewrite Hfail.
Qed.

Lemma ancestry_head (n : nat) (id_to_info : ontology) (region_id : Z) :
  head (ancestry (S n) id_to_info region_id)
  = Some (info_name (get_region_info id_to_info region_id)).
Proof. done. Qed.

(** A coordinate within the annotation whose stored id is not 0 is looked up
    in the ontology: the result carries the id, the name and acronym of its
    record, the CCF coordinate, and a hierarchy of at most 10 names that
    starts with the region's own name. *)
Theorem get_region_at_point_found self (ann : annotation) (z y x region_id : Z) :
  ccf_annotation transform self = Some ann →
  let c := transform_point_to_ccf transform transform_point self z y x in
  out_of_bounds (shape ann) c = false →
  region_at ann c.1.1 c.1.2 c.2 = Return region_id →
  region_id ≠ 0 →
  let r := get_region_at_point transform transform_point self z y x in
  let info := get_region_info (id_to_info transform self) region_id in
  id r = Some region_id
  ∧ name r = info_name info
  ∧ acronym r = info_acronym info
  ∧ color_hex r = Some (info_color_hex info)
  ∧ ccf_coords r = Some c
  ∧ head (region_hierarchy r) = Some (name r)
  ∧ (length (region_hierarchy r) ≤ 10)%nat.
Proof.
  intros Hann c Hin Hat Hne r info. subst r.
  unfold get_region_at_point, lookup_ccf. rewrite Hann. fold c. rewrite Hin.
  destruct c as [[zc yc] xc] eqn:Hc. cbn [fst snd] in Hat. rewrite Hat.
  cbn [mbind outcome_bind bind].
  destruct (Z.eqb_spec region_id 0) as [|_]; [done|].
  unfold get_region_hierarchy.
  rewrite hierarchy_loop_ancestry by (rewrite Z.sub_0_r; lia).
  rewrite Z.sub_0_r. cbn [try_except id name acronym color_hex ccf_coords region_hierarchy app].
  repeat split.
  apply (length_ancestry (Z.to_nat 10)).
Qed.

(** An id that the ontology does not hold (and is not 0) gets the synthetic
    record: name [Unknown_Region_<id>], acronym [UNK<id>], no parent, so its
    hierarchy is that one name. *)
Theorem get_region_at_point_unknown self (ann : annotation) (z y x region_id : Z) :
  ccf_annotation transform self = Some ann →
  let c := transform_point_to_ccf transform transform_point self z y x in
  out_of_bounds (shape ann) c = false →
  region_at ann c.1.1 c.1.2 c.2 = Return region_id →
  region_id ≠ 0 →
  id_to_info transform self !! region_id = None →
  get_region_at_point transform transform_point self z y x
  = {| id := Some region_id;
       name := "Unknown_Region_" +:+ pretty region_id;
       acronym := "UNK" +:+ pretty region_id;
       region_hierarchy := ["Unknown_Region_" +:+ pretty region_id];
       color_hex := Some "FFFFFF";
       ccf_coords := Some c |}.
Proof.
  intros Hann c Hin Hat Hne Hmiss.
  unfold get_region_at_point, lookup_ccf. rewrite Hann. fold c. rewrite Hin.
  destruct c as [[zc yc] xc] eqn:Hc. cbn [fst snd] in Hat. rewrite Hat.
  cbn [mbind outcome_bind bind].
  destruct (Z.eqb_spec region_id 0) as [|_]; [done|].
  unfold get_region_hierarchy.
  rewrite hierarchy_loop_ancestry by (rewrite Z.sub_0_r; lia).
  change (Z.to_nat (10 - 0)) with 10%nat. cbn [ancestry app].
  unfold get_region_info. destruct (Z.eqb_spec region_id 0) as [|_]; [done|].
  rewrite Hmiss. reflexivity.
Qed.

End LookupMore.

Lemma transform_point_to_ccf_fallback_witness :
  Tracker.transform_point_to_ccf unit Tracker.punctured Tracker.unmapped_tracker 3 4 5
  = (3, 4, 5)
  ∧ Tracker.transform_point_to_ccf unit Tracker.punctured
      Tracker.zero_spacing_tracker 3 4 5 = (3, 4, 5)
  ∧ Tracker.transform_point_to_ccf unit Tracker.punctured Tracker.aligned_tracker 3 4 1
    = (3, 4, 1).
Proof.
  split_and!.
  - apply (transform_point_to_ccf_fallback Tracker.punctured Tracker.unmapped_tracker).
    left. reflexivity.
  - apply (transform_point_to_ccf_fallback Tracker.punctured
             Tracker.zero_spacing_tracker).
    right. left. reflexivity.
  - apply (transform_point_to_ccf_fallback Tracker.punctured Tracker.aligned_tracker).
    right. right.
    exists (), 0.025%float, (4 * 0.025)%float, (3 * 0.025)%float,
      "TransformPoint failed".
    split_and!; vm_compute; reflexivity.
Defined.

(** Away from the points where it fails, the same transform is applied:
    the fallback is per point. *)
Lemma transform_point_to_ccf_elsewhere :
  Tracker.transform_point_to_ccf unit Tracker.punctured Tracker.aligned_tracker 3 4 5
  = (6, 8, 10).
Proof. vm_compute. reflexivity. Qed.

Lemma get_region_at_point_found_witness :
  let r := Tracker.get_region_at_point unit (λ _ p, inr p)
             Tracker.registered_tracker 1 1 1 in
  Tracker.id r = Some 5
  ∧ Tracker.name r = "Unknown_Region_5"
  ∧ Tracker.acronym r = "UNK5"
  ∧ Tracker.color_hex r = Some "FFFFFF"
  ∧ Tracker.ccf_coords r = Some (1, 1, 1)
  ∧ head (Tracker.region_hierarchy r) = Some (Tracker.name r)
  ∧ (length (Tracker.region_hierarchy r) ≤ 10)%nat.
Proof.
  apply (get_region_at_point_found (λ _ p, inr p) Tracker.registered_tracker
           Tracker.small_annotation 1 1 1 5); [reflexivity..|lia].
Defined.

Lemma get_region_at_point_unknown_witness :
  Tracker.get_region_at_point unit (λ _ p, inr p) Tracker.registered_tracker 1 1 1
  = {| Tracker.id := Some 5; Tracker.name := "Unknown_Region_5";
       Tracker.acronym := "UNK5";
       Tracker.region_hierarchy := ["Unknown_Region_5"];
       Tracker.color_hex := Some "FFFFFF";
       Tracker.ccf_coords := Some (1, 1, 1) |}.
Proof.
  apply (get_region_at_point_unknown (λ _ p, inr p) Tracker.registered_tracker
           Tracker.small_annotation 1 1 1 5); [reflexivity|reflexivity|reflexivity|lia|reflexivity].
Defined.

(** ** More on the landmark selector and the registration call *)

Section OutcomeInversion.

Lemma bind_Return_inv {A B} (m : outcome A) (k : A → outcome B) (b : B) :
  m ≫= k = Return b → ∃ a, m = Return a ∧ k a = Return b.
Proof. destruct m as [a|e]; cbn; [eauto|done]. Qed.

Lemma mapM_Return_length {A B} (f : A → outcome B) (l : list A) (k : list B) :
  mapM f l = Return k → length k = length l.
Proof.
  revert k. induction l as [|a l IH]; intros k; cbn.
  - by intros [= <-].
  - intros (b & Hb & H)%bind_Return_inv.
    apply bind_Return_inv in H as (bs & Hbs & [= <-]).
    cbn. by rewrite (IH bs).
Qed.

End OutcomeInversion.

Section SelectorMore.
Import Landmarks.

(** In step, the two loops of [update_display] stay within the plot lists. *)
Lemma update_display_in_sync (s : selector) :
  length (moving_plots s) = length (moving_landmarks s) →
  length (fixed_plots s) = length (fixed_landmarks s) →
  update_display s = Return ().
Proof.
  intros Hm Hf. unfold update_display. by rewrite Hm, Hf, !Nat.ltb_irrefl.
Qed.

(** From a state where names and markers are in step with the landmarks,
    a click leaves them in step, and so does undo: both callbacks change the
    lists together, before anything is drawn. *)
Theorem callbacks_keep_in_sync (event : mouse_event) (s : selector) :
  in_sync s →
  in_sync (onclick event s).1
  ∧ in_sync (on_undo s).1.
Proof.
  intros (Hn & Hm & Hf). split; [|].
  - unfold in_sync, onclick.
    destruct (inaxes event) as [ax|]; [|done].
    destruct (negb (button event =? 1)); [done|].
    destruct (int_of_float (xdata event)) as [x|]; [|done].
    destruct (int_of_float (ydata event)) as [y|]; [|done].
    destruct ax; cbn; [rewrite !length_app; cbn; lia | | done].
    destruct (length (moving_landmarks s) <=? length (fixed_landmarks s))%nat;
      cbn; [done|]. rewrite !length_app. cbn. lia.
  - clear event. destruct s as [ml fl names mp fp ms fs v mn fn].
    unfold in_sync, on_undo in *. cbn [moving_landmarks fixed_landmarks
      landmark_names moving_plots fixed_plots] in *.
    destruct ml as [|m ml], fl as [|f fl], mp as [|p mp], fp as [|q fp],
      names as [|n names]; try done;
      cbn [is_empty negb andb set_moving set_fixed moving_landmarks
           fixed_landmarks landmark_names moving_plots fixed_plots fst snd];
      rewrite ?length_pop; cbn [length] in *; lia.
Qed.

Lemma load_saved_landmarks (saved loading : selector) (filepath : string)
    (fs : files) :
  load_landmarks filepath loading (save_landmarks filepath saved fs)
  = (set_landmarks loading (moving_landmarks saved) (fixed_landmarks saved)
       (landmark_names saved),
     Return (moving_landmarks saved, fixed_landmarks saved)).
Proof.
  unfold load_landmarks, save_landmarks.
  rewrite lookup_insert_eq. unfold save_data.
  cbn [dict_get String.eqb Ascii.eqb Bool.eqb].
  rewrite !landmarks_from_json. cbn [default from_option id].
  rewrite names_from_json. reflexivity.
Qed.

(** [load_landmarks] does not redraw. Undo on a selector that has drawn
    nothing and has just loaded at least one pair removes the last moving and
    fixed landmark and then raises [IndexError] on the empty marker list. *)
Theorem on_undo_after_load_raises (saved loading : selector) (filepath : string)
    (fs : files) :
  moving_plots loading = [] →
  moving_landmarks saved ≠ [] →
  fixed_landmarks saved ≠ [] →
  let loaded := (load_landmarks filepath loading (save_landmarks filepath saved fs)).1 in
  (on_undo loaded).2 = Raise (IndexError "pop from empty list")
  ∧ moving_landmarks (on_undo loaded).1 = pop (moving_landmarks saved)
  ∧ fixed_landmarks (on_undo loaded).1 = pop (fixed_landmarks saved).
Proof.
  intros Hplots Hm Hf loaded. subst loaded. rewrite load_saved_landmarks.
  cbn [fst]. unfold on_undo.
  cbn [set_landmarks moving_landmarks fixed_landmarks landmark_names moving_plots].
  destruct (moving_landmarks saved) as [|m ms]; [done|].
  destruct (fixed_landmarks saved) as [|f fs']; [done|].
  cbn [is_empty negb andb set_moving set_fixed moving_landmarks fixed_landmarks
       landmark_names moving_plots fixed_plots].
  rewrite Hplots. cbn [is_empty fst snd moving_landmarks fixed_landmarks]. done.
Qed.

(** [load_landmarks] assigns the moving list before it reads the fixed key:
    on a document that holds moving landmarks but no ['fixed_landmarks'] the
    call raises [KeyError] and leaves the selector with the moving landmarks
    of the file beside the fixed landmarks and names it had. *)
Theorem load_landmarks_missing_fixed (s : selector) (filepath : string) (fs : files)
    (data : list (string * json)) (jm : json) (moving : list landmark) :
  fs !! filepath = Some (JDict data) →
  dict_get "moving_landmarks" data = Some jm →
  json_to_landmarks jm = Return moving →
  dict_get "fixed_landmarks" data = None →
  let after := load_landmarks filepath s fs in
  after.2 = Raise (KeyError "fixed_landmarks")
  ∧ moving_landmarks after.1 = moving
  ∧ fixed_landmarks after.1 = fixed_landmarks s
  ∧ landmark_names after.1 = landmark_names s.
Proof.
  intros Hfile Hm Hjm Hf after. subst after. unfold load_landmarks.
  rewrite Hfile, Hm, Hjm, Hf. done.
Qed.

End SelectorMore.

Lemma callbacks_keep_in_sync_witness :
  Landmarks.in_sync
    (Landmarks.onclick (Landmarks.click Landmarks.ax_moving 30 40)
       Landmarks.one_pair_selector).1
  ∧ Landmarks.in_sync (Landmarks.on_undo Landmarks.one_pair_selector).1.
Proof.
  apply (callbacks_keep_in_sync (Landmarks.click Landmarks.ax_moving 30 40)
           Landmarks.one_pair_selector).
  repeat split.
Defined.

Lemma on_undo_after_load_raises_witness :
  let loaded := (Landmarks.load_landmarks "landmarks.json" Landmarks.fresh_selector
                   (Landmarks.save_landmarks "landmarks.json"
                      Landmarks.one_pair_selector ∅)).1 in
  (Landmarks.on_undo loaded).2 = Raise (IndexError "pop from empty list")
  ∧ Landmarks.moving_landmarks (Landmarks.on_undo loaded).1
    = Landmarks.pop (Landmarks.moving_landmarks Landmarks.one_pair_selector)
  ∧ Landmarks.fixed_landmarks (Landmarks.on_undo loaded).1
    = Landmarks.pop (Landmarks.fixed_landmarks Landmarks.one_pair_selector).
Proof.
  apply (on_undo_after_load_raises Landmarks.one_pair_selector Landmarks.fresh_selector
           "landmarks.json" ∅); [reflexivity|discriminate|discriminate].
Defined.

Lemma load_landmarks_missing_fixed_witness :
  let after := Landmarks.load_landmarks "landmarks.json" Landmarks.one_pair_selector
                 {[ "landmarks.json" := Landmarks.moving_only_document ]} in
  after.2 = Raise (KeyError "fixed_landmarks")
  ∧ Landmarks.moving_landmarks after.1 = [(1, 2, 3); (4, 5, 6)]
  ∧ Landmarks.fixed_landmarks after.1
    = Landmarks.fixed_landmarks Landmarks.one_pair_selector
  ∧ Landmarks.landmark_names after.1
    = Landmarks.landmark_names Landmarks.one_pair_selector.
Proof.
  apply (load_landmarks_missing_fixed Landmarks.one_pair_selector "landmarks.json"
           {[ "landmarks.json" := Landmarks.moving_only_document ]}
           [("moving_landmarks",
             Landmarks.JList [Landmarks.JList [Landmarks.JInt 1; Landmarks.JInt 2; Landmarks.JInt 3];
                              Landmarks.JList [Landmarks.JInt 4; Landmarks.JInt 5; Landmarks.JInt 6]])]
           (Landmarks.JList [Landmarks.JList [Landmarks.JInt 1; Landmarks.JInt 2; Landmarks.JInt 3];
                             Landmarks.JList [Landmarks.JInt 4; Landmarks.JInt 5; Landmarks.JInt 6]])
           [(1, 2, 3); (4, 5, 6)]); reflexivity.
Defined.


Section RegistrationMore.
Import Landmarks.
Context {image sitk_image transform : Type}.
Implicit Types lib : SitkLib image sitk_image transform.

Lemma unknown_kind_lookup (transform_type : string) :
  transform_type ∉ ["rigid"; "similarity"; "affine"] →
  min_landmarks !! transform_type = None
  ∧ select_kind transform_type
    = Raise (ValueError ("Unknown transform type: " +:+ transform_type)).
Proof.
  rewrite !not_elem_of_cons. intros (Hr & Hs & Ha & _). split.
  - unfold min_landmarks.
    rewrite !lookup_insert_ne by done. by apply lookup_singleton_ne.
  - unfold select_kind.
    by rewrite (proj2 (String.eqb_neq _ _) Ha), (proj2 (String.eqb_neq _ _) Hs),
      (proj2 (String.eqb_neq _ _) Hr).
Qed.

(** A transform type other than rigid, similarity and affine never yields a
    result. With fewer than 4 moving landmarks the call raises
    [KeyError(transform_type)]: the message of the intended [ValueError]
    indexes [min_landmarks] with the unknown kind. *)
Theorem landmark_registration_unknown_kind lib mi fi (moving fixed : list landmark)
    (ms fs : vec3) (transform_type : string) :
  transform_type ∉ ["rigid"; "similarity"; "affine"] →
  let call := landmark_registration image sitk_image transform lib mi fi moving
                fixed ms fs transform_type in
  ((length moving < 4)%nat → call = Raise (KeyError transform_type))
  ∧ ∃ e, call = Raise e.
Proof.
  intros Hkind call. subst call.
  destruct (unknown_kind_lookup _ Hkind) as [Hmin Hsel].
  unfold landmark_registration, too_few_landmarks, too_few_error.
  rewrite Hmin. cbn [default from_option id].
  destruct (Nat.ltb_spec (length moving) 4) as [Hlt|Hge].
  - split; [done|by eexists].
  - split; [lia|]. unfold register_checked.
    destruct (sitk_call (numpy_to_sitk _ _ _ lib mi ms)) as [a|e]; [|by eexists].
    destruct (sitk_call (numpy_to_sitk _ _ _ lib fi fs)) as [b|e]; [|by eexists].
    destruct (mapM _ _) as [phys|e]; [|by eexists].
    cbn [mbind outcome_bind bind]. rewrite Hsel. by eexists.
Qed.

Lemma length_zip_min {A B} (l : list A) (k : list B) :
  length (zip l k) = Nat.min (length l) (length k).
Proof.
  revert k. induction l as [|a l IH]; intros [|b k]; cbn; [done..|].
  by rewrite IH.
Qed.

(** A result carries one residual per zipped landmark pair, and at least
    one: the call returns only if both landmark lists are non-empty, and the
    reported extremes are numpy's over those residuals. *)
Theorem landmark_registration_result lib mi fi (moving fixed : list landmark)
    (ms fs : vec3) (transform_type : string) (registered : image) (t : transform)
    (m : metrics) :
  landmark_registration image sitk_image transform lib mi fi moving fixed ms fs
    transform_type = Return (registered, t, m) →
  length (errors m) = Nat.min (length moving) (length fixed)
  ∧ (0 < length (errors m))%nat
  ∧ compute_landmark_error image sitk_image transform lib moving fixed t ms fs
    = Return (errors m)
  ∧ min_error m = np_min _ _ _ lib (errors m)
  ∧ max_error m = np_max _ _ _ lib (errors m)
  ∧ mean_error m = np_mean _ _ _ lib (errors m).
Proof.
  unfold landmark_registration.
  destruct (too_few_landmarks moving transform_type); [done|].
  unfold register_checked.
  intros (msitk & _ & H)%bind_Return_inv.
  apply bind_Return_inv in H as (fsitk & _ & H).
  apply bind_Return_inv in H as (phys & _ & H).
  apply bind_Return_inv in H as (kind & _ & H).
  apply bind_Return_inv in H as (t' & _ & H).
  apply bind_Return_inv in H as (errs & Herrs & H).
  apply bind_Return_inv in H as (mn & Hmn & H).
  apply bind_Return_inv in H as (mx & Hmx & H).
  apply bind_Return_inv in H as (reg & _ & H).
  apply bind_Return_inv in H as (mx' & Hmx' & H).
  apply bind_Return_inv in H as (mn' & Hmn' & H).
  injection H as <- <- <-. cbn [errors min_error max_error mean_error].
  unfold reduce_nonempty in *.
  destruct errs as [|e errs]; [done|]. cbn [is_empty] in *.
  injection Hmn' as <-. injection Hmx' as <-.
  split; [|split; [cbn; lia|done]].
  unfold compute_landmark_error in Herrs.
  by rewrite (mapM_Return_length _ _ _ Herrs), length_zip_min.
Qed.

End RegistrationMore.

Lemma landmark_registration_unknown_kind_witness :
  let call := Landmarks.landmark_registration unit unit unit Landmarks.identity_sitk
                () () [(0, 0, 0); (10, 0, 0); (0, 10, 0)]
                [(0, 0, 0); (10, 0, 0); (0, 10, 0)] (1, 1, 1)%float (1, 1, 1)%float
                "bspline" in
  ((3 < 4)%nat → call = Raise (KeyError "bspline")) ∧ ∃ e, call = Raise e.
Proof.
  apply (landmark_registration_unknown_kind Landmarks.identity_sitk () ()
           [(0, 0, 0); (10, 0, 0); (0, 10, 0)] [(0, 0, 0); (10, 0, 0); (0, 10, 0)]
           (1, 1, 1)%float (1, 1, 1)%float "bspline").
  vm_compute. intros H. repeat (inversion H as [|? ? ? H']; clear H; rename H' into H).
Defined.

Lemma landmark_registration_result_witness :
  length [0; 0; 0]%float = Nat.min 3 3
  ∧ (0 < length [0; 0; 0]%float)%nat
  ∧ Landmarks.compute_landmark_error unit unit unit Landmarks.identity_sitk
      [(0, 0, 0); (10, 0, 0); (0, 10, 0)] [(0, 0, 0); (10, 0, 0); (0, 10, 0)] ()
      (1, 1, 1)%float (1, 1, 1)%float = Return [0; 0; 0]%float
  ∧ 0%float = Landmarks.float_min [0; 0; 0]%float
  ∧ 0%float = Landmarks.float_max [0; 0; 0]%float
  ∧ 0%float = Landmarks.float_mean [0; 0; 0]%float.
Proof.
  apply (landmark_registration_result Landmarks.identity_sitk () ()
           [(0, 0, 0); (10, 0, 0); (0, 10, 0)] [(0, 0, 0); (10, 0, 0); (0, 10, 0)]
           (1, 1, 1)%float (1, 1, 1)%float "rigid" () ()
           {| Landmarks.errors := [0; 0; 0]%float; Landmarks.mean_error := 0;
              Landmarks.std_error := 0; Landmarks.max_error := 0;
              Landmarks.min_error := 0 |}).
  vm_compute. reflexivity.
Defined.

(** ** More on midline fitting and alignment *)

Section MidlineMore.
Import Midline.
Local Open Scope float_scope.

Lemma opp_involutive (x : float) : - - x = x.
Proof.
  apply Prim2SF_inj. rewrite !opp_spec.
  destruct (Prim2SF x) as [s|s| |s m e]; cbn; by rewrite ?negb_involutive.
Qed.

(** A negative float has a negation that is not negative. *)
Lemma opp_of_negative (x : float) : (x <? 0) = true → (- x <? 0) = false.
Proof.
  rewrite !ltb_spec, opp_spec.
  change (Prim2SF 0) with (S754_zero false).
  destruct (Prim2SF x) as [[]|[]| |[] m e]; cbn; done.
Qed.

(** The normal that [fit_midline_plane] returns never has a negative x
    component: the SVD's last row is negated when its x component is
    negative. *)
Theorem fit_midline_plane_normal_oriented
    (lib : NumLib) (mp : midline_points) (r : plane_fit) :
  fit_midline_plane lib mp = Return r →
  (r.(normal).1.1 <? 0) = false.
Proof.
  intros Hfit. destruct (fit_midline_plane_inv _ _ _ Hfit) as (_ & Hn & _).
  unfold fitted_normal in Hn.
  destruct (np_svd_vh lib _) as [[[v0 v1] [[x y] z]]|e]; [|done].
  cbn in Hn. injection Hn as <-. unfold orient_normal. cbn [fst].
  destruct (x <? 0) eqn:Hx; cbn; [by apply opp_of_negative | done].
Qed.

(** With fewer than two marked slices [fit_midline_plane] raises its
    [ValueError] before any numpy call; with two or more it raises exactly
    what the SVD raises and returns exactly when the SVD returns. *)
Theorem fit_midline_plane_failures (lib : NumLib) (mp : midline_points) :
  let pts := collect_points_3d mp in
  let svd := lib.(np_svd_vh) (lib.(np_center) pts (lib.(np_mean0) pts)) in
  ((length mp < 2)%nat →
   fit_midline_plane lib mp
   = Raise (ValueError "Need at least 2 slices with midline points"))
  ∧ ((2 ≤ length mp)%nat →
     ∀ e, fit_midline_plane lib mp = Raise e ↔ svd = Raise e).
Proof.
  intros pts svd. unfold fit_midline_plane. fold pts. split.
  - intros Hlt. by destruct (Nat.ltb_spec (length mp) 2); [|lia].
  - intros Hge e. destruct (Nat.ltb_spec (length mp) 2); [lia|].
    unfold fitted_normal. fold svd.
    destruct svd as [[[v0 v1] v2]|e']; cbn; [|by split; intros [= ->]].
    destruct (rotation_of_normal lib (orient_normal v2)) as [[axis angle] deg].
    split; intros Hraise; discriminate Hraise.
Qed.

(** With [reverse] the two negations cancel and the volume is rotated by the
    fitted angle itself; without it, by the fitted angle negated. *)
Theorem effective_angle_reverse (plane_params : plane_fit) :
  effective_angle plane_params true = plane_params.(rotation_angle)
  ∧ effective_angle plane_params false = - plane_params.(rotation_angle).
Proof. unfold effective_angle. split; [apply opp_involutive|done]. Qed.

(** [apply_alignment] makes no library call exactly when the absolute angle
    is below 0.001. Otherwise (NaN included) its first call is the resampling
    by angle times axis about the fitted centroid, and what it returns has
    been cast to the dtype of the source volume. *)
Theorem apply_alignment_resamples
    (ndarray : Type) (il : ImageLib ndarray) (image : ndarray)
    (plane_params : plane_fit) (reverse : bool) :
  let angle := effective_angle plane_params reverse in
  let out := apply_alignment ndarray il image plane_params reverse in
  (out.2 = [] ↔ (abs angle <? 0.001) = true)
  ∧ ((abs angle <? 0.001) = false →
     head out.2
     = Some (Resample (vscale angle plane_params.(rotation_axis))
               plane_params.(centroid))
     ∧ ∃ v, out.1 = il.(nd_astype ndarray) v (il.(nd_dtype ndarray) image)).
Proof.
  intros angle out. subst out. unfold apply_alignment. fold angle.
  destruct (abs angle <? 0.001); [done|].
  destruct (nd_dtype ndarray il image); cbn; (split; [done|]); intros _;
    (split; [done|by eexists]).
Qed.

End MidlineMore.

Lemma fit_midline_plane_normal_oriented_witness :
  ((Midline.normal Midline.tilted_fit).1.1 <? 0)%float = false.
Proof.
  apply (fit_midline_plane_normal_oriented (Midline.example_lib Midline.rows_tilted)
           Midline.clicks_on_x10 Midline.tilted_fit).
  vm_compute. reflexivity.
Defined.

(** ** Views: from a click to a voxel, and axis corrections *)

Section ViewFacts.
Import Views.
Context {A : Type}.
Implicit Types image : volume A.

Lemma index_in_range (n i : Z) : 0 ≤ i < n → index n i = Return i.
Proof.
  intros Hi. unfold index.
  by destruct (Z.leb_spec 0 i), (Z.ltb_spec i n); try lia.
Qed.

Lemma take0_inv image (i : Z) (s : slice2d A) :
  take0 image i = Return s →
  ∃ k, index image.(shape).1.1 i = Return k
       ∧ s = {| shape2 := (image.(shape).1.2, image.(shape).2);
                pixel := λ r c, image.(voxel) k r c |}.
Proof.
  unfold take0. destruct (shape image) as [[n0 n1] n2]. cbn [fst snd].
  destruct (index n0 i) as [k|]; [|done]. intros [= <-]. by exists k.
Qed.

Lemma take1_inv image (i : Z) (s : slice2d A) :
  take1 image i = Return s →
  ∃ k, index image.(shape).1.2 i = Return k
       ∧ s = {| shape2 := (image.(shape).1.1, image.(shape).2);
                pixel := λ r c, image.(voxel) r k c |}.
Proof.
  unfold take1. destruct (shape image) as [[n0 n1] n2]. cbn [fst snd].
  destruct (index n1 i) as [k|]; [|done]. intros [= <-]. by exists k.
Qed.

Lemma take2_inv image (i : Z) (s : slice2d A) :
  take2 image i = Return s →
  ∃ k, index image.(shape).2 i = Return k
       ∧ s = {| shape2 := (image.(shape).1.1, image.(shape).1.2);
                pixel := λ r c, image.(voxel) r c k |}.
Proof.
  unfold take2. destruct (shape image) as [[n0 n1] n2]. cbn [fst snd].
  destruct (index n2 i) as [k|]; [|done]. intros [= <-]. by exists k.
Qed.

Lemma voxel_at_indices image (z y x k0 k1 k2 : Z) :
  index image.(shape).1.1 z = Return k0 →
  index image.(shape).1.2 y = Return k1 →
  index image.(shape).2 x = Return k2 →
  voxel_at image z y x = Return (image.(voxel) k0 k1 k2).
Proof.
  unfold voxel_at. destruct (shape image) as [[n0 n1] n2]. cbn [fst snd].
  by intros -> -> ->.
Qed.

(** The landmark built from a row and a column addresses the sample shown
    there. In the Z, Y or X view of [get_slice], row [y] and column [x] of
    the displayed slice yield a (z, y, x) landmark at which the volume holds
    that sample of the slice. *)
Lemma click_landmark_voxel image (view : string) (slice_idx y x : Z)
    (shown : slice2d A) :
  get_slice image slice_idx view = Return (Some shown) →
  0 ≤ y < shown.(shape2).1 →
  0 ≤ x < shown.(shape2).2 →
  let '(lz, ly, lx) := Landmarks.click_landmark view slice_idx y x in
  pixel_at shown y x = Return (shown.(pixel) y x)
  ∧ voxel_at image lz ly lx = Return (shown.(pixel) y x).
Proof.
  unfold get_slice, Landmarks.click_landmark. intros Hget Hy Hx.
  assert (Hpix : pixel_at shown y x = Return (pixel shown y x)).
  { unfold pixel_at. destruct (shape2 shown) as [rows cols]. cbn [fst snd] in *.
    by rewrite !index_in_range. }
  destruct (String.eqb view "Z").
  { apply bind_Return_inv in Hget as (s & (k & Hk & ->)%take0_inv & [= <-]).
    cbn [shape2 pixel fst snd] in *. split; [done|].
    apply voxel_at_indices; [done|by apply index_in_range..]. }
  destruct (String.eqb view "Y").
  { apply bind_Return_inv in Hget as (s & (k & Hk & ->)%take1_inv & [= <-]).
    cbn [shape2 pixel fst snd] in *. split; [done|].
    apply voxel_at_indices; [by apply index_in_range|done|by apply index_in_range]. }
  destruct (String.eqb view "X"); [|done].
  apply bind_Return_inv in Hget as (s & (k & Hk & ->)%take2_inv & [= <-]).
  cbn [shape2 pixel fst snd] in *. split; [done|].
  apply voxel_at_indices; [by apply index_in_range..|done].
Qed.

(** The same for midline marking: in the axial, coronal or sagittal view of
    [get_slice_and_info], the stored (row, col) becomes exactly one 3D point
    (x, y, z) in [fit_midline_plane], and the volume holds at [z, y, x] the
    sample shown at that row and column. *)
Lemma point_3d_voxel image (view : string) (slice_idx row col : Z)
    (shown : slice2d A) (info : view_info) :
  get_slice_and_info image view slice_idx = Return (shown, info) →
  0 ≤ row < shown.(shape2).1 →
  0 ≤ col < shown.(shape2).2 →
  ∃ px py pz,
    Midline.point_3d view slice_idx (row, col) = [(px, py, pz)]
    ∧ voxel_at image pz py px = Return (shown.(pixel) row col).
Proof.
  unfold get_slice_and_info, Midline.point_3d. intros Hget Hr Hc.
  destruct (shape image) as [[n0 n1] n2] eqn:Hshape.
  destruct (String.eqb view "axial").
  { apply bind_Return_inv in Hget as (s & (k & Hk & ->)%take1_inv & [= <- _]).
    cbn [shape2 pixel fst snd] in *. eexists _, _, _. split; [done|].
    apply voxel_at_indices; [by apply index_in_range|done|by apply index_in_range]. }
  destruct (String.eqb view "coronal").
  { apply bind_Return_inv in Hget as (s & (k & Hk & ->)%take0_inv & [= <- _]).
    cbn [shape2 pixel fst snd] in *. eexists _, _, _. split; [done|].
    apply voxel_at_indices; [done|by apply index_in_range..]. }
  destruct (String.eqb view "sagittal"); [|done].
  apply bind_Return_inv in Hget as (s & (k & Hk & ->)%take2_inv & [= <- _]).
  cbn [shape2 pixel fst snd] in *. eexists _, _, _. split; [done|].
  apply voxel_at_indices; [by apply index_in_range..|done].
Qed.

(** [get_slice_and_info] raises [ValueError] for any view but the three it
    knows, whatever the slice index; for a known view and a non-empty axis,
    the [max_slice] it reports is the last index it accepts. *)
Theorem get_slice_and_info_range image (view : string) (slice_idx : Z) :
  (view ∉ ["axial"; "coronal"; "sagittal"] →
   get_slice_and_info image view slice_idx
   = Raise (ValueError ("Unknown view: " +:+ view)))
  ∧ ∀ shown info,
      get_slice_and_info image view 0 = Return (shown, info) →
      (0 ≤ slice_idx ≤ info.(max_slice)
       ↔ 0 ≤ slice_idx
         ∧ ∃ shown', get_slice_and_info image view slice_idx = Return (shown', info)).
Proof.
  split.
  - rewrite !not_elem_of_cons. intros (Ha & Hc & Hs & _).
    unfold get_slice_and_info. destruct (shape image) as [[n0 n1] n2].
    by rewrite (proj2 (String.eqb_neq _ _) Ha), (proj2 (String.eqb_neq _ _) Hc),
      (proj2 (String.eqb_neq _ _) Hs).
  - intros shown info. unfold get_slice_and_info, take0, take1, take2.
    destruct (shape image) as [[n0 n1] n2].
    assert (Hidx : ∀ n, (0 ≤ slice_idx ≤ n - 1
                          ↔ 0 ≤ slice_idx ∧ ∃ k, index n slice_idx = Return k)).
    { intros n. unfold index. split.
      - intros Hr. split; [lia|]. exists slice_idx.
        by destruct (Z.leb_spec 0 slice_idx), (Z.ltb_spec slice_idx n); try lia.
      - intros [Hnn [k Hk]].
        destruct (Z.leb_spec 0 slice_idx), (Z.ltb_spec slice_idx n); cbn in Hk; try lia.
        destruct (Z.leb_spec (- n) slice_idx), (Z.ltb_spec slice_idx 0);
          cbn in Hk; try done; lia. }
    repeat case_match; try done;
      intros (s0 & Hs0 & [= <- <-])%bind_Return_inv; cbn [max_slice];
      rewrite Hidx; (split; intros [Hnn [k Hk]]; (split; [done|]));
      [rewrite Hk; by eexists | destruct (index _ slice_idx); [by eexists|done]
      |rewrite Hk; by eexists | destruct (index _ slice_idx); [by eexists|done]
      |rewrite Hk; by eexists | destruct (index _ slice_idx); [by eexists|done]].
Qed.

End ViewFacts.

Section AxisFacts.
Import Views.
Context {A : Type}.
Implicit Types self : verifier A.

(** [swap_axes] re-indexes and computes nothing: the shape has the two axes
    exchanged, and the sample at an index of the result is the sample of the
    source at the index with the two entries exchanged. *)
Theorem swap_axes_exchanges (a1 a2 : axis) self (z y x : Z) :
  let swapped := corrected_image (swap_axes a1 a2 self) in
  shape swapped = exchange a1 a2 (shape (corrected_image self))
  ∧ voxel swapped z y x
    = (let '(sz, sy, sx) := exchange a1 a2 (z, y, x) in
       voxel (corrected_image self) sz sy sx)
  ∧ slices (swap_axes a1 a2 self) = middle_slices (shape swapped).
Proof.
  cbn zeta. unfold swap_axes. cbn [corrected_image slices].
  destruct (shape (corrected_image self)) as [[n0 n1] n2] eqn:Hs.
  destruct a1, a2; cbn; rewrite ?Hs; done.
Qed.

(** Pressing the same swap button twice gives back the volume. *)
Theorem swap_axes_twice (a1 a2 : axis) self :
  same_volume (corrected_image (swap_axes a1 a2 (swap_axes a1 a2 self)))
    (corrected_image self).
Proof.
  unfold same_volume, swap_axes. cbn [corrected_image].
  destruct (shape (corrected_image self)) as [[n0 n1] n2] eqn:Hs.
  destruct a1, a2; cbn; rewrite ?Hs; done.
Qed.

(** [flip_axis] mirrors one axis and keeps the shape and the slice indices;
    pressing the same flip button twice gives back the volume. *)
Theorem flip_axis_twice (a : axis) self :
  shape (corrected_image (flip_axis a self)) = shape (corrected_image self)
  ∧ slices (flip_axis a self) = slices self
  ∧ same_volume (corrected_image (flip_axis a (flip_axis a self)))
      (corrected_image self).
Proof.
  unfold same_volume, flip_axis, flip. cbn [corrected_image slices].
  destruct (shape (corrected_image self)) as [[n0 n1] n2] eqn:Hs.
  cbn [shape voxel]. rewrite ?Hs.
  repeat split; intros; destruct a; f_equal; lia.
Qed.

Lemma middle_slices_within (shp : Z * Z * Z) :
  0 < shp.1.1 → 0 < shp.1.2 → 0 < shp.2 → within shp (middle_slices shp).
Proof.
  destruct shp as [[n0 n1] n2]. cbn. intros H0 H1 H2. unfold within. cbn.
  repeat split; try (apply Z.div_pos; lia); apply Z.div_lt_upper_bound; lia.
Qed.

(** After a swap or a reset the three displayed slice indices are valid
    indices of the corrected volume, provided no axis of the volume (of the
    original, for a reset) is empty. *)
Theorem slices_within_after_swap_or_reset (a1 a2 : axis) self :
  (0 < (shape (corrected_image self)).1.1
   ∧ 0 < (shape (corrected_image self)).1.2
   ∧ 0 < (shape (corrected_image self)).2 →
   within (shape (corrected_image (swap_axes a1 a2 self)))
     (slices (swap_axes a1 a2 self)))
  ∧ (0 < (shape (image self)).1.1
     ∧ 0 < (shape (image self)).1.2
     ∧ 0 < (shape (image self)).2 →
     within (shape (corrected_image (reset_image self)))
       (slices (reset_image self))).
Proof.
  split.
  - intros (H0 & H1 & H2). unfold swap_axes. cbn [corrected_image slices].
    apply middle_slices_within;
      destruct (shape (corrected_image self)) as [[n0 n1] n2] eqn:Hs;
      cbn [fst snd] in *; destruct a1, a2; cbn; rewrite ?Hs; done.
  - intros (H0 & H1 & H2). by apply middle_slices_within.
Qed.

End AxisFacts.

(** ** Clicks and the displayed slice *)

Section ClickFacts.
Context {A : Type}.
Implicit Types image : Views.volume A.

(** A left click on the moving image appends one landmark. Its row and
    column are [int(event.ydata)] and [int(event.xdata)], the event
    coordinates cut towards zero, and in each of the views Z, Y and X the
    (z, y, x) stored addresses, in the volume, the sample that [get_slice]
    shows at that row and column of the displayed slice. *)
Theorem landmark_click_addresses_shown_sample image
    (event : Landmarks.mouse_event) (s : Landmarks.selector)
    (shown : Views.slice2d A) (x y : Z) :
  Landmarks.inaxes event = Some Landmarks.ax_moving →
  Landmarks.button event = 1 →
  int_of_float (Landmarks.xdata event) = Return x →
  int_of_float (Landmarks.ydata event) = Return y →
  Views.get_slice image (Landmarks.moving_slice s) (Landmarks.view s)
  = Return (Some shown) →
  0 ≤ y < (Views.shape2 shown).1 →
  0 ≤ x < (Views.shape2 shown).2 →
  ∃ lz ly lx,
    Landmarks.moving_landmarks (Landmarks.onclick event s).1
    = Landmarks.moving_landmarks s ++ [(lz, ly, lx)]
    ∧ Views.pixel_at shown y x = Return (Views.pixel shown y x)
    ∧ Views.voxel_at image lz ly lx = Return (Views.pixel shown y x).
Proof.
  intros Hax Hbtn Hx Hy Hget Hrow Hcol.
  pose proof (click_landmark_voxel image (Landmarks.view s)
                (Landmarks.moving_slice s) y x shown Hget Hrow Hcol) as Hvox.
  destruct (Landmarks.click_landmark (Landmarks.view s) (Landmarks.moving_slice s) y x)
    as [[lz ly] lx] eqn:Hlm.
  exists lz, ly, lx. split; [|done].
  unfold Landmarks.onclick. rewrite Hax, Hbtn, Hx, Hy. cbn. by rewrite Hlm.
Qed.

End ClickFacts.

Lemma landmark_click_addresses_shown_sample_witness :
  let shown := {| Views.shape2 := (2, 4);
                  Views.pixel := λ r c, Views.voxel Views.numbered_volume r 1 c |} in
  ∃ lz ly lx,
    Landmarks.moving_landmarks
      (Landmarks.onclick (Landmarks.click Landmarks.ax_moving 2.6 1.2)
         Landmarks.y_view_selector).1
    = Landmarks.moving_landmarks Landmarks.y_view_selector ++ [(lz, ly, lx)]
    ∧ Views.pixel_at shown 1 2 = Return (Views.pixel shown 1 2)
    ∧ Views.voxel_at Views.numbered_volume lz ly lx = Return (Views.pixel shown 1 2).
Proof.
  apply (landmark_click_addresses_shown_sample Views.numbered_volume
           (Landmarks.click Landmarks.ax_moving 2.6 1.2) Landmarks.y_view_selector
           {| Views.shape2 := (2, 4);
              Views.pixel := λ r c, Views.voxel Views.numbered_volume r 1 c |} 2 1);
    [reflexivity | reflexivity | reflexivity | reflexivity | reflexivity
    | cbn; lia | cbn; lia].
Defined.

(** ** Text: printing and reading back a slice index *)

Section TextFacts.
Import Text.

Lemma digit_value_pretty_char (d : N) :
  (d < 10)%N → digit_value (pretty_N_char d) = Some d.
Proof.
  intros Hd.
  assert (d = 0 ∨ d = 1 ∨ d = 2 ∨ d = 3 ∨ d = 4 ∨ d = 5 ∨ d = 6 ∨ d = 7
          ∨ d = 8 ∨ d = 9)%N as Hcases by lia.
  repeat (destruct Hcases as [->|Hcases]; [reflexivity|]). by subst.
Qed.

Lemma all_chars_pretty_N_go (P : ascii → bool) (x : N) (s : string) :
  (∀ d, (d < 10)%N → P (pretty_N_char d) = true) →
  all_chars P s = true → all_chars P (pretty_N_go x s) = true.
Proof.
  intros HP. revert s. induction (N.lt_wf_0 x) as [x _ IH]; intros s Hs.
  assert (x = 0 ∨ 0 < x)%N as [->|Hpos] by lia; [by rewrite pretty_N_go_0|].
  rewrite pretty_N_go_step by done. apply IH; [by apply N.div_lt|].
  cbn. rewrite HP by (by apply N.mod_lt). done.
Qed.

Lemma all_chars_pretty_Z (P : ascii → bool) (z : Z) :
  (∀ d, (d < 10)%N → P (pretty_N_char d) = true) → P "-"%char = true →
  all_chars P (pretty z) = true.
Proof.
  intros HP Hdash. unfold pretty, pretty_Z, pretty, pretty_positive, pretty, pretty_N.
  destruct z as [|p|p].
  - pose proof (HP 0%N eq_refl) as H0. cbn in *. by rewrite H0.
  - destruct (decide (N.pos p = 0%N)) as [[=]|_]. by apply all_chars_pretty_N_go.
  - destruct (decide (N.pos p = 0%N)) as [[=]|_].
    change (all_chars P (String "-" (pretty_N_go (N.pos p) "")) = true).
    cbn [all_chars]. rewrite Hdash. by apply all_chars_pretty_N_go.
Qed.

Lemma digits_pass (P : ascii → bool) :
  (∀ n, (n < 10)%nat → P (ascii_of_nat (48 + n)) = true) →
  ∀ d, (d < 10)%N → P (pretty_N_char d) = true.
Proof.
  intros HP d Hd.
  assert (d = 0 ∨ d = 1 ∨ d = 2 ∨ d = 3 ∨ d = 4 ∨ d = 5 ∨ d = 6 ∨ d = 7
          ∨ d = 8 ∨ d = 9)%N as Hcases by lia.
  destruct Hcases as [->|[->|[->|[->|[->|[->|[->|[->|[->| ->]]]]]]]]];
    [apply (HP 0%nat)|apply (HP 1%nat)|apply (HP 2%nat)|apply (HP 3%nat)
    |apply (HP 4%nat)|apply (HP 5%nat)|apply (HP 6%nat)|apply (HP 7%nat)
    |apply (HP 8%nat)|apply (HP 9%nat)]; lia.
Qed.

Lemma pretty_Z_no_underscore (z : Z) :
  all_chars (λ c, negb (is_underscore c)) (pretty z) = true.
Proof.
  apply all_chars_pretty_Z; [|done].
  apply (digits_pass (λ c, negb (is_underscore c))).
  intros n Hn. by do 10 (destruct n as [|n]; [done|]); lia.
Qed.

Lemma pretty_Z_no_space (z : Z) :
  all_chars (λ c, negb (is_space c)) (pretty z) = true.
Proof.
  apply all_chars_pretty_Z; [|done].
  apply (digits_pass (λ c, negb (is_space c))).
  intros n Hn. by do 10 (destruct n as [|n]; [done|]); lia.
Qed.

Lemma rsplit_none (s : string) :
  all_chars (λ c, negb (is_underscore c)) s = true → rsplit_underscore s = None.
Proof.
  induction s as [|c s IH]; [done|]. cbn.
  intros [Hc Hs]%andb_true_iff. rewrite (IH Hs).
  by destruct (is_underscore c).
Qed.

Lemma rsplit_last (before after : string) :
  all_chars (λ c, negb (is_underscore c)) after = true →
  rsplit_underscore (before +:+ "_" +:+ after) = Some (before, after).
Proof.
  intros Hafter. induction before as [|c before IH].
  - change ("" +:+ "_" +:+ after) with (String "_" after).
    cbn [rsplit_underscore]. by rewrite (rsplit_none _ Hafter).
  - change (String c before +:+ "_" +:+ after)
      with (String c (before +:+ "_" +:+ after)).
    cbn [rsplit_underscore]. by rewrite IH.
Qed.

Lemma lstrip_id (s : string) :
  all_chars (λ c, negb (is_space c)) s = true → lstrip s = s.
Proof.
  destruct s as [|c s]; [done|]. cbn.
  intros [Hc _]%andb_true_iff. by destruct (is_space c).
Qed.

Lemma rstrip_id (s : string) :
  all_chars (λ c, negb (is_space c)) s = true → rstrip s = s.
Proof.
  induction s as [|c s IH]; [done|]. cbn.
  intros [Hc Hs]%andb_true_iff. rewrite (IH Hs).
  destruct s; [by destruct (is_space c)|done].
Qed.

(** Reading the digits that [pretty_N_go] puts in front of [s] multiplies
    the accumulator by a power of ten and adds the number. *)
Lemma parse_digits_pretty_N_go (x : N) :
  (0 < x)%N →
  ∃ m, ∀ s acc b,
    parse_digits (pretty_N_go x s) acc b = parse_digits s (acc * m + x)%N true.
Proof.
  induction (N.lt_wf_0 x) as [x _ IH]. intros Hpos.
  destruct (N.eq_0_gt_0_cases (x `div` 10)) as [Hq|Hq].
  - exists 10%N. intros s acc b.
    rewrite pretty_N_go_step, Hq, pretty_N_go_0 by done. cbn [parse_digits].
    rewrite digit_value_pretty_char by (by apply N.mod_lt).
    f_equal. pose proof (N.div_mod x 10 ltac:(done)). lia.
  - destruct (IH (x `div` 10)%N) as [m Hm]; [by apply N.div_lt|done|].
    exists (m * 10)%N. intros s acc b.
    rewrite pretty_N_go_step, Hm by done. cbn [parse_digits].
    rewrite digit_value_pretty_char by (by apply N.mod_lt).
    f_equal. pose proof (N.div_mod x 10 ltac:(done)). lia.
Qed.

Lemma parse_digits_pretty_pos (p : positive) :
  parse_digits (pretty_N_go (N.pos p) "") 0 false = Some (N.pos p).
Proof.
  destruct (parse_digits_pretty_N_go (N.pos p)) as [m Hm]; [done|].
  by rewrite Hm.
Qed.

Lemma int_of_string_pretty (z : Z) : int_of_string (pretty z) = Return z.
Proof.
  unfold int_of_string.
  rewrite (lstrip_id _ (pretty_Z_no_space z)), (rstrip_id _ (pretty_Z_no_space z)).
  unfold pretty, pretty_Z, pretty, pretty_positive, pretty, pretty_N.
  destruct z as [|p|p]; [done| |].
  - destruct (decide (N.pos p = 0%N)) as [[=]|_].
    pose proof (parse_digits_pretty_pos p) as Hparse.
    destruct (pretty_N_go (N.pos p) "") as [|c rest] eqn:Hbody; [done|].
    destruct (Ascii.eqb_spec c "-") as [->|_]; [done|].
    destruct (Ascii.eqb_spec c "+") as [->|_]; [done|].
    by rewrite Hparse.
  - destruct (decide (N.pos p = 0%N)) as [[=]|_].
    change ("-" +:+ pretty_N_go (N.pos p) "")
      with (String "-" (pretty_N_go (N.pos p) "")).
    cbn [Ascii.eqb Bool.eqb]. by rewrite parse_digits_pretty_pos.
Qed.

End TextFacts.

(** ** Marking midline points, saving and loading them *)

Section DictFacts.
Import Text.
Context {K V : Type} `{EqDecision K}.
Implicit Types d : list (K * V).

Lemma dict_lookup_None k d : dict_lookup k d = None ↔ k ∉ d.*1.
Proof.
  induction d as [|[k' v'] d IH]; cbn.
  { split; [intros _; apply not_elem_of_nil|done]. }
  rewrite not_elem_of_cons. destruct (decide (k' = k)) as [->|Hne].
  { split; [done|by intros [? _]]. }
  rewrite IH. split; [intros ?; split; [congruence|done]|by intros [_ ?]].
Qed.

Lemma dict_set_fresh k v d : k ∉ d.*1 → dict_set k v d = d ++ [(k, v)].
Proof.
  induction d as [|[k' v'] d IH]; cbn; [done|].
  rewrite not_elem_of_cons. intros [Hne Hk].
  destruct (decide (k' = k)) as [->|_]; [done|]. by rewrite IH.
Qed.

Lemma dict_set_keys k v d : k ∈ d.*1 → (dict_set k v d).*1 = d.*1.
Proof.
  induction d as [|[k' v'] d IH]; cbn; [by intros ?%elem_of_nil|].
  destruct (decide (k' = k)) as [->|Hne]; [done|].
  rewrite elem_of_cons. intros [->|Hk]; [done|]. cbn. by rewrite IH.
Qed.

Lemma dict_lookup_set_eq k v d : dict_lookup k (dict_set k v d) = Some v.
Proof.
  induction d as [|[k' v'] d IH]; cbn.
  - by destruct (decide (k = k)).
  - destruct (decide (k' = k)) as [->|Hne]; cbn.
    + by destruct (decide (k = k)).
    + by destruct (decide (k' = k)).
Qed.

Lemma dict_lookup_set_ne k k' v d :
  k' ≠ k → dict_lookup k' (dict_set k v d) = dict_lookup k' d.
Proof.
  intros Hne. induction d as [|[k0 v0] d IH]; cbn.
  - by destruct (decide (k = k')) as [->|].
  - destruct (decide (k0 = k)) as [->|Hk]; cbn.
    + by destruct (decide (k = k')).
    + destruct (decide (k0 = k')); [done|apply IH].
Qed.

Lemma dict_set_NoDup k v d : NoDup d.*1 → NoDup (dict_set k v d).*1.
Proof.
  intros Hd. destruct (decide (k ∈ d.*1)) as [Hin|Hout].
  - by rewrite dict_set_keys.
  - rewrite dict_set_fresh, fmap_app by done. cbn.
    apply NoDup_app. split; [done|]. split; [|apply NoDup_singleton].
    intros x Hx ->%list_elem_of_singleton. done.
Qed.

(** Items with distinct keys, set one after the other, are the items. *)
Lemma dict_of_items_NoDup (items : list (K * V)) :
  NoDup items.*1 → dict_of_items items = items.
Proof.
  unfold dict_of_items.
  assert (Hgen : ∀ d0, NoDup (d0.*1 ++ items.*1) →
            fold_left (λ d kv, dict_set kv.1 kv.2 d) items d0 = d0 ++ items).
  { induction items as [|[k v] items IH]; intros d0 Hd; cbn.
    - by rewrite app_nil_r.
    - cbn in Hd. rewrite dict_set_fresh.
      + rewrite IH; [by rewrite <-app_assoc|].
        rewrite fmap_app. cbn. by rewrite <-app_assoc.
      + apply NoDup_app in Hd as (_ & Hdis & _). intros Hin.
        apply (Hdis k Hin). apply list_elem_of_here. }
  intros Hnd. by apply (Hgen []).
Qed.

End DictFacts.

Section MarkingFacts.
Import Text Marking.

Lemma string_to_key_round_trip_aux (k : string * Z) :
  string_to_key (key_to_string k) = Return k.
Proof.
  destruct k as [view idx]. unfold string_to_key, key_to_string. cbn [fst snd].
  rewrite (rsplit_last view (pretty idx) (pretty_Z_no_underscore idx)).
  by rewrite int_of_string_pretty.
Qed.

Lemma key_to_string_inj (k1 k2 : string * Z) :
  key_to_string k1 = key_to_string k2 → k1 = k2.
Proof.
  intros Heq.
  assert (Hr : string_to_key (key_to_string k1) = string_to_key (key_to_string k2))
    by (by rewrite Heq).
  rewrite !string_to_key_round_trip_aux in Hr. by injection Hr.
Qed.

(** The text of a dict key reads back as the key, whatever the view name
    (underscores included) and the slice index (negative included); distinct
    keys therefore have distinct texts. *)
Theorem key_text_round_trip (k : string * Z) :
  string_to_key (key_to_string k) = Return k
  ∧ ∀ k', key_to_string k = key_to_string k' → k = k'.
Proof. split; [apply string_to_key_round_trip_aux|apply key_to_string_inj]. Qed.

Lemma points_from_json (pts : list (Z * Z)) :
  json_to_points (Landmarks.JList (map point_to_json pts)) = Return pts.
Proof.
  cbn. induction pts as [|[row col] pts IH]; [done|].
  cbn [map mapM point_to_json json_to_point fst snd]. rewrite IH. reflexivity.
Qed.

Lemma load_items_encoded (d d0 : Midline.midline_points) :
  NoDup (d0.*1 ++ d.*1) →
  load_items (map encode_item d) d0 = (d0 ++ d, Return ()).
Proof.
  revert d0. induction d as [|[k pts] d IH]; intros d0 Hnd;
    cbn [map load_items encode_item fst snd].
  - by rewrite app_nil_r.
  - rewrite string_to_key_round_trip_aux, points_from_json.
    cbn in Hnd. rewrite dict_set_fresh.
    + rewrite IH; [by rewrite <-app_assoc|].
      rewrite fmap_app. cbn. by rewrite <-app_assoc.
    + apply NoDup_app in Hnd as (_ & Hdis & _). intros Hin.
      apply (Hdis k Hin). apply list_elem_of_here.
Qed.

Lemma encoded_keys_NoDup (d : Midline.midline_points) :
  NoDup d.*1 → NoDup (map encode_item d).*1.
Proof.
  intros Hnd.
  replace ((map encode_item d).*1) with (key_to_string <$> d.*1).
  - apply NoDup_fmap_2_strong; [|done]. intros k1 k2 _ _. apply key_to_string_inj.
  - clear Hnd. induction d as [|[k pts] d IH]; [done|]. cbn. by f_equal.
Qed.

Lemma load_saved_points {A} (saved loading : aligner A) (filepath : string)
    (fs : Landmarks.files) :
  NoDup (midline_points saved).*1 →
  load_midline_points filepath loading (save_midline_points filepath saved fs)
  = (set_points loading (midline_points saved), Return ()).
Proof.
  intros Hnd. unfold load_midline_points, save_midline_points, points_data.
  rewrite lookup_insert_eq.
  cbn [Landmarks.dict_get String.eqb Ascii.eqb Bool.eqb].
  rewrite dict_of_items_NoDup by (by apply encoded_keys_NoDup).
  by rewrite (load_items_encoded _ []).
Qed.

(** Loading a file just written by [save_midline_points] succeeds and
    restores the dict of marked points: same keys in the same order, same
    points under each, so [fit_midline_plane] fits the same points. The keys
    of the saved dict are distinct, as the keys of a dict are. *)
Theorem save_then_load_midline_points {A} (saved loading : aligner A)
    (filepath : string) (fs : Landmarks.files) (lib : Midline.NumLib) :
  NoDup (midline_points saved).*1 →
  let after := load_midline_points filepath loading
                 (save_midline_points filepath saved fs) in
  after.2 = Return ()
  ∧ midline_points after.1 = midline_points saved
  ∧ Midline.fit_midline_plane lib (midline_points after.1)
    = Midline.fit_midline_plane lib (midline_points saved).
Proof.
  intros Hnd after. subst after. rewrite load_saved_points by done. done.
Qed.

(** A left click inside the axes, with a view selected, appends its
    (row, col) to the points of the current slice, leaves every other slice
    as it was, and keeps the keys of the dict distinct. *)
Theorem onclick_appends_point {A} (event : click_event) (self : aligner A)
    (view : string) (row col : Z) :
  current_view self = Some view →
  in_ax event = true →
  button event = 1 →
  int_of_float (xdata event) = Return col →
  int_of_float (ydata event) = Return row →
  NoDup (midline_points self).*1 →
  let key := (view, current_slice self) in
  let after := (onclick event self).1 in
  dict_lookup key (midline_points after)
  = Some (default [] (dict_lookup key (midline_points self)) ++ [(row, col)])
  ∧ (∀ k, k ≠ key →
       dict_lookup k (midline_points after) = dict_lookup k (midline_points self))
  ∧ NoDup (midline_points after).*1
  ∧ current_view after = Some view
  ∧ current_slice after = current_slice self.
Proof.
  intros Hview Hax Hbtn Hx Hy Hnd key after. subst after.
  unfold onclick. rewrite Hview, Hax, Hbtn, Hx, Hy. cbn [negb Z.eqb Pos.eqb fst].
  fold key. cbn [set_points midline_points current_view current_slice].
  destruct (dict_lookup key (midline_points self)) as [pts|] eqn:Hl.
  - rewrite Hl. cbn [default from_option id].
    split; [apply dict_lookup_set_eq|]. split; [|split; [by apply dict_set_NoDup|done]].
    intros k Hk. by apply dict_lookup_set_ne.
  - rewrite !dict_lookup_set_eq. cbn [default from_option id].
    split; [done|].
    split; [|split; [by do 2 apply dict_set_NoDup|done]].
    intros k Hk. rewrite !dict_lookup_set_ne by done. done.
Qed.

(** A left click with a view selected stores (row, col) =
    ([int(event.ydata)], [int(event.xdata)]), the event coordinates cut
    towards zero, under the current (view, slice). In each of the views
    axial, coronal and sagittal that pair becomes exactly one (x, y, z)
    point of [fit_midline_plane], and the volume holds at [z, y, x] the
    sample that [get_slice_and_info] shows at that row and column. *)
Theorem midline_click_addresses_shown_sample {A} (event : click_event)
    (self : aligner A) (view : string) (row col : Z)
    (shown : Views.slice2d A) (info : Views.view_info) :
  current_view self = Some view →
  in_ax event = true →
  button event = 1 →
  int_of_float (xdata event) = Return col →
  int_of_float (ydata event) = Return row →
  Views.get_slice_and_info (image self) view (current_slice self)
  = Return (shown, info) →
  0 ≤ row < (Views.shape2 shown).1 →
  0 ≤ col < (Views.shape2 shown).2 →
  let key := (view, current_slice self) in
  dict_lookup key (midline_points (onclick event self).1)
  = Some (default [] (dict_lookup key (midline_points self)) ++ [(row, col)])
  ∧ ∃ px py pz,
      Midline.point_3d view (current_slice self) (row, col) = [(px, py, pz)]
      ∧ Views.voxel_at (image self) pz py px = Return (Views.pixel shown row col).
Proof.
  intros Hview Hax Hbtn Hx Hy Hget Hrow Hcol key. split.
  - unfold onclick. rewrite Hview, Hax, Hbtn, Hx, Hy. cbn [negb Z.eqb Pos.eqb fst].
    fold key. cbn [set_points midline_points current_view current_slice].
    destruct (dict_lookup key (midline_points self)) as [pts|] eqn:Hl.
    + rewrite Hl. cbn [default from_option id]. apply dict_lookup_set_eq.
    + by rewrite !dict_lookup_set_eq.
  - by apply (point_3d_voxel (image self) view (current_slice self) row col shown info).
Qed.

Lemma onclick_one_slice {A} (event : click_event) (st : aligner A) :
  (midline_points st = []
   ∨ ∃ v pts, current_view st = Some v
              ∧ midline_points st = [((v, current_slice st), pts)]) →
  current_view (onclick event st).1 = current_view st
  ∧ current_slice (onclick event st).1 = current_slice st
  ∧ (midline_points (onclick event st).1 = []
     ∨ ∃ v pts, current_view st = Some v
                ∧ midline_points (onclick event st).1 = [((v, current_slice st), pts)]).
Proof.
  intros Hone. unfold onclick.
  destruct (current_view st) as [view|] eqn:Hview; [|cbn [fst]; by rewrite ?Hview].
  destruct (negb (in_ax event)); [cbn [fst]; by rewrite ?Hview|].
  destruct (button event =? 1); [|cbn [fst]; by rewrite ?Hview].
  destruct (int_of_float (xdata event)) as [col|]; [|cbn [fst]; by rewrite ?Hview].
  destruct (int_of_float (ydata event)) as [row|]; [|cbn [fst]; by rewrite ?Hview].
  cbn [fst set_points midline_points current_view current_slice].
  split; [done|]. split; [done|]. right. exists view.
  destruct Hone as [->|(v & pts & [= <-] & ->)].
  - cbn. destruct (decide ((view, current_slice st) = (view, current_slice st))); [|done].
    cbn. destruct (decide ((view, current_slice st) = (view, current_slice st))); [|done].
    by eexists.
  - cbn. destruct (decide ((view, current_slice st) = (view, current_slice st))); [|done].
    cbn. destruct (decide ((view, current_slice st) = (view, current_slice st))); [|done].
    by eexists.
Qed.

(** Marking a single slice is never enough: starting without points, any
    number of clicks while the view and the slice stay the same leaves at
    most one key, and [fit_midline_plane] raises its [ValueError]. *)
Theorem marking_one_slice_never_fits {A} (events : list click_event)
    (self : aligner A) (lib : Midline.NumLib) :
  midline_points self = [] →
  (length (midline_points (run_clicks events self)) ≤ 1)%nat
  ∧ Midline.fit_midline_plane lib (midline_points (run_clicks events self))
    = Raise (ValueError "Need at least 2 slices with midline points").
Proof.
  intros Hempty.
  assert (Hone : midline_points (run_clicks events self) = []
                 ∨ ∃ v pts, midline_points (run_clicks events self)
                            = [((v, current_slice self), pts)]).
  { unfold run_clicks.
    assert (Hgen : ∀ st : aligner A, (midline_points st = []
                          ∨ ∃ v pts, current_view st = Some v
                               ∧ midline_points st = [((v, current_slice st), pts)]) →
              let final := fold_left (λ st ev, (onclick ev st).1) events st in
              midline_points final = []
              ∨ ∃ v pts, midline_points final = [((v, current_slice st), pts)]).
    { induction events as [|ev events IH]; intros st Hst; cbn.
      - destruct Hst as [?|(v & pts & _ & ?)]; [by left|right; by exists v, pts].
      - destruct (onclick_one_slice ev st Hst) as (Hv & Hs & Hnext).
        rewrite <-Hs. apply IH. rewrite Hv, Hs.
        destruct Hnext as [?|(v & pts & ? & ?)]; [by left|right; by exists v, pts]. }
    apply Hgen. by left. }
  assert (Hlen : (length (midline_points (run_clicks events self)) ≤ 1)%nat).
  { destruct Hone as [->|(v & pts & ->)]; cbn; lia. }
  split; [done|]. unfold Midline.fit_midline_plane.
  by destruct (Nat.ltb_spec (length (midline_points (run_clicks events self))) 2); [|lia].
Qed.

End MarkingFacts.

Lemma save_then_load_midline_points_witness :
  let after := Marking.load_midline_points "midline.json" Marking.fresh_aligner
                 (Marking.save_midline_points "midline.json" Marking.marked_aligner ∅) in
  after.2 = Return ()
  ∧ Marking.midline_points after.1 = Marking.midline_points Marking.marked_aligner
  ∧ Midline.fit_midline_plane (Midline.example_lib Midline.rows_x10)
      (Marking.midline_points after.1)
    = Midline.fit_midline_plane (Midline.example_lib Midline.rows_x10)
        (Marking.midline_points Marking.marked_aligner).
Proof.
  apply (save_then_load_midline_points Marking.marked_aligner Marking.fresh_aligner
           "midline.json" ∅ (Midline.example_lib Midline.rows_x10)).
  vm_compute. repeat constructor; intros H;
    repeat (inversion H as [|? ? ? H']; clear H; rename H' into H).
Defined.

Lemma midline_click_addresses_shown_sample_witness :
  let key := ("coronal", 1) in
  let shown := {| Views.shape2 := (3, 4);
                  Views.pixel := λ r c, Views.voxel Views.numbered_volume 1 r c |} in
  Text.dict_lookup key
    (Marking.midline_points
       (Marking.onclick (Marking.left_click 2.6 1.2) Marking.marked_aligner).1)
  = Some (default [] (Text.dict_lookup key
                        (Marking.midline_points Marking.marked_aligner))
          ++ [(1, 2)])
  ∧ ∃ px py pz,
      Midline.point_3d "coronal" 1 (1, 2) = [(px, py, pz)]
      ∧ Views.voxel_at Views.numbered_volume pz py px = Return (Views.pixel shown 1 2).
Proof.
  apply (midline_click_addresses_shown_sample (Marking.left_click 2.6 1.2)
           Marking.marked_aligner "coronal" 1 2
           {| Views.shape2 := (3, 4);
              Views.pixel := λ r c, Views.voxel Views.numbered_volume 1 r c |}
           {| Views.slice_axis := "Z (slice index 0)";
              Views.horizontal := "X (Left-Right)";
              Views.vertical := "Y (Anterior-Posterior)"; Views.max_slice := 1 |});
    [reflexivity | reflexivity | reflexivity | reflexivity | reflexivity
    | reflexivity | cbn; lia | cbn; lia].
Defined.

Lemma onclick_appends_point_witness :
  let key := ("coronal", 1) in
  let after := (Marking.onclick (Marking.left_click 2.6 1.2) Marking.marked_aligner).1 in
  Text.dict_lookup key (Marking.midline_points after)
  = Some (default [] (Text.dict_lookup key (Marking.midline_points Marking.marked_aligner))
          ++ [(1, 2)])
  ∧ (∀ k, k ≠ key →
       Text.dict_lookup k (Marking.midline_points after)
       = Text.dict_lookup k (Marking.midline_points Marking.marked_aligner))
  ∧ NoDup (Marking.midline_points after).*1
  ∧ Marking.current_view after = Some "coronal"
  ∧ Marking.current_slice after = 1.
Proof.
  apply (onclick_appends_point (Marking.left_click 2.6 1.2) Marking.marked_aligner
           "coronal" 1 2); [reflexivity..|].
  vm_compute. repeat constructor; intros H;
    repeat (inversion H as [|? ? ? H']; clear H; rename H' into H).
Defined.

Lemma marking_one_slice_never_fits_witness :
  (length (Marking.midline_points
             (Marking.run_clicks [Marking.left_click 2.6 1.2; Marking.left_click 3 2]
                Marking.fresh_aligner)) ≤ 1)%nat
  ∧ Midline.fit_midline_plane (Midline.example_lib Midline.rows_x10)
      (Marking.midline_points
         (Marking.run_clicks [Marking.left_click 2.6 1.2; Marking.left_click 3 2]
            Marking.fresh_aligner))
    = Raise (ValueError "Need at least 2 slices with midline points").
Proof.
  apply (marking_one_slice_never_fits
           [Marking.left_click 2.6 1.2; Marking.left_click 3 2]
           Marking.fresh_aligner (Midline.example_lib Midline.rows_x10)).
  reflexivity.
Defined.

Lemma callbacks_paired_prefix_witness :
  Landmarks.paired_prefix
    (Landmarks.run
       (map (λ ev, match ev with
                   | inl e => Landmarks.onclick e
                   | inr _ => Landmarks.on_undo
                   end)
          [inl (Landmarks.click Landmarks.ax_moving 30 40); inr ();
           inl (Landmarks.click Landmarks.ax_fixed 31 41)])
       Landmarks.fresh_selector).
Proof.
  apply (callbacks_paired_prefix
           [inl (Landmarks.click Landmarks.ax_moving 30 40); inr ();
            inl (Landmarks.click Landmarks.ax_fixed 31 41)]
           Landmarks.fresh_selector).
  unfold Landmarks.paired_prefix. cbn. lia.
Defined.

(** ** The tracking session *)

Section FiberFacts.
Context {transform : Type} (transform_point : transform → vec3 → string + vec3).
Implicit Types s st : Fibers.session transform.
Implicit Types ev : Fibers.event.
Implicit Types f : Fibers.fiber.

Lemma run_invariant (P : Fibers.session transform → Prop) :
  (∀ ev st, P st → P (Fibers.handle transform_point ev st).1) →
  ∀ evs s, P s → P (Fibers.run transform_point evs s).
Proof.
  intros Hstep evs. unfold Fibers.run.
  induction evs as [|ev evs IH]; intros s Hs; [done|].
  cbn [fold_left]. by apply IH, Hstep.
Qed.

(** No callback replaces the tracker, the image shape or the palette. *)
Lemma handle_setup ev st :
  let st' := (Fibers.handle transform_point ev st).1 in
  Fibers.tracker st' = Fibers.tracker st
  ∧ Fibers.nz st' = Fibers.nz st ∧ Fibers.ny st' = Fibers.ny st
  ∧ Fibers.nx st' = Fibers.nx st
  ∧ Fibers.fiber_colors st' = Fibers.fiber_colors st.
Proof.
  destruct ev; cbn [Fibers.handle];
    unfold Fibers.on_click, Fibers.on_scroll, Fibers.update_slice,
      Fibers.undo_current, Fibers.undo_last_fiber, Fibers.next_fiber;
    repeat case_match; done.
Qed.

Lemma run_setup evs s :
  let s' := Fibers.run transform_point evs s in
  Fibers.tracker s' = Fibers.tracker s
  ∧ Fibers.nz s' = Fibers.nz s ∧ Fibers.ny s' = Fibers.ny s
  ∧ Fibers.nx s' = Fibers.nx s
  ∧ Fibers.fiber_colors s' = Fibers.fiber_colors s.
Proof.
  apply (run_invariant (λ st,
    Fibers.tracker st = Fibers.tracker s
    ∧ Fibers.nz st = Fibers.nz s ∧ Fibers.ny st = Fibers.ny s
    ∧ Fibers.nx st = Fibers.nx s
    ∧ Fibers.fiber_colors st = Fibers.fiber_colors s)); [|done].
  intros ev st (Ht & Hz & Hy & Hx & Hc).
  destruct (handle_setup ev st) as (-> & -> & -> & -> & ->). done.
Qed.

Lemma numbered_from_app colors (k : Z) (fs : list Fibers.fiber) f :
  Fibers.numbered_from colors k fs →
  Fibers.id f = k + Z.of_nat (length fs) →
  Fibers.color_of colors (Fibers.id f) = Return (Fibers.color f) →
  Fibers.numbered_from colors k (fs ++ [f]).
Proof.
  revert k. induction fs as [|g fs IH]; intros k Hfs Hid Hcol.
  - cbn in *. rewrite Z.add_0_r in Hid. by rewrite <- Hid.
  - destruct Hfs as (Hg & Hc & Hrest). cbn [app Fibers.numbered_from].
    split_and!; [done..|]. apply IH; [done| |done].
    rewrite Hid. cbn [length]. lia.
Qed.

Lemma numbered_from_removelast colors (k : Z) (fs : list Fibers.fiber) :
  Fibers.numbered_from colors k fs → Fibers.numbered_from colors k (removelast fs).
Proof.
  revert k. induction fs as [|g fs IH]; intros k Hfs; [done|].
  destruct Hfs as (Hg & Hc & Hrest).
  destruct fs as [|h fs]; [done|].
  change (removelast (g :: h :: fs)) with (g :: removelast (h :: fs)).
  cbn [Fibers.numbered_from]. split_and!; [done..|]. by apply IH.
Qed.

Lemma numbered_from_lookup colors (k : Z) (fs : list Fibers.fiber) (i : nat) f :
  Fibers.numbered_from colors k fs → fs !! i = Some f →
  Fibers.id f = k + Z.of_nat i
  ∧ Fibers.color_of colors (k + Z.of_nat i) = Return (Fibers.color f).
Proof.
  revert k i. induction fs as [|g fs IH]; intros k i Hfs Hi; [done|].
  destruct Hfs as (Hg & Hc & Hrest). destruct i as [|i].
  - injection Hi as <-. rewrite Z.add_0_r. done.
  - cbn in Hi. destruct (IH _ _ Hrest Hi) as [Hid Hcol].
    replace (k + Z.of_nat (S i)) with (k + 1 + Z.of_nat i) by lia. done.
Qed.

Lemma handle_numbered ev st :
  Fibers.numbered_from (Fibers.fiber_colors st) 0 (Fibers.fibers st) →
  Fibers.numbered_from (Fibers.fiber_colors st) 0
    (Fibers.fibers (Fibers.handle transform_point ev st).1).
Proof.
  intros Hnum. destruct ev; cbn [Fibers.handle].
  - unfold Fibers.on_click. repeat case_match; done.
  - unfold Fibers.on_scroll, Fibers.update_slice. repeat case_match; done.
  - unfold Fibers.undo_current. repeat case_match; done.
  - unfold Fibers.undo_last_fiber. destruct (Fibers.fibers st) as [|g fs] eqn:Hfs;
      [cbn [fst]; by rewrite Hfs|].
    cbn [fst Fibers.set_fibers Fibers.fibers]. by apply numbered_from_removelast.
  - unfold Fibers.next_fiber.
    destruct (Fibers.current_top _) as [t|]; [|done].
    destruct (Fibers.current_bottom _) as [b|]; [|done].
    destruct (Fibers.color_of _ _) as [c|e] eqn:Hc; [|done].
    cbn [fst Fibers.set_fibers Fibers.set_current Fibers.fibers].
    apply numbered_from_app; [done|cbn; lia|done].
Qed.

(** Saved fibers are numbered by position: through every sequence of clicks,
    scrolls, undos and Next Fiber, the fiber at index [i] of [self.fibers]
    has id [i] and the palette row [i % len(fiber_colors)], provided the
    fibers the session started with (none, or those loaded) were so. *)
Theorem fiber_ids_are_positions (evs : list Fibers.event) s :
  Fibers.numbered_from (Fibers.fiber_colors s) 0 (Fibers.fibers s) →
  let s' := Fibers.run transform_point evs s in
  ∀ (i : nat) f, Fibers.fibers s' !! i = Some f →
    Fibers.id f = Z.of_nat i
    ∧ Fibers.color_of (Fibers.fiber_colors s) (Z.of_nat i) = Return (Fibers.color f).
Proof.
  intros Hnum s' i f Hi.
  assert (Hinv : Fibers.fiber_colors s' = Fibers.fiber_colors s
                 ∧ Fibers.numbered_from (Fibers.fiber_colors s) 0 (Fibers.fibers s')).
  { apply (run_invariant (λ st,
      Fibers.fiber_colors st = Fibers.fiber_colors s
      ∧ Fibers.numbered_from (Fibers.fiber_colors s) 0 (Fibers.fibers st))); [|done].
    intros ev st [Hc Hn]. split.
    - destruct (handle_setup ev st) as (_ & _ & _ & _ & ->). done.
    - rewrite <- Hc. apply handle_numbered. by rewrite Hc. }
  destruct Hinv as [_ Hn].
  apply (numbered_from_lookup _ 0 _ i f Hn Hi).
Qed.

Lemma elem_of_removelast {A} (l : list A) (x : A) : x ∈ removelast l → x ∈ l.
Proof.
  induction l as [|a l IH]; [done|]. destruct l as [|b l]; [by intros ?%elem_of_nil|].
  change (removelast (a :: b :: l)) with (a :: removelast (b :: l)).
  rewrite !(elem_of_cons _ x a). intros [->|Hin]; [by left|right; by apply IH].
Qed.

(** The fiber in progress holds the region of its own bottom point. *)
Lemma handle_region_info ev st :
  (∀ z y x, Fibers.current_bottom (Fibers.current_fiber st) = Some (z, y, x) →
     Fibers.current_region_info (Fibers.current_fiber st)
     = Some (Tracker.get_region_at_point transform transform_point
               (Fibers.tracker st) z y x)) →
  let st' := (Fibers.handle transform_point ev st).1 in
  ∀ z y x, Fibers.current_bottom (Fibers.current_fiber st') = Some (z, y, x) →
     Fibers.current_region_info (Fibers.current_fiber st')
     = Some (Tracker.get_region_at_point transform transform_point
               (Fibers.tracker st) z y x).
Proof.
  intros Hinfo st' z y x. subst st'.
  destruct ev; cbn [Fibers.handle];
    unfold Fibers.on_click, Fibers.on_scroll, Fibers.update_slice,
      Fibers.undo_current, Fibers.undo_last_fiber, Fibers.next_fiber;
    repeat case_match; simplify_eq/=; intros Heq; try done;
    first [by simplify_eq | apply Hinfo; congruence].
Qed.

Lemma handle_fibers ev st f :
  f ∈ Fibers.fibers (Fibers.handle transform_point ev st).1 →
  f ∈ Fibers.fibers st
  ∨ ∃ t b c,
      ev = Fibers.NextFiber
      ∧ Fibers.current_top (Fibers.current_fiber st) = Some t
      ∧ Fibers.current_bottom (Fibers.current_fiber st) = Some b
      ∧ f = Fibers.fiber_data (Z.of_nat (length (Fibers.fibers st))) t b c
              (default Fibers.default_region_info
                 (Fibers.current_region_info (Fibers.current_fiber st))).
Proof.
  destruct ev; cbn [Fibers.handle].
  - unfold Fibers.on_click. repeat case_match; simplify_eq/=; by left.
  - unfold Fibers.on_scroll, Fibers.update_slice. repeat case_match; simplify_eq/=; by left.
  - unfold Fibers.undo_current. repeat case_match; simplify_eq/=; by left.
  - unfold Fibers.undo_last_fiber. destruct (Fibers.fibers st) as [|g fs] eqn:Hfs.
    + cbn [fst]. rewrite Hfs. by left.
    + cbn [fst Fibers.set_fibers Fibers.fibers]. intros Hin%elem_of_removelast. by left.
  - unfold Fibers.next_fiber.
    destruct (Fibers.current_top _) as [t|] eqn:Ht; [|by left].
    destruct (Fibers.current_bottom _) as [b|] eqn:Hb; [|by left].
    destruct (Fibers.color_of _ _) as [c|e] eqn:Hc; [|by left].
    cbn [fst Fibers.set_fibers Fibers.set_current Fibers.fibers].
    rewrite elem_of_app, list_elem_of_singleton. intros [Hin| ->]; [by left|right].
    by exists t, b, c.
Qed.

(** Every fiber that Next Fiber saves carries the region that
    [get_region_at_point] returned for its own bottom point: in a session
    that starts with no bottom marked, after any sequence of clicks, scrolls,
    undos and Next Fiber, each saved fiber was either there at the start or
    is the [fiber_data] dict built from the lookup at its bottom; the
    ['N/A'] default of [next_fiber] is never used. *)
Theorem saved_fibers_carry_bottom_region (evs : list Fibers.event) s :
  Fibers.current_bottom (Fibers.current_fiber s) = None →
  let s' := Fibers.run transform_point evs s in
  ∀ f, f ∈ Fibers.fibers s' →
    f ∈ Fibers.fibers s
    ∨ ∃ t z y x c,
        f = Fibers.fiber_data (Fibers.id f) t (z, y, x) c
              (Tracker.get_region_at_point transform transform_point
                 (Fibers.tracker s) z y x).
Proof.
  intros Hidle s'.
  assert (Hinv :
    Fibers.tracker s' = Fibers.tracker s
    ∧ (∀ z y x, Fibers.current_bottom (Fibers.current_fiber s') = Some (z, y, x) →
         Fibers.current_region_info (Fibers.current_fiber s')
         = Some (Tracker.get_region_at_point transform transform_point
                   (Fibers.tracker s) z y x))
    ∧ ∀ f, f ∈ Fibers.fibers s' →
        f ∈ Fibers.fibers s
        ∨ ∃ t z y x c,
            f = Fibers.fiber_data (Fibers.id f) t (z, y, x) c
                  (Tracker.get_region_at_point transform transform_point
                     (Fibers.tracker s) z y x)); [|by destruct Hinv as (_ & _ & ?)].
  subst s'.
  apply (run_invariant (λ st,
    Fibers.tracker st = Fibers.tracker s
    ∧ (∀ z y x, Fibers.current_bottom (Fibers.current_fiber st) = Some (z, y, x) →
         Fibers.current_region_info (Fibers.current_fiber st)
         = Some (Tracker.get_region_at_point transform transform_point
                   (Fibers.tracker s) z y x))
    ∧ ∀ f, f ∈ Fibers.fibers st →
        f ∈ Fibers.fibers s
        ∨ ∃ t z y x c,
            f = Fibers.fiber_data (Fibers.id f) t (z, y, x) c
                  (Tracker.get_region_at_point transform transform_point
                     (Fibers.tracker s) z y x))).
  - intros ev st (Htr & Hinfo & Hfib). split_and!.
    + destruct (handle_setup ev st) as (-> & _). done.
    + rewrite <- Htr. apply handle_region_info. by rewrite Htr.
    + intros f [Hin|(t & [[z y] x] & c & -> & Ht & Hb & ->)]%handle_fibers;
        [by apply Hfib|right].
      exists t, z, y, x, c. by rewrite (Hinfo z y x Hb).
  - split_and!; [done| |by left]. intros z y x. by rewrite Hidle.
Qed.

Lemma inside_same_shape s st (p : Fibers.point) :
  Fibers.nz st = Fibers.nz s → Fibers.ny st = Fibers.ny s →
  Fibers.nx st = Fibers.nx s → Fibers.inside st p = Fibers.inside s p.
Proof. intros Hz Hy Hx. unfold Fibers.inside. by rewrite Hz, Hy, Hx. Qed.

Lemma handle_inside ev st :
  0 ≤ Fibers.current_slice st < Fibers.nz st →
  (∀ t, Fibers.current_top (Fibers.current_fiber st) = Some t →
     Fibers.inside st t = true) →
  (∀ b, Fibers.current_bottom (Fibers.current_fiber st) = Some b →
     Fibers.inside st b = true) →
  let st' := (Fibers.handle transform_point ev st).1 in
  0 ≤ Fibers.current_slice st' < Fibers.nz st
  ∧ (∀ t, Fibers.current_top (Fibers.current_fiber st') = Some t →
       Fibers.inside st t = true)
  ∧ (∀ b, Fibers.current_bottom (Fibers.current_fiber st') = Some b →
       Fibers.inside st b = true).
Proof.
  intros Hcs Htop Hbot st'. subst st'.
  assert (Hclick : ∀ x y,
    (x <? 0) || (Fibers.nx st <=? x) || (y <? 0) || (Fibers.ny st <=? y) = false →
    Fibers.inside st (Fibers.current_slice st, y, x) = true).
  { intros x y Hxy. unfold Fibers.inside.
    rewrite !orb_false_iff, !Z.ltb_ge, !Z.leb_gt in Hxy.
    rewrite !andb_true_iff, !Z.leb_le, !Z.ltb_lt. lia. }
  destruct ev; cbn [Fibers.handle];
    unfold Fibers.on_click, Fibers.on_scroll, Fibers.update_slice,
      Fibers.undo_current, Fibers.undo_last_fiber, Fibers.next_fiber;
    repeat case_match; simplify_eq/=;
    (split_and!; [lia..| |]); intros q Hq; simplify_eq;
    first [by apply Hclick | by apply Htop | by apply Hbot
          | apply Htop; congruence | apply Hbot; congruence].
Qed.

(** Every end point recorded by a click is an index of the image: in a
    session that starts on a slice of the image with no fiber in progress,
    the displayed slice stays within 0 .. nz-1 through any sequence of
    clicks, scrolls, undos and Next Fiber, and every fiber saved on the way
    has its top and its bottom inside the image. *)
Theorem fiber_ends_inside_image (evs : list Fibers.event) s :
  0 ≤ Fibers.current_slice s < Fibers.nz s →
  Fibers.current_top (Fibers.current_fiber s) = None →
  Fibers.current_bottom (Fibers.current_fiber s) = None →
  let s' := Fibers.run transform_point evs s in
  0 ≤ Fibers.current_slice s' < Fibers.nz s
  ∧ ∀ f, f ∈ Fibers.fibers s' →
      f ∈ Fibers.fibers s
      ∨ ∃ t b, Fibers.top f = Fibers.triple t ∧ Fibers.bottom f = Fibers.triple b
               ∧ Fibers.inside s t = true ∧ Fibers.inside s b = true.
Proof.
  intros Hcs Htop Hbot s'.
  assert (Hinv :
    (Fibers.nz s' = Fibers.nz s ∧ Fibers.ny s' = Fibers.ny s
     ∧ Fibers.nx s' = Fibers.nx s)
    ∧ 0 ≤ Fibers.current_slice s' < Fibers.nz s
    ∧ (∀ t, Fibers.current_top (Fibers.current_fiber s') = Some t →
         Fibers.inside s t = true)
    ∧ (∀ b, Fibers.current_bottom (Fibers.current_fiber s') = Some b →
         Fibers.inside s b = true)
    ∧ ∀ f, f ∈ Fibers.fibers s' →
        f ∈ Fibers.fibers s
        ∨ ∃ t b, Fibers.top f = Fibers.triple t ∧ Fibers.bottom f = Fibers.triple b
                 ∧ Fibers.inside s t = true ∧ Fibers.inside s b = true);
    [|by destruct Hinv as (_ & ? & _ & _ & ?)].
  subst s'.
  apply (run_invariant (λ st,
    (Fibers.nz st = Fibers.nz s ∧ Fibers.ny st = Fibers.ny s
     ∧ Fibers.nx st = Fibers.nx s)
    ∧ 0 ≤ Fibers.current_slice st < Fibers.nz s
    ∧ (∀ t, Fibers.current_top (Fibers.current_fiber st) = Some t →
         Fibers.inside s t = true)
    ∧ (∀ b, Fibers.current_bottom (Fibers.current_fiber st) = Some b →
         Fibers.inside s b = true)
    ∧ ∀ f, f ∈ Fibers.fibers st →
        f ∈ Fibers.fibers s
        ∨ ∃ t b, Fibers.top f = Fibers.triple t ∧ Fibers.bottom f = Fibers.triple b
                 ∧ Fibers.inside s t = true ∧ Fibers.inside s b = true)).
  - intros ev st ((Hz & Hy & Hx) & Hslice & Ht & Hb & Hfib).
    assert (Hsame : ∀ p, Fibers.inside st p = Fibers.inside s p)
      by (intros p; by apply inside_same_shape).
    destruct (handle_inside ev st) as (Hslice' & Ht' & Hb').
    { by rewrite Hz. }
    { intros t ?. rewrite Hsame. by apply Ht. }
    { intros b ?. rewrite Hsame. by apply Hb. }
    destruct (handle_setup ev st) as (_ & Hz' & Hy' & Hx' & _).
    split_and!.
    + by rewrite Hz'.
    + by rewrite Hy'.
    + by rewrite Hx'.
    + lia.
    + lia.
    + intros t ?. rewrite <- Hsame. by apply Ht'.
    + intros b ?. rewrite <- Hsame. by apply Hb'.
    + intros f [Hin|(t & b & c & -> & Hct & Hcb & ->)]%handle_fibers;
        [by apply Hfib|right].
      exists t, b. split_and!; [done|done|by apply Ht|by apply Hb].
  - split_and!; try done; [lia|lia| | |by left].
    + intros t. by rewrite Htop.
    + intros b. by rewrite Hbot.
Qed.

Lemma scrolls_keep_fibers (scs : list Fibers.scroll_event) st :
  let st' := Fibers.run transform_point (map Fibers.Scroll scs) st in
  Fibers.tracker st' = Fibers.tracker st
  ∧ (Fibers.nz st' = Fibers.nz st ∧ Fibers.ny st' = Fibers.ny st
     ∧ Fibers.nx st' = Fibers.nx st)
  ∧ Fibers.fibers st' = Fibers.fibers st
  ∧ Fibers.current_fiber st' = Fibers.current_fiber st
  ∧ Fibers.fiber_colors st' = Fibers.fiber_colors st.
Proof.
  revert st. unfold Fibers.run.
  induction scs as [|sc scs IH]; intros st; [done|].
  cbn [map fold_left Fibers.handle].
  destruct (IH (Fibers.on_scroll sc st).1) as (-> & (-> & -> & ->) & -> & -> & ->).
  unfold Fibers.on_scroll, Fibers.update_slice. repeat case_match; repeat split.
Qed.

(** The workflow of the tool saves a fiber: with no fiber in progress, a
    click inside the image, any scrolling, a second click inside the image
    and Next Fiber append exactly one fiber. Its top is the first click on
    the slice shown then, its bottom the second click on the slice shown
    after the scrolling, its id the number of fibers saved before, and its
    region fields are those of [get_region_at_point] at the bottom; no fiber
    is in progress afterwards. *)
Theorem mark_and_save_fiber s (e1 e2 : Fibers.mouse_event)
    (scs : list Fibers.scroll_event) (xd1 xd2 : float) (x1 y1 x2 y2 : Z)
    (c : Fibers.rgba) :
  Fibers.current_top (Fibers.current_fiber s) = None →
  Fibers.current_bottom (Fibers.current_fiber s) = None →
  Fibers.inaxes e1 = true → Fibers.xdata e1 = Some xd1 →
  int_round xd1 = Return x1 → int_round (Fibers.ydata e1) = Return y1 →
  0 ≤ x1 < Fibers.nx s → 0 ≤ y1 < Fibers.ny s →
  Fibers.inaxes e2 = true → Fibers.xdata e2 = Some xd2 →
  int_round xd2 = Return x2 → int_round (Fibers.ydata e2) = Return y2 →
  0 ≤ x2 < Fibers.nx s → 0 ≤ y2 < Fibers.ny s →
  Fibers.color_of (Fibers.fiber_colors s) (Z.of_nat (length (Fibers.fibers s)))
  = Return c →
  let z1 := Fibers.current_slice s in
  let z2 := Fibers.current_slice
              (Fibers.run transform_point
                 (Fibers.Click e1 :: map Fibers.Scroll scs) s) in
  let s' := Fibers.run transform_point
              (Fibers.Click e1 :: map Fibers.Scroll scs
               ++ [Fibers.Click e2; Fibers.NextFiber]) s in
  Fibers.fibers s'
  = Fibers.fibers s
    ++ [Fibers.fiber_data (Z.of_nat (length (Fibers.fibers s)))
          (z1, y1, x1) (z2, y2, x2) c
          (Tracker.get_region_at_point transform transform_point
             (Fibers.tracker s) z2 y2 x2)]
  ∧ Fibers.current_fiber s'
    = {| Fibers.current_top := None; Fibers.current_bottom := None;
         Fibers.current_region_info := None |}
  ∧ Fibers.current_points s' = [].
Proof.
  intros Htop Hbot Hin1 Hxd1 Hx1 Hy1 Hbx1 Hby1 Hin2 Hxd2 Hx2 Hy2 Hbx2 Hby2 Hc
    z1 z2 s'.
  subst z1 z2 s'. unfold Fibers.run.
  cbn [fold_left Fibers.handle]. rewrite fold_left_app.
  fold (Fibers.run transform_point (map Fibers.Scroll scs)
          (Fibers.on_click transform_point e1 s).1).
  set (s1 := (Fibers.on_click transform_point e1 s).1).
  set (s2 := Fibers.run transform_point (map Fibers.Scroll scs) s1).
  assert (Hs1 :
    Fibers.tracker s1 = Fibers.tracker s
    ∧ (Fibers.nz s1 = Fibers.nz s ∧ Fibers.ny s1 = Fibers.ny s
       ∧ Fibers.nx s1 = Fibers.nx s)
    ∧ Fibers.fibers s1 = Fibers.fibers s
    ∧ Fibers.current_fiber s1
      = {| Fibers.current_top := Some (Fibers.current_slice s, y1, x1);
           Fibers.current_bottom := None;
           Fibers.current_region_info :=
             Fibers.current_region_info (Fibers.current_fiber s) |}
    ∧ Fibers.fiber_colors s1 = Fibers.fiber_colors s).
  { subst s1. unfold Fibers.on_click.
    rewrite Hin1, Hxd1, Hx1, Hy1. cbn [negb].
    replace ((x1 <? 0) || (Fibers.nx s <=? x1) || (y1 <? 0) || (Fibers.ny s <=? y1))
      with false
      by (symmetry; rewrite !orb_false_iff, !Z.ltb_ge, !Z.leb_gt; lia).
    rewrite Htop. cbn. by rewrite Hbot. }
  destruct (scrolls_keep_fibers scs s1) as (Ht2 & (Hz2 & Hy2' & Hx2') & Hf2 & Hcf2 & Hc2).
  fold s2 in Ht2, Hz2, Hy2', Hx2', Hf2, Hcf2, Hc2.
  destruct Hs1 as (Ht1 & (Hz1 & Hy1' & Hx1') & Hf1 & Hcf1 & Hc1).
  cbn [fold_left Fibers.handle].
  set (s3 := (Fibers.on_click transform_point e2 s2).1).
  assert (Hs3 :
    Fibers.fibers s3 = Fibers.fibers s
    ∧ Fibers.current_fiber s3
      = {| Fibers.current_top := Some (Fibers.current_slice s, y1, x1);
           Fibers.current_bottom := Some (Fibers.current_slice s2, y2, x2);
           Fibers.current_region_info :=
             Some (Tracker.get_region_at_point transform transform_point
                     (Fibers.tracker s) (Fibers.current_slice s2) y2 x2) |}
    ∧ Fibers.fiber_colors s3 = Fibers.fiber_colors s).
  { subst s3. unfold Fibers.on_click.
    rewrite Hin2, Hxd2, Hx2, Hy2. cbn [negb].
    replace ((x2 <? 0) || (Fibers.nx s2 <=? x2) || (y2 <? 0) || (Fibers.ny s2 <=? y2))
      with false
      by (symmetry; rewrite !orb_false_iff, !Z.ltb_ge, !Z.leb_gt; lia).
    rewrite Hcf2, Hcf1. cbn [Fibers.current_top Fibers.current_bottom].
    rewrite Hf2, Hf1, Hc2, Hc1, Hc, Ht2, Ht1.
    destruct (_ =? Fibers.current_slice s2); cbn; by rewrite ?Hf2, ?Hf1, ?Hc2, ?Hc1. }
  destruct Hs3 as (Hf3 & Hcf3 & Hc3).
  unfold Fibers.next_fiber. rewrite Hcf3.
  cbn [Fibers.current_top Fibers.current_bottom Fibers.current_region_info].
  rewrite Hf3, Hc3, Hc. done.
Qed.

End FiberFacts.

(** ** Saved fibers *)

Section FiberFiles.
Context {transform : Type} (format_failure : string → exception).
Implicit Types s : Fibers.session transform.
Implicit Types f : Fibers.fiber.

Lemma set_fibers_same s : Fibers.set_fibers s (Fibers.fibers s ++ []) = s.
Proof. destruct s. unfold Fibers.set_fibers. cbn. by rewrite app_nil_r. Qed.

Lemma set_fibers_twice s (l1 l2 : list Fibers.fiber) :
  Fibers.set_fibers (Fibers.set_fibers s l1) l2 = Fibers.set_fibers s l2.
Proof. done. Qed.

Lemma load_fiber_saved (colors : list Fibers.rgba) f :
  Fibers.color_of colors (Fibers.id f) = Return (Fibers.color f) →
  Fibers.load_fiber format_failure colors (Fibers.fiber_to_json f)
  = Return (Fibers.reloaded f).
Proof.
  intros Hc. destruct f as [n [[tz ty] tx] [[bz by_] bx] c rid rname racr rh cc].
  cbn in Hc. cbn. unfold Fibers.color_of_value. rewrite Hc. done.
Qed.

(** The loop appends what it could build, and stops at the first entry that
    fails. *)
Lemma load_entries_prefix (pre : list Landmarks.json) (loaded : list Fibers.fiber) s :
  mapM (Fibers.load_fiber format_failure (Fibers.fiber_colors s)) pre = Return loaded →
  ∀ rest,
    Fibers.load_entries format_failure (pre ++ rest) s
    = Fibers.load_entries format_failure rest
        (Fibers.set_fibers s (Fibers.fibers s ++ loaded)).
Proof.
  revert loaded s. induction pre as [|entry pre IH]; intros loaded s Hpre rest.
  - injection Hpre as <-. by rewrite set_fibers_same.
  - cbn in Hpre. cbn [app Fibers.load_entries].
    destruct (Fibers.load_fiber _ _ entry) as [f|e]; [|done].
    cbn in Hpre.
    destruct (mapM _ pre) as [fs|e] eqn:Hfs; [|done].
    injection Hpre as <-.
    rewrite (IH fs (Fibers.set_fibers s (Fibers.fibers s ++ [f]))) by done.
    cbn [Fibers.set_fibers Fibers.fibers]. by rewrite <- app_assoc.
Qed.

Lemma mapM_load_saved (colors : list Fibers.rgba) (fs : list Fibers.fiber) :
  Forall (λ f, Fibers.color_of colors (Fibers.id f) = Return (Fibers.color f)) fs →
  mapM (Fibers.load_fiber format_failure colors) (map Fibers.fiber_to_json fs)
  = Return (map Fibers.reloaded fs).
Proof.
  induction 1 as [|f fs Hf _ IH]; [done|].
  change (mapM ?g (map ?h (f :: fs)))
    with (y ← g (h f); k ← mapM g (map h fs); mret (M:=outcome) (y :: k)).
  rewrite load_fiber_saved by done. rewrite IH. done.
Qed.

Lemma fiber_to_json_reloaded f :
  Fibers.fiber_to_json (Fibers.reloaded f) = Fibers.fiber_to_json f.
Proof. done. Qed.

(** Loading what [save_fiber_data] wrote succeeds and appends every saved
    fiber with its id, ends, palette row and region fields; the CCF
    coordinate comes back as the list that [json.load] returns for the saved
    tuple. Saving the loaded fibers writes the same file again. *)
Theorem save_then_load_fibers s (fs : list Fibers.fiber) (path : string)
    (files : Landmarks.files) :
  Forall (λ f, Fibers.color_of (Fibers.fiber_colors s) (Fibers.id f)
               = Return (Fibers.color f)) fs →
  let files' := Fibers.save_fiber_data path fs files in
  files' !! path = Some (Fibers.fiber_list fs)
  ∧ Fibers.load_previous_work format_failure (Fibers.fiber_list fs) s
    = (Fibers.set_fibers s (Fibers.fibers s ++ map Fibers.reloaded fs), Return ())
  ∧ Fibers.save_fiber_data path (map Fibers.reloaded fs) files = files'.
Proof.
  intros Hcol files'. subst files'. unfold Fibers.save_fiber_data. split_and!.
  - by rewrite lookup_insert_eq.
  - cbn [Fibers.load_previous_work Fibers.fiber_list].
    rewrite <- (app_nil_r (map Fibers.fiber_to_json fs)).
    rewrite (load_entries_prefix _ (map Fibers.reloaded fs)); [done|].
    by apply mapM_load_saved.
  - f_equal. unfold Fibers.fiber_list. f_equal.
    rewrite map_map. apply map_ext. intros f. apply fiber_to_json_reloaded.
Qed.

(** [load_previous_work] is not atomic: when an entry of the file cannot be
    turned into a fiber (a missing key, a [fiber_id] that is not an int, an
    entry that is not an object), the call raises that entry's exception and
    the fibers of the entries before it stay appended to [self.fibers]. *)
Theorem load_previous_work_partial s (pre rest : list Landmarks.json)
    (bad : Landmarks.json) (loaded : list Fibers.fiber) (e : exception) :
  mapM (Fibers.load_fiber format_failure (Fibers.fiber_colors s)) pre = Return loaded →
  Fibers.load_fiber format_failure (Fibers.fiber_colors s) bad = Raise e →
  Fibers.load_previous_work format_failure (Landmarks.JList (pre ++ bad :: rest)) s
  = (Fibers.set_fibers s (Fibers.fibers s ++ loaded), Raise e).
Proof.
  intros Hpre Hbad. cbn [Fibers.load_previous_work].
  rewrite (load_entries_prefix _ loaded) by done.
  cbn [Fibers.load_entries Fibers.set_fibers Fibers.fiber_colors]. by rewrite Hbad.
Qed.

End FiberFiles.

Lemma fiber_ids_are_positions_witness :
  Fibers.numbered_from (Fibers.fiber_colors Fibers.fresh_session) 0
    (Fibers.fibers Fibers.fresh_session)
  ∧ ∀ (i : nat) (f : Fibers.fiber),
      Fibers.fibers
        (Fibers.run Fibers.no_transform
           (Fibers.one_fiber ++ Fibers.one_fiber ++ [Fibers.UndoLastFiber]
            ++ Fibers.one_fiber)
           Fibers.fresh_session) !! i = Some f →
      Fibers.id f = Z.of_nat i
      ∧ Fibers.color_of (Fibers.fiber_colors Fibers.fresh_session) (Z.of_nat i)
        = Return (Fibers.color f).
Proof.
  split; [exact I|].
  apply (fiber_ids_are_positions Fibers.no_transform
           (Fibers.one_fiber ++ Fibers.one_fiber ++ [Fibers.UndoLastFiber]
            ++ Fibers.one_fiber)
           Fibers.fresh_session).
  exact I.
Defined.

Lemma saved_fibers_carry_bottom_region_witness :
  Fibers.current_bottom (Fibers.current_fiber Fibers.fresh_session) = None
  ∧ ∀ f : Fibers.fiber,
      f ∈ Fibers.fibers
            (Fibers.run Fibers.no_transform Fibers.one_fiber Fibers.fresh_session) →
      f ∈ Fibers.fibers Fibers.fresh_session
      ∨ ∃ t z y x c,
          f = Fibers.fiber_data (Fibers.id f) t (z, y, x) c
                (Tracker.get_region_at_point unit Fibers.no_transform
                   (Fibers.tracker Fibers.fresh_session) z y x).
Proof.
  split; [reflexivity|].
  apply (saved_fibers_carry_bottom_region Fibers.no_transform Fibers.one_fiber
           Fibers.fresh_session).
  reflexivity.
Defined.

Lemma fiber_ends_inside_image_witness :
  0 ≤ Fibers.current_slice
        (Fibers.run Fibers.no_transform Fibers.one_fiber Fibers.fresh_session)
    < Fibers.nz Fibers.fresh_session
  ∧ ∀ f : Fibers.fiber,
      f ∈ Fibers.fibers
            (Fibers.run Fibers.no_transform Fibers.one_fiber Fibers.fresh_session) →
      f ∈ Fibers.fibers Fibers.fresh_session
      ∨ ∃ t b, Fibers.top f = Fibers.triple t ∧ Fibers.bottom f = Fibers.triple b
               ∧ Fibers.inside Fibers.fresh_session t = true
               ∧ Fibers.inside Fibers.fresh_session b = true.
Proof.
  apply (fiber_ends_inside_image Fibers.no_transform Fibers.one_fiber
           Fibers.fresh_session); [simpl; lia|reflexivity|reflexivity].
Defined.

Lemma save_then_load_fibers_witness :
  let files' :=
    Fibers.save_fiber_data "fiber_data.json" Fibers.saved_fibers ∅ in
  files' !! "fiber_data.json" = Some (Fibers.fiber_list Fibers.saved_fibers)
  ∧ Fibers.load_previous_work Fibers.no_specifier
      (Fibers.fiber_list Fibers.saved_fibers) Fibers.fresh_session
    = (Fibers.set_fibers Fibers.fresh_session
         (Fibers.fibers Fibers.fresh_session
          ++ map Fibers.reloaded Fibers.saved_fibers), Return ())
  ∧ Fibers.save_fiber_data "fiber_data.json"
      (map Fibers.reloaded Fibers.saved_fibers) ∅ = files'.
Proof.
  apply (save_then_load_fibers Fibers.no_specifier Fibers.fresh_session
           Fibers.saved_fibers "fiber_data.json" ∅).
  vm_compute. repeat constructor.
Defined.

Lemma load_previous_work_partial_witness :
  Fibers.load_previous_work Fibers.no_specifier
    (Landmarks.JList
       (map Fibers.fiber_to_json Fibers.saved_fibers
        ++ Fibers.entry_without_id :: map Fibers.fiber_to_json Fibers.saved_fibers))
    Fibers.fresh_session
  = (Fibers.set_fibers Fibers.fresh_session
       (Fibers.fibers Fibers.fresh_session
        ++ map Fibers.reloaded Fibers.saved_fibers),
     Raise (KeyError "fiber_id")).
Proof.
  apply (load_previous_work_partial Fibers.no_specifier Fibers.fresh_session
           (map Fibers.fiber_to_json Fibers.saved_fibers)
           (map Fibers.fiber_to_json Fibers.saved_fibers)
           Fibers.entry_without_id
           (map Fibers.reloaded Fibers.saved_fibers) (KeyError "fiber_id"));
    vm_compute; reflexivity.
Defined.

(** ** The ontology read from the structure graph *)

Section OntologyFacts.
Implicit Types m : Tracker.ontology.
Implicit Types n : Ontology.node.

Local Abbreviation register :=
  (λ (acc : Tracker.ontology) (r : Tracker.region_info),
     <[Tracker.info_id r := r]> acc).

Lemma find_snoc {A} (p : A → bool) (l : list A) (x : A) :
  find p (l ++ [x])
  = match find p l with
    | Some y => Some y
    | None => if p x then Some x else None
    end.
Proof.
  induction l as [|a l IH]; [done|]. cbn [app find]. by destruct (p a).
Qed.

Lemma fold_register_lookup (l : list Tracker.region_info) m (region_id : Z) :
  fold_left register l m !! region_id
  = from_option Some (m !! region_id) (Ontology.last_with_id region_id l).
Proof.
  revert m. induction l as [|r l IH]; intros m; [done|].
  cbn [fold_left]. rewrite IH. unfold Ontology.last_with_id.
  cbn [rev]. rewrite find_snoc.
  destruct (find _ (rev l)) as [y|]; [done|].
  destruct (Z.eqb_spec (Tracker.info_id r) region_id) as [<-|Hne].
  - by rewrite lookup_insert_eq.
  - by rewrite lookup_insert_ne.
Qed.

(** The recursion visits the graph in document order. *)
Lemma parse_structure_tree_structures n m :
  Ontology.parse_structure_tree n m
  = fold_left register (Ontology.structures n) m.
Proof.
  revert n m. fix IH 1.
  intros [id name acronym parent color children msg|items|s|] m.
  - cbn [Ontology.parse_structure_tree Ontology.structures].
    rewrite fold_left_app.
    assert (Hhead :
      match id with
      | Some struct_id =>
          <[struct_id := Ontology.info_of struct_id name acronym parent color]> m
      | None => m
      end
      = fold_left register
          match id with
          | Some struct_id => [Ontology.info_of struct_id name acronym parent color]
          | None => []
          end m) by (by destruct id).
    rewrite <- Hhead. clear Hhead.
    generalize (match id with
                | Some struct_id =>
                    <[struct_id := Ontology.info_of struct_id name acronym parent color]> m
                | None => m
                end).
    intros m1. destruct children as [cs|]; [|done].
    revert m1. induction cs as [|c cs IHcs]; intros m1; [done|].
    cbn [fold_left flat_map]. rewrite fold_left_app, IH. apply IHcs.
  - cbn [Ontology.parse_structure_tree Ontology.structures].
    revert m. induction items as [|c cs IHcs]; intros m; [done|].
    cbn [fold_left flat_map]. rewrite fold_left_app, IH. apply IHcs.
  - done.
  - done.
Qed.

(** [parse_ontology] finds every structure of the graph, at any depth of
    ['children'] and in any list: when the document can be entered (under
    ['msg'] if there is such a key), the call does not raise, and afterwards
    [id_to_info] holds under each id the record of the last structure of the
    graph with that id (a missing name becomes [Region_<id>], a missing
    acronym the empty string, a missing colour [FFFFFF]); ids that do not
    occur in the graph keep what they had. [get_region_info] then returns that
    record for every non-zero id of the graph. *)
Theorem parse_ontology_registers (data graph : Ontology.node) m :
  Ontology.graph_of data = Return graph →
  let after := Ontology.parse_ontology data m in
  after.2 = Return ()
  ∧ (∀ region_id : Z,
       after.1 !! region_id
       = from_option Some (m !! region_id)
           (Ontology.last_with_id region_id (Ontology.structures graph)))
  ∧ (∀ r : Tracker.region_info,
       Ontology.last_with_id (Tracker.info_id r) (Ontology.structures graph) = Some r →
       Tracker.info_id r ≠ 0 →
       Tracker.get_region_info after.1 (Tracker.info_id r) = r).
Proof.
  intros Hgraph after. subst after. unfold Ontology.parse_ontology.
  rewrite Hgraph. cbn [fst snd].
  assert (Hlookup : ∀ region_id : Z,
    Ontology.parse_structure_tree graph m !! region_id
    = from_option Some (m !! region_id)
        (Ontology.last_with_id region_id (Ontology.structures graph))).
  { intros region_id. rewrite parse_structure_tree_structures.
    apply fold_register_lookup. }
  split_and!; [done|done|].
  intros r Hlast Hne. unfold Tracker.get_region_info.
  destruct (Z.eqb_spec (Tracker.info_id r) 0) as [|_]; [done|].
  by rewrite Hlookup, Hlast.
Qed.

End OntologyFacts.

Lemma parse_ontology_registers_witness :
  let after := Ontology.parse_ontology Ontology.allen_top (∅ : Tracker.ontology) in
  after.2 = Return ()
  ∧ (∀ region_id : Z,
       after.1 !! region_id
       = from_option Some ((∅ : Tracker.ontology) !! region_id)
           (Ontology.last_with_id region_id
              (Ontology.structures Ontology.allen_graph)))
  ∧ (∀ r : Tracker.region_info,
       Ontology.last_with_id (Tracker.info_id r)
         (Ontology.structures Ontology.allen_graph) = Some r →
       Tracker.info_id r ≠ 0 →
       Tracker.get_region_info after.1 (Tracker.info_id r) = r).
Proof.
  apply (parse_ontology_registers Ontology.allen_top Ontology.allen_graph ∅).
  reflexivity.
Defined.

Lemma mark_and_save_fiber_witness :
  let s' := Fibers.run Fibers.no_transform
              (Fibers.Click (Fibers.click 1 1)
               :: map Fibers.Scroll [Fibers.scroll "down"]
               ++ [Fibers.Click (Fibers.click 0.4 1.2); Fibers.NextFiber])
              Fibers.fresh_session in
  Fibers.fibers s'
  = Fibers.fibers Fibers.fresh_session
    ++ [Fibers.fiber_data 0 (2, 1, 1) (1, 1, 0) [0.5; 0.5; 0.5; 1]%float
          (Tracker.get_region_at_point unit Fibers.no_transform
             (Fibers.tracker Fibers.fresh_session) 1 1 0)]
  ∧ Fibers.current_fiber s'
    = {| Fibers.current_top := None; Fibers.current_bottom := None;
         Fibers.current_region_info := None |}
  ∧ Fibers.current_points s' = [].
Proof.
  apply (mark_and_save_fiber Fibers.no_transform Fibers.fresh_session
           (Fibers.click 1 1) (Fibers.click 0.4 1.2) [Fibers.scroll "down"]
           1%float 0.4%float 1 1 0 1 [0.5; 0.5; 0.5; 1]%float);
    first [reflexivity | simpl; lia].
Defined.
